(** * Authentication and session-token engine of the admissions backend

    A shallow embedding of [services/auth_service.py] (class [AuthService])
    together with the three tables it works on ([database/schema.py]: [User],
    [TeacherRequest], [RefreshToken]).

    Conventions of the embedding.
    - A Python [str] is the Rocq string of its UTF-8 bytes, so
      [.encode('utf-8')] is the identity; [len] counts code points
      ([Str.len]) and the byte length is [String.length].  [str.strip] is
      modelled on all of Unicode, [str.lower] on ASCII; a property that
      depends on [str.lower] is stated for ASCII strings, and one that
      depends on a string reaching the store for strings without NUL, which
      the PostgreSQL driver refuses.
    - [datetime] values are integers, in seconds; one operation reads the
      clock once ([utcnow] of its environment).
    - A Python exception is a value of [exn]; a function that may raise
      returns a [result].
    - The relational store is a record [DB] of committed tables.  A function
      that commits returns the store as it is committed when the function
      leaves, whether it returns or raises.
    - Randomness ([uuid.uuid4], the bytes behind [bcrypt.gensalt]) and the
      clock are inputs, gathered in [Env].
    - The two cryptographic primitives of the libraries (the bcrypt key
      derivation and HMAC-SHA256) are parameters of the development.
    - The libraries are bcrypt 5, PyJWT 2 and SQLAlchemy on PostgreSQL, as
      [database/database.py] configures it. *)

From Stdlib Require Import ZArith NArith String Ascii List Bool Lia.
From stdpp Require Import base option gmap strings list fin_maps.

Local Open Scope string_scope.
Local Open Scope Z_scope.

(** ** Exceptions and results *)

(** The exceptions the service meets.  The first group is raised by the
    libraries; the others are the [ValueError]s of [AuthService], one
    constructor per message; a constructor with a [cause] is a message built
    from [str(e)] of a caught exception. *)
Inductive exn : Type :=
| ExpiredSignatureError                (* jwt *)
| InvalidSignatureError                (* jwt, an InvalidTokenError *)
| ImmatureSignatureError               (* jwt, an InvalidTokenError: iat in the future *)
| DecodeError                          (* jwt, an InvalidTokenError *)
| InvalidSalt                          (* bcrypt: ValueError("Invalid salt") *)
| PasswordTooLong                      (* bcrypt: ValueError("password cannot be longer than 72 bytes, ...") *)
| IntegrityError                       (* sqlalchemy: a key or unique constraint *)
| DataError                            (* sqlalchemy: a value the column type refuses *)
| TokenExpired                         (* "Срок действия токена истек" *)
| InvalidToken (cause : exn)           (* "Недействительный токен: ..." *)
| WrongTokenType                       (* "Неверный тип токена" *)
| BadToken                             (* "Неверный токен" *)
| TokenRevoked                         (* "Токен был отозван" *)
| UserNotFound                         (* "Пользователь не найден" *)
| UserInactive                         (* "Пользователь неактивен" *)
| RefreshTokenNotFound                 (* "Refresh токен не найден или истек" *)
| UserNotFoundOrInactive               (* "Пользователь не найден или неактивен" *)
| EmailNotFound                        (* "Пользователь с таким email не найден" *)
| AccountPending                       (* "Аккаунт ожидает активации администратором" *)
| AccountRejected                      (* "Ваша заявка была отклонена администратором" *)
| AccountDeactivated                   (* "Пользователь неактивен. Обратитесь к администратору." *)
| WrongPassword                        (* "Неверный пароль" *)
| BadEmailFormat                       (* "Неверный формат email" *)
| PasswordTooShort                     (* "Пароль должен содержать минимум 6 символов" *)
| NameTooShort                         (* "Имя должно содержать минимум 2 символа" *)
| EmailTaken                           (* "Пользователь с таким email уже существует" *)
| NewPasswordTooShort                  (* "Новый пароль должен содержать минимум 6 символов" *)
| CannotIdentifyUser                   (* "Не удалось определить пользователя" *)
| ResetTokenExpired                    (* "Токен сброса пароля истек" *)
| ResetTokenInvalid                    (* "Недействительный токен сброса пароля" *)
| LoginFailed (cause : exn)            (* "Ошибка входа: ..." *)
| RegisterFailed (cause : exn)         (* "Ошибка регистрации: ..." *)
| GetUserFailed (cause : exn)          (* "Ошибка получения пользователя: ..." *)
| RefreshFailed (cause : exn)          (* "Ошибка обновления токенов: ..." *)
| LogoutFailed (cause : exn)           (* "Ошибка выхода: ..." *)
| ChangePasswordFailed (cause : exn)   (* "Ошибка смены пароля: ..." *)
| ResetPasswordFailed (cause : exn)    (* "Ошибка сброса пароля: ..." *)
| ResetRequestFailed (cause : exn).    (* "Ошибка запроса сброса пароля: ..." *)

(** [isinstance(e, ValueError)]: everything but the jwt and sqlalchemy
    exceptions. *)
Definition is_ValueError (e : exn) : bool :=
  match e with
  | ExpiredSignatureError | InvalidSignatureError | ImmatureSignatureError
  | DecodeError | IntegrityError | DataError => false
  | _ => true
  end.

Inductive result (A : Type) : Type :=
| Ok (a : A)
| Raise (e : exn).
Arguments Ok {A} a.
Arguments Raise {A} e.

(** The error monad, with stdpp's notation [x ← r; k]. *)
#[export] Instance result_ret : MRet result := @Ok.
#[export] Instance result_bind : MBind result := fun A B k r =>
  match r with
  | Ok a => k a
  | Raise e => Raise e
  end.

(** [try: body except Exception as e: raise ValueError(prefix + str(e))]. *)
Definition except_Exception {A} (wrap : exn -> exn) (r : result A) : result A :=
  match r with
  | Ok a => Ok a
  | Raise e => Raise (wrap e)
  end.

(** [try: body except ValueError as e: raise e
     except Exception as e: raise ValueError(prefix + str(e))]. *)
Definition except_ValueError {A} (wrap : exn -> exn) (r : result A) : result A :=
  match r with
  | Ok a => Ok a
  | Raise e => Raise (if is_ValueError e then e else wrap e)
  end.

Definition is_Ok {A} (r : result A) : bool :=
  match r with Ok _ => true | Raise _ => false end.

(** Python truthiness of an optional string ([None] and [''] are falsy). *)
Definition truthy (o : option string) : bool :=
  match o with
  | Some s => negb (bool_decide (s = ""))
  | None => false
  end.

(** ** The bcrypt library (format layer)

    [bcrypt.gensalt], [bcrypt.hashpw] and [bcrypt.checkpw] of bcrypt 5, on
    byte strings.  The key derivation is the parameter [bcrypt_hashpass]. *)

Module Bcrypt.

(** The radix-64 alphabet of bcrypt. *)
Definition alphabet : string :=
  "./ABCDEFGHIJKLMNOPQRSTUVWXYZabcdefghijklmnopqrstuvwxyz0123456789".

Definition b64char (n : N) : ascii :=
  default "."%char (String.get (N.to_nat n) alphabet).

Definition is_b64 (c : ascii) : bool :=
  existsb (Ascii.eqb c) (list_ascii_of_string alphabet).

(** The position of a character in a string (its length when absent). *)
Fixpoint index_of (c : ascii) (s : string) : N :=
  match s with
  | "" => 0%N
  | String c' s' => if Ascii.eqb c c' then 0%N else N.succ (index_of c s')
  end.

Definition b64index (c : ascii) : N := index_of c alphabet.

Definition is_digit (c : ascii) : bool :=
  existsb (Ascii.eqb c) (list_ascii_of_string "0123456789").

(** [k] radix-64 digits of [n], least significant first. *)
Fixpoint encode (k : nat) (n : N) : string :=
  match k with
  | O => ""
  | S k' => String (b64char (n mod 64)%N) (encode k' (n / 64)%N)
  end.

(** The 22 characters that carry the 16 bytes of a salt, here the number
    [entropy] modulo 2^128: 21 characters of six bits, and a last one whose
    two high bits are used and whose four low bits are zero. *)
Definition encode_salt (entropy : N) : string :=
  encode 21 entropy
  +:+ String (b64char (16 * ((entropy / 64 ^ 21) mod 4))%N) "".

(** [bcrypt.gensalt()]: prefix 2b, 12 rounds, 16 bytes drawn from the
    operating system, here [entropy]. *)
Definition gensalt (entropy : N) : string :=
  "$2b$12$" +:+ encode_salt entropy.

(** The first [n] characters of [s], when it has that many. *)
Fixpoint take (n : nat) (s : string) : option string :=
  match n with
  | O => Some ""
  | S n' =>
      match s with
      | "" => None
      | String c s' => String c <$> take n' s'
      end
  end.

(** [s.split(sep)]: the pieces between the separators. *)
Fixpoint split (sep : ascii) (s : string) : list string :=
  match s with
  | "" => [""]
  | String c s' =>
      if Ascii.eqb c sep then "" :: split sep s'
      else match split sep s' with
           | p :: ps => String c p :: ps
           | [] => [String c ""]
           end
  end.

(** The pieces of a hash string between its [$] signs, the empty ones
    dropped. *)
Definition fields (h : string) : list string :=
  List.filter (fun p => negb (String.eqb p "")) (split "$" h).

Fixpoint decimal (s : string) (acc : N) : option N :=
  match s with
  | "" => Some acc
  | String c s' =>
      if is_digit c
      then decimal s' (acc * 10 + (N.of_nat (nat_of_ascii c) - 48))%N
      else None
  end.

(** The cost field read as an unsigned integer: an optional [+], then one
    decimal digit or more. *)
Definition parse_unsigned (s : string) : option N :=
  let digits := match s with String "+" s' => s' | _ => s end in
  match digits with
  | "" => None
  | _ => decimal digits 0
  end.

(** What [hashpw] reads in a hash string: three fields, of which the version,
    the cost as a number, and the first 22 characters of the third. *)
Definition setting_fields (h : string) : option (string * N * string) :=
  match fields h with
  | [version; cost; rest] =>
      c ← parse_unsigned cost;
      salt ← take 22 rest;
      Some (version, c, salt)
  | _ => None
  end.

Definition version_ok (version : string) : bool :=
  existsb (String.eqb version) ["2y"; "2b"; "2a"; "2x"].

Definition cost_ok (cost : N) : bool := ((4 <=? cost) && (cost <=? 31))%N.

Definition salt_chars_ok (salt : string) : bool :=
  forallb is_b64 (list_ascii_of_string salt).

(** The 22nd character of a salt has its four low bits zero. *)
Definition salt_canonical (salt : string) : bool :=
  match String.get 21 salt with
  | Some c => (b64index c mod 16 =? 0)%N
  | None => false
  end.

(** The fields of a hash string are a version, a cost and salt characters
    that bcrypt knows. *)
Definition readable (h : string) : bool :=
  match setting_fields h with
  | Some (version, cost, salt) =>
      version_ok version && cost_ok cost && salt_chars_ok salt
  | None => false
  end.

Definition two_digits (n : N) : string :=
  String (ascii_of_N (48 + n / 10)) (String (ascii_of_N (48 + n mod 10)) "").

(** The setting under which [hashpw] hashes, as it writes it at the head of
    its result: [$version$cost$salt], 29 characters. *)
Definition parse_setting (h : string) : option string :=
  '(version, cost, salt) ← setting_fields h;
  if version_ok version && cost_ok cost && salt_chars_ok salt
     && salt_canonical salt
  then Some ("$" +:+ version +:+ "$" +:+ two_digits cost +:+ "$" +:+ salt)
  else None.

Section Primitive.
(** The key derivation itself: setting and password to the 23 bytes of the
    digest, as a number. *)
Variable bcrypt_hashpass : string -> string -> N.

(** The 31 characters of the digest. *)
Definition digest (setting password : string) : string :=
  encode 31 (bcrypt_hashpass setting password).

(** [bcrypt.hashpw(password, salt)]; [salt] may be a whole hash string, of
    which the setting is used.  Raises on a password of more than 72 bytes
    and on a setting it cannot read. *)
Definition hashpw (password salt : string) : result string :=
  if (72 <? String.length password)%nat then Raise PasswordTooLong
  else
    match parse_setting salt with
    | Some setting => Ok (setting +:+ digest setting password)
    | None => Raise InvalidSalt
    end.

(** [bcrypt.checkpw(password, hashed_password)]: re-hash under the
    setting of [hashed_password] and compare. *)
Definition checkpw (password hashed_password : string) : result bool :=
  ret ← hashpw password hashed_password;
  Ok (bool_decide (ret = hashed_password)).
End Primitive.

End Bcrypt.

(** ** Python string methods used by the service, on UTF-8 bytes *)

Module Str.

(** A byte that continues a code point ([10xxxxxx]). *)
Definition is_continuation (c : ascii) : bool :=
  let n := nat_of_ascii c in ((128 <=? n) && (n <? 192))%nat.

Fixpoint len_nat (s : string) : nat :=
  match s with
  | "" => 0%nat
  | String c s' => ((if is_continuation c then 0 else 1) + len_nat s')%nat
  end.

(** [len(s)]: the number of code points. *)
Definition len (s : string) : Z := Z.of_nat (len_nat s).

(** [s.isascii()]. *)
Definition is_ascii (s : string) : bool :=
  forallb (fun c => (nat_of_ascii c <? 128)%nat) (list_ascii_of_string s).

(** The characters [str.strip] removes ([str.isspace]): U+0009 to U+000D,
    U+001C to U+0020, and, in two and three bytes, U+0085, U+00A0, U+1680,
    U+2000 to U+200A, U+2028, U+2029, U+202F, U+205F and U+3000. *)
Definition is_space (c : ascii) : bool :=
  let n := nat_of_ascii c in
  ((9 <=? n) && (n <=? 13) || (28 <=? n) && (n <=? 32))%nat.

Definition is_space2 (c1 c2 : ascii) : bool :=
  let n1 := nat_of_ascii c1 in
  let n2 := nat_of_ascii c2 in
  ((n1 =? 194) && ((n2 =? 133) || (n2 =? 160)))%nat.

Definition is_space3 (c1 c2 c3 : ascii) : bool :=
  let n1 := nat_of_ascii c1 in
  let n2 := nat_of_ascii c2 in
  let n3 := nat_of_ascii c3 in
  ((n1 =? 225) && (n2 =? 154) && (n3 =? 128)
   || (n1 =? 226) && (n2 =? 128)
      && ((128 <=? n3) && (n3 <=? 138) || (n3 =? 168) || (n3 =? 169)
          || (n3 =? 175))
   || (n1 =? 226) && (n2 =? 129) && (n3 =? 159)
   || (n1 =? 227) && (n2 =? 128) && (n3 =? 128))%nat.

(** [str.lower] on a string of ASCII characters.  The letters outside ASCII,
    which [str.lower] maps too, are left as they are: what depends on the
    result is stated for ASCII strings ([is_ascii]). *)
Definition lower_char (c : ascii) : ascii :=
  let n := nat_of_ascii c in
  if ((65 <=? n) && (n <=? 90))%nat then ascii_of_nat (n + 32) else c.

Fixpoint lower (s : string) : string :=
  match s with
  | "" => ""
  | String c s' => String (lower_char c) (lower s')
  end.

Fixpoint lstrip (s : string) : string :=
  match s with
  | "" => ""
  | String c1 s1 =>
      if is_space c1 then lstrip s1
      else
        match s1 with
        | "" => s
        | String c2 s2 =>
            if is_space2 c1 c2 then lstrip s2
            else
              match s2 with
              | "" => s
              | String c3 s3 => if is_space3 c1 c2 c3 then lstrip s3 else s
              end
        end
  end.

Fixpoint rev_onto (s acc : string) : string :=
  match s with
  | "" => acc
  | String c s' => rev_onto s' (String c acc)
  end.

(** [lstrip] on a string read from its end. *)
Fixpoint lstrip_rev (s : string) : string :=
  match s with
  | "" => ""
  | String c1 s1 =>
      if is_space c1 then lstrip_rev s1
      else
        match s1 with
        | "" => s
        | String c2 s2 =>
            if is_space2 c2 c1 then lstrip_rev s2
            else
              match s2 with
              | "" => s
              | String c3 s3 =>
                  if is_space3 c3 c2 c1 then lstrip_rev s3 else s
              end
        end
  end.

(** [s.strip()]. *)
Definition strip (s : string) : string :=
  rev_onto (lstrip_rev (rev_onto (lstrip s) "")) "".

(** [c in s]. *)
Fixpoint contains (c : ascii) (s : string) : bool :=
  match s with
  | "" => false
  | String c' s' => Ascii.eqb c c' || contains c s'
  end.

(** No NUL character: the PostgreSQL driver refuses a string that has
    one. *)
Definition no_nul (s : string) : bool := negb (contains "000"%char s).

End Str.

(** ** Column types (database/schema.py, on PostgreSQL) *)

Module Column.

(** [String(n)]: a value of more than [n] characters is refused.
    (PostgreSQL cuts a value whose characters in excess are all spaces
    instead of refusing it; that case is counted as refused here.) *)
Definition varchar (n : Z) (s : string) : bool := Str.len s <=? n.

(** [Integer]: 32 bits, signed. *)
Definition integer (z : Z) : bool := (- 2 ^ 31 <=? z) && (z <? 2 ^ 31).

End Column.

(** ** Rows of the store (database/schema.py) *)

(** Table [users].  The columns the session engine never reads
    (date_of_birth, assigned_departments, assigned_specialities, experience,
    education, approved_by, approved_at) are left out. *)
Module User.
Record t : Type := mk {
  id : string;
  email : string;
  full_name : string;
  phone : string;
  role : string;
  max_students : Z;
  current_students_count : Z;
  password_hash : string;
  is_active : bool;
  created_at : Z;
  updated_at : Z;
  last_login : option Z
}.

Definition set_last_login (v : Z) (u : t) : t :=
  mk (id u) (email u) (full_name u) (phone u) (role u) (max_students u)
     (current_students_count u) (password_hash u) (is_active u)
     (created_at u) (updated_at u) (Some v).

Definition set_password_hash (v : string) (u : t) : t :=
  mk (id u) (email u) (full_name u) (phone u) (role u) (max_students u)
     (current_students_count u) v (is_active u)
     (created_at u) (updated_at u) (last_login u).

Definition set_updated_at (v : Z) (u : t) : t :=
  mk (id u) (email u) (full_name u) (phone u) (role u) (max_students u)
     (current_students_count u) (password_hash u) (is_active u)
     (created_at u) v (last_login u).

Definition set_is_active (v : bool) (u : t) : t :=
  mk (id u) (email u) (full_name u) (phone u) (role u) (max_students u)
     (current_students_count u) (password_hash u) v
     (created_at u) (updated_at u) (last_login u).

(** The values fit their columns: [String(50)], [String(100)],
    [String(200)], [String(20)], [String(20)], [Integer], [Integer],
    [String(255)]. *)
Definition storable (u : t) : bool :=
  Column.varchar 50 (id u) && Column.varchar 100 (email u)
  && Column.varchar 200 (full_name u) && Column.varchar 20 (phone u)
  && Column.varchar 20 (role u) && Column.integer (max_students u)
  && Column.integer (current_students_count u)
  && Column.varchar 255 (password_hash u).
End User.

(** Table [teacher_requests], with the columns the login path reads. *)
Module TeacherRequest.
Record t : Type := mk {
  id : string;
  full_name : string;
  email : string;
  status : string
}.
End TeacherRequest.

(** Table [refresh_tokens].  The primary key [id] (the token's jti) is the
    key under which the store keeps the row, so a row carries the other
    columns. *)
Module RefreshToken.
Record t : Type := mk {
  user_id : string;
  token_hash : string;
  device_info : string;
  expires_at : Z;
  created_at : Z;
  revoked_at : option Z;
  is_revoked : bool
}.

(** [is_revoked = True, revoked_at = now]. *)
Definition revoke (now : Z) (r : t) : t :=
  mk (user_id r) (token_hash r) (device_info r) (expires_at r)
     (created_at r) (Some now) true.
End RefreshToken.

(** The committed store.  [users] and [teacher_requests] keep the order of
    insertion, which is the order [.first()] sees; [refresh_tokens] is keyed
    by its primary key. *)
Module DB.
Record t : Type := mk {
  users : list User.t;
  teacher_requests : list TeacherRequest.t;
  refresh_tokens : gmap string RefreshToken.t
}.
End DB.
Abbreviation DB := DB.t.

Definition with_users (us : list User.t) (db : DB) : DB :=
  DB.mk us (DB.teacher_requests db) (DB.refresh_tokens db).

Definition with_refresh_tokens (rts : gmap string RefreshToken.t) (db : DB) : DB :=
  DB.mk (DB.users db) (DB.teacher_requests db) rts.

(** [db.query(User).filter(User.email == email).first()]. *)
Definition user_by_email (email : string) (db : DB) : option User.t :=
  List.find (fun u => bool_decide (User.email u = email)) (DB.users db).

(** [db.query(User).filter(User.id == user_id).first()]. *)
Definition user_by_id (user_id : string) (db : DB) : option User.t :=
  List.find (fun u => bool_decide (User.id u = user_id)) (DB.users db).

(** [db.query(TeacherRequest).filter(TeacherRequest.email == email).first()]. *)
Definition teacher_request_by_email (email : string) (db : DB)
  : option TeacherRequest.t :=
  List.find (fun r => bool_decide (TeacherRequest.email r = email))
            (DB.teacher_requests db).

(** The UPDATE the session flushes for a loaded [User] whose attributes were
    assigned: by primary key; the column [updated_at] has
    [onupdate=datetime.utcnow]. *)
Definition update_user (now : Z) (user_id : string) (f : User.t -> User.t)
  (db : DB) : DB :=
  with_users
    (map (fun u => if bool_decide (User.id u = user_id)
                   then User.set_updated_at now (f u) else u)
         (DB.users db))
    db.

(** [db.add(user); db.commit()]: the store refuses a value that does not
    fit its column, and enforces the primary key and the unique index on
    [email]. *)
Definition insert_user (u : User.t) (db : DB) : result DB :=
  if negb (User.storable u) then Raise DataError
  else
    match user_by_id (User.id u) db, user_by_email (User.email u) db with
    | None, None => Ok (with_users (DB.users db ++ [u]) db)
    | _, _ => Raise IntegrityError
    end.

(** The values [register] and the administrator script take from outside
    fit the columns of [users]. *)
Definition user_columns_ok (email full_name phone role : string)
  (max_students : Z) : bool :=
  Column.varchar 100 email && Column.varchar 200 full_name
  && Column.varchar 20 phone && Column.varchar 20 role
  && Column.integer max_students.

(** [db.add(refresh_token); db.commit()].  The values of a row always fit
    their columns: the id is a uuid, the user id that of a stored row, the
    hash a bcrypt hash. *)
Definition insert_refresh_token (id : string) (r : RefreshToken.t) (db : DB)
  : result DB :=
  match DB.refresh_tokens db !! id with
  | None => Ok (with_refresh_tokens (<[id := r]> (DB.refresh_tokens db)) db)
  | Some _ => Raise IntegrityError
  end.

(** ** Claims, tokens and the JWT library *)

(** A permission map: capability name to flag, in insertion order. *)
Definition Permissions : Type := list (string * bool).

(** The claims the service puts in a token or reads from it; an absent key
    is [None]. *)
Module Claims.
Record t : Type := mk {
  sub : option string;
  email : option string;
  role : option string;
  name : option string;
  permissions : option Permissions;
  exp : option Z;
  iat : option Z;
  type : option string;
  jti : option string
}.
End Claims.

Module Jwt.

(** A compact token: either a signed claim set, or a string that is not
    one. *)
Inductive token : Type :=
| Jws (payload : Claims.t) (signature : string)
| Garbage (raw : string).

Section Primitive.
(** HMAC-SHA256 of the serialised claim set under a key. *)
Variable hmac_sha256 : string -> Claims.t -> string.

(** [jwt.encode(payload, key, algorithm="HS256")]. *)
Definition encode (payload : Claims.t) (key : string) : token :=
  Jws payload (hmac_sha256 key payload).

(** [exp] of a claim set at time [now]: expired when [exp <= now]. *)
Definition validate_exp (payload : Claims.t) (now : Z) : result Claims.t :=
  match Claims.exp payload with
  | Some e => if (e <=? now) then Raise ExpiredSignatureError else Ok payload
  | None => Ok payload
  end.

(** [iat], then [exp]: a token is not yet valid when [iat > now]. *)
Definition validate_claims (payload : Claims.t) (now : Z) : result Claims.t :=
  match Claims.iat payload with
  | Some i => if (now <? i) then Raise ImmatureSignatureError
              else validate_exp payload now
  | None => validate_exp payload now
  end.

(** [jwt.decode(token, key, algorithms=["HS256"])] at time [now]: the
    signature first, then the claims [iat] and [exp]. *)
Definition decode (tok : token) (key : string) (now : Z) : result Claims.t :=
  match tok with
  | Garbage _ => Raise DecodeError
  | Jws payload signature =>
      if bool_decide (signature = hmac_sha256 key payload)
      then validate_claims payload now
      else Raise InvalidSignatureError
  end.
End Primitive.

End Jwt.

(** ** uuid.uuid4 *)

Module Uuid.

Definition hexchar (n : N) : ascii :=
  default "0"%char (String.get (N.to_nat n) "0123456789abcdef").

(** [k] hexadecimal digits of [n]. *)
Fixpoint hex (k : nat) (n : N) : string :=
  match k with
  | O => ""
  | S k' => String (hexchar (n mod 16)%N) (hex k' (n / 16)%N)
  end.

(** [str(uuid.uuid4())] for the 128 random bits [n]: five groups of 8, 4,
    4, 4 and 12 hexadecimal digits. *)
Definition str (n : N) : string :=
  hex 8 n +:+ "-" +:+ hex 4 (n / 16 ^ 8)%N +:+ "-" +:+
  hex 4 (n / 16 ^ 12)%N +:+ "-" +:+ hex 4 (n / 16 ^ 16)%N +:+ "-" +:+
  hex 12 (n / 16 ^ 20)%N.

End Uuid.

(** ** AuthService (services/auth_service.py) *)

(** The fields [__init__] sets from the process environment. *)
Record AuthService : Type := mkAuthService {
  secret_key : string;
  access_token_expire_minutes : Z;
  refresh_token_expire_days : Z;
  password_reset_token_expire_minutes : Z
}.

(** What one operation draws from outside: the clock, and the random values
    behind [uuid.uuid4()] and [bcrypt.gensalt()], one field per call site. *)
Record Env : Type := mkEnv {
  utcnow : Z;
  uuid_user : N;            (* register: id of the new User *)
  uuid_access : N;          (* _create_access_token: jti *)
  uuid_refresh : N;         (* _create_refresh_token: refresh_token_id *)
  salt_password : N;        (* _hash_password: gensalt() *)
  salt_token : N            (* _hash_token: gensalt() *)
}.

(** The dictionary [_user_to_dict] builds ([updated_at] is absent from the
    one [login_with_email_password] builds inline). *)
Record UserDict : Type := mkUserDict {
  ud_id : string;
  ud_email : string;
  ud_full_name : string;
  ud_phone : string;
  ud_role : string;
  ud_max_students : Z;
  ud_current_students_count : Z;
  ud_is_active : bool;
  ud_created_at : Z;
  ud_updated_at : option Z;
  ud_last_login : option Z;
  ud_permissions : Permissions
}.

Record TokenResponse : Type := mkTokenResponse {
  access_token : Jwt.token;
  refresh_token : Jwt.token;
  token_type : string;
  expires_in : Z;
  user : UserDict;
  message : string
}.

Definition set_message (m : string) (r : TokenResponse) : TokenResponse :=
  mkTokenResponse (access_token r) (refresh_token r) (token_type r)
                  (expires_in r) (user r) m.

(** The [user_data] dictionary of [register]; [None] is an absent key. *)
Record RegisterData : Type := mkRegisterData {
  rd_email : option string;
  rd_password : option string;
  rd_full_name : option string;
  rd_role : option string;
  rd_phone : option string;
  rd_max_students : option Z
}.

(** [d[k] = v] on a dictionary that keeps insertion order. *)
Fixpoint dict_set (k : string) (v : bool) (d : Permissions) : Permissions :=
  match d with
  | [] => [(k, v)]
  | (k', v') :: d' =>
      if bool_decide (k' = k) then (k', v) :: d' else (k', v') :: dict_set k v d'
  end.

(** [d.update(other)]. *)
Definition dict_update (d other : Permissions) : Permissions :=
  fold_left (fun acc kv => dict_set kv.1 kv.2 acc) other d.

(** [d.get(k)]. *)
Fixpoint dict_get (k : string) (d : Permissions) : option bool :=
  match d with
  | [] => None
  | (k', v) :: d' => if bool_decide (k' = k) then Some v else dict_get k d'
  end.

(** The initial value of [permissions] in [_get_user_permissions]. *)
Definition all_false : Permissions :=
  [ ("can_view_students", false);
    ("can_edit_students", false);
    ("can_create_students", false);
    ("can_delete_students", false);
    ("can_view_communications", false);
    ("can_create_communications", false);
    ("can_edit_communications", false);
    ("can_delete_communications", false);
    ("can_manage_teachers", false);
    ("can_manage_departments", false);
    ("can_manage_system", false) ].

Definition _get_user_permissions (user : User.t) : Permissions :=
  let permissions := all_false in
  if bool_decide (User.role user = "admin") then
    map (fun kv => (kv.1, true)) permissions
  else if bool_decide (User.role user = "teacher") then
    dict_update permissions
      [ ("can_view_students", true);
        ("can_create_students", true);
        ("can_edit_students", true);
        ("can_view_communications", true);
        ("can_create_communications", true);
        ("can_edit_communications", true) ]
  else if bool_decide (User.role user = "student") then
    dict_update permissions
      [ ("can_view_students", true);
        ("can_view_communications", true) ]
  else permissions.

Definition _user_to_dict (user : User.t) : UserDict :=
  mkUserDict (User.id user) (User.email user) (User.full_name user)
    (User.phone user) (User.role user) (User.max_students user)
    (User.current_students_count user) (User.is_active user)
    (User.created_at user) (Some (User.updated_at user))
    (User.last_login user) (_get_user_permissions user).

(** [token_data] of the login and refresh paths. *)
Definition token_data_of (user : User.t) : Claims.t :=
  Claims.mk (Some (User.id user)) (Some (User.email user))
    (Some (User.role user)) (Some (User.full_name user))
    (Some (_get_user_permissions user)) None None None None.

Definition _is_token_revoked (jti : string) (db : DB) : bool :=
  match DB.refresh_tokens db !! jti with
  | Some r => RefreshToken.is_revoked r
  | None => false
  end.

(** The bulk UPDATE of [logout_all_devices]. *)
Definition revoke_all_for (now : Z) (user_id : string)
  (rts : gmap string RefreshToken.t) : gmap string RefreshToken.t :=
  (fun r => if bool_decide (RefreshToken.user_id r = user_id)
               && negb (RefreshToken.is_revoked r)
            then RefreshToken.revoke now r else r) <$> rts.

(** The row of primary key [id] exists and is revoked. *)
Definition revoked_in (id : string) (db : DB) : Prop :=
  exists r, DB.refresh_tokens db !! id = Some r /\ RefreshToken.is_revoked r = true.

(** ** A concrete instance

    Stand-ins for the two primitives, a configuration and a small store, on
    which the definitions are evaluated. *)

Module Demo.

Definition hashpass (setting password : string) : N :=
  fold_left (fun acc c => (acc * 257 + N.of_nat (nat_of_ascii c))%N)
            (list_ascii_of_string (setting +:+ password)) 7%N.

Definition hmac (key : string) (c : Claims.t) : string :=
  key +:+ "|" +:+ default "" (Claims.sub c) +:+ "|" +:+
  default "" (Claims.type c) +:+ "|" +:+ default "" (Claims.jti c).

(** The defaults of [__init__]: 24 hours, 30 days, 30 minutes. *)
Definition service : AuthService := mkAuthService "k" (60 * 24) 30 30.

Definition env1 : Env := mkEnv 1000 1 2 3 4 5.
Definition env2 : Env := mkEnv 2000 11 12 13 14 15.
Definition env3 : Env := mkEnv 3000 21 22 23 24 25.

(** An active instructor whose secret is ["correct"]. *)
Definition alice : User.t :=
  User.mk "u1" "a@u.edu" "Alice" "" "teacher" 20 0
    (Bcrypt.gensalt 7 +:+ Bcrypt.digest hashpass (Bcrypt.gensalt 7) "correct")
    true 0 0 None.

Definition guest : User.t :=
  User.mk "u2" "g@u.edu" "Guest" "" "guest" 20 0 "" true 0 0 None.

Definition db0 : DB := DB.mk [alice] [] ∅.

(** A store with one refresh row for Alice, and the access token and the
    refresh token of that session, as a login at time 1000 mints them with
    identifiers drawn from 2 and 3. *)
Definition row0 : RefreshToken.t :=
  RefreshToken.mk "u1" "$2b$12$" "{}" (1000 + 30 * 86400) 1000 None false.

Definition db1 : DB := DB.mk [alice] [] {[ Uuid.str 3 := row0 ]}.

Definition access0 : Jwt.token :=
  Jwt.encode hmac
    (Claims.mk (Some "u1") (Some "a@u.edu") (Some "teacher") (Some "Alice")
       (Some (_get_user_permissions alice))
       (Some (1000 + 60 * 24 * 60)) (Some 1000) (Some "access")
       (Some (Uuid.str 2)))
    "k".

Definition refresh0 : Jwt.token :=
  Jwt.encode hmac
    (Claims.mk (Some "u1") None None None None
       (Some (1000 + 30 * 86400)) (Some 1000) (Some "refresh")
       (Some (Uuid.str 3)))
    "k".

(** The same store once Alice's account is deactivated. *)
Definition db1_deactivated : DB :=
  DB.mk [User.set_is_active false alice] [] {[ Uuid.str 3 := row0 ]}.

(** The same store once Alice's refresh row is revoked. *)
Definition db1_revoked : DB :=
  DB.mk [alice] [] {[ Uuid.str 3 := RefreshToken.revoke 1500 row0 ]}.



(** A secret of 73 bytes. *)
Definition long_secret : string :=
  "0123456789012345678901234567890123456789012345678901234567890123456789012".

End Demo.

(** What the [users] table guarantees by its declaration (the primary key
    [id], the unique index on [email]), together with the fact that no
    identifier is the empty string. *)
Definition users_wf (db : DB) : Prop :=
  NoDup (map User.id (DB.users db)) /\
  NoDup (map User.email (DB.users db)) /\
  Forall (fun u => User.id u <> "") (DB.users db).

(** The row of a user after the UPDATE that [update_user] flushes. *)
Definition touched (now : Z) (f : User.t -> User.t) (u : User.t) : User.t :=
  User.set_updated_at now (f u).

(** What identifies an account and decides what it may do: the columns no
    operation of the session engine is meant to touch. *)
Definition account (u : User.t) : string * string * string * bool :=
  (User.id u, User.email u, User.role u, User.is_active u).

(** The capabilities [_get_user_permissions] grants to administrators
    only. *)
Definition admin_only : list string :=
  [ "can_delete_students"; "can_delete_communications";
    "can_manage_teachers"; "can_manage_departments"; "can_manage_system" ].

(** ** Teacher requests in full, and the store with them

    The approval workflow reads and writes columns of [teacher_requests]
    that the session engine never looks at.  A full row is the part the
    session engine sees together with those columns; the columns that only
    feed columns of [users] left out above (assigned_departments, experience,
    education), and with them the [departments] argument of the approval,
    stay out. *)
Module TeacherRequestRow.
Record t : Type := mk {
  core : TeacherRequest.t;
  phone : string;
  max_students : Z;
  requested_at : Z;
  message : string;
  approved_by : option string;
  approved_at : option Z;
  rejected_by : option string;
  rejected_at : option Z;
  rejection_reason : option string;
  user_id : option string
}.

Definition id (r : t) : string := TeacherRequest.id (core r).
Definition email (r : t) : string := TeacherRequest.email (core r).
Definition full_name (r : t) : string := TeacherRequest.full_name (core r).
Definition status (r : t) : string := TeacherRequest.status (core r).

(** The values fit their columns: [String(50)], [String(200)],
    [String(100)], [String(20)], [Integer], [String(20)]. *)
Definition storable (r : t) : bool :=
  Column.varchar 50 (id r) && Column.varchar 200 (full_name r)
  && Column.varchar 100 (email r) && Column.varchar 20 (phone r)
  && Column.integer (max_students r) && Column.varchar 20 (status r).

Definition with_status (s : string) (r : t) : TeacherRequest.t :=
  TeacherRequest.mk (id r) (full_name r) (email r) s.

(** [status = 'approved'], [approved_by], [approved_at], [user_id]. *)
Definition approve (now : Z) (admin_id new_user_id : string) (r : t) : t :=
  mk (with_status "approved" r) (phone r) (max_students r) (requested_at r)
     (message r) (Some admin_id) (Some now) (rejected_by r) (rejected_at r)
     (rejection_reason r) (Some new_user_id).

(** [status = 'rejected'], [rejected_by], [rejected_at],
    [rejection_reason]. *)
Definition reject (now : Z) (admin_id reason : string) (r : t) : t :=
  mk (with_status "rejected" r) (phone r) (max_students r) (requested_at r)
     (message r) (approved_by r) (approved_at r) (Some admin_id) (Some now)
     (Some reason) (user_id r).
End TeacherRequestRow.

Module Store.
Record t : Type := mk {
  users : list User.t;
  teacher_requests : list TeacherRequestRow.t;
  refresh_tokens : gmap string RefreshToken.t
}.
End Store.

(** The store as the session engine sees it. *)
Definition session_view (st : Store.t) : DB :=
  DB.mk (Store.users st)
        (map TeacherRequestRow.core (Store.teacher_requests st))
        (Store.refresh_tokens st).

(** [db.query(TeacherRequest).filter(TeacherRequest.email == email).first()]
    on full rows. *)
Definition request_by_email (email : string) (st : Store.t)
  : option TeacherRequestRow.t :=
  List.find (fun r => bool_decide (TeacherRequestRow.email r = email))
            (Store.teacher_requests st).

(** [db.query(TeacherRequest).filter(TeacherRequest.id == request_id,
    TeacherRequest.status == 'pending').first()]. *)
Definition pending_request (request_id : string) (st : Store.t)
  : option TeacherRequestRow.t :=
  List.find (fun r => bool_decide (TeacherRequestRow.id r = request_id)
                      && bool_decide (TeacherRequestRow.status r = "pending"))
            (Store.teacher_requests st).

(** The UPDATE the session flushes for a loaded [TeacherRequest], by primary
    key. *)
Definition update_request (request_id : string)
  (f : TeacherRequestRow.t -> TeacherRequestRow.t) (st : Store.t) : Store.t :=
  Store.mk (Store.users st)
    (map (fun r => if bool_decide (TeacherRequestRow.id r = request_id)
                   then f r else r)
         (Store.teacher_requests st))
    (Store.refresh_tokens st).

(** The exceptions of the approval workflow: those of the session engine,
    and the [ValueError]s with a message of its own. *)
Inductive request_exn : Type :=
| Svc (e : exn)
| RequestPending                        (* "Заявка уже отправлена и ожидает рассмотрения" *)
| RequestApproved                       (* "Заявка уже одобрена. Проверьте ваш email." *)
| RequestRejected                       (* "Заявка была отклонена. Обратитесь к администратору." *)
| RequestNotPending                     (* "Заявка не найдена или уже обработана" *)
| RequestFailed (cause : request_exn)   (* "Ошибка создания заявки: ..." *)
| ApproveFailed (cause : request_exn)   (* "Ошибка одобрения заявки: ..." *)
| RejectFailed (cause : request_exn).   (* "Ошибка отклонения заявки: ..." *)

(** [isinstance(e, ValueError)]. *)
Definition is_request_ValueError (e : request_exn) : bool :=
  match e with
  | Svc e' => is_ValueError e'
  | _ => true
  end.

Inductive outcome (A : Type) : Type :=
| Returned (a : A)
| Raised (e : request_exn).
Arguments Returned {A} a.
Arguments Raised {A} e.

(** The [user_data] dictionary of [register_teacher_request]; [None] is an
    absent key. *)
Record TeacherRequestData : Type := mkTeacherRequestData {
  trd_email : option string;
  trd_full_name : option string;
  trd_phone : option string;
  trd_max_students : option Z;
  trd_message : option string
}.

(** The dictionary [approve_teacher_request] returns (without its constant
    message). *)
Record Approval : Type := mkApproval {
  ap_user_id : string;
  ap_temp_password : string;
  ap_email : string
}.

(** The dictionary [check_registration_status] returns. *)
Inductive registration_status : Type :=
| Registered (is_active : bool) (role user_id : string)
| Requested (request_status request_id : string)
| NotFound.

(** [db.add(request); db.commit()]: the store refuses a value that does not
    fit its column, and enforces the primary key. *)
Definition insert_request (r : TeacherRequestRow.t) (st : Store.t)
  : outcome Store.t :=
  if negb (TeacherRequestRow.storable r) then Raised (Svc DataError)
  else
    match List.find (fun x => bool_decide (TeacherRequestRow.id x
                                           = TeacherRequestRow.id r))
                    (Store.teacher_requests st) with
    | Some _ => Raised (Svc IntegrityError)
    | None =>
        Returned (Store.mk (Store.users st) (Store.teacher_requests st ++ [r])
                           (Store.refresh_tokens st))
    end.

(** [string.ascii_letters + string.digits + "!@#$%^&*"]. *)
Definition temporary_alphabet : string :=
  "abcdefghijklmnopqrstuvwxyzABCDEFGHIJKLMNOPQRSTUVWXYZ0123456789!@#$%^&*".

(** [secrets.choice(seq)] for the random number [draw]. *)
Definition secrets_choice (seq : string) (draw : N) : ascii :=
  default "a"%char
    (String.get (N.to_nat (draw mod N.of_nat (String.length seq))) seq).

(** [_generate_temporary_password(length)]; [draws i] is the random number
    behind the [i]-th call of [secrets.choice]. *)
Definition _generate_temporary_password (draws : nat -> N) (length : nat)
  : string :=
  string_of_list_ascii
    (map (fun i => secrets_choice temporary_alphabet (draws i)) (seq 0 length)).

(** An answer of an HTTP endpoint: the body, or the status of the
    [HTTPException]. *)
Inductive http (A : Type) : Type :=
| Http200 (body : A)
| HttpError (status : Z).
Arguments Http200 {A} body.
Arguments HttpError {A} status.

(** The constraints the workflow keeps on [teacher_requests]: a status is
    one of the three the code writes, and no two requests have the same
    email. *)
Definition requests_wf (st : Store.t) : Prop :=
  Forall (fun r => TeacherRequestRow.status r = "pending"
                   \/ TeacherRequestRow.status r = "approved"
                   \/ TeacherRequestRow.status r = "rejected")
         (Store.teacher_requests st) /\
  NoDup (map TeacherRequestRow.email (Store.teacher_requests st)).

(** ** A concrete instance of the approval workflow *)

Module Demo2.

(** An active administrator whose secret is ["admin123"]. *)
Definition root : User.t :=
  User.mk "a1" "root@u.edu" "Root" "" "admin" 1000 0
    (Bcrypt.gensalt 9
     +:+ Bcrypt.digest Demo.hashpass (Bcrypt.gensalt 9) "admin123")
    true 0 0 None.

(** A pending request of Carol. *)
Definition carol : TeacherRequestRow.t :=
  TeacherRequestRow.mk
    (TeacherRequest.mk "r1" "Carol" "carol@u.edu" "pending")
    "" 20 500 "" None None None None None None.

Definition store0 : Store.t := Store.mk [root; Demo.alice] [carol] ∅.

Definition dave_request : TeacherRequestData :=
  mkTeacherRequestData (Some " Dave@U.edu ") (Some "Dave") None None None.

Definition carol_again : TeacherRequestData :=
  mkTeacherRequestData (Some "carol@u.edu") (Some "Carol") None None None.

Definition eve_request : RegisterData :=
  mkRegisterData (Some "eve@u.edu") (Some "hunter22") (Some "Eve")
    (Some "admin") None None.

Definition draws (i : nat) : N := N.of_nat (7 * i + 3).

(** Access tokens of the administrator and of Alice, minted at time 1000. *)
Definition root_access : Jwt.token :=
  Jwt.encode Demo.hmac
    (Claims.mk (Some "a1") (Some "root@u.edu") (Some "admin") (Some "Root")
       (Some (_get_user_permissions root))
       (Some (1000 + 60 * 24 * 60)) (Some 1000) (Some "access")
       (Some (Uuid.str 8)))
    "k".

End Demo2.

Section Service.

Variable bcrypt_hashpass : string -> string -> N.
Variable hmac_sha256 : string -> Claims.t -> string.

Variable self : AuthService.

Definition _hash_password (env : Env) (password : string) : result string :=
  let salt := Bcrypt.gensalt (salt_password env) in
  Bcrypt.hashpw bcrypt_hashpass password salt.

Definition _verify_password (plain_password hashed_password : string)
  : result bool :=
  Bcrypt.checkpw bcrypt_hashpass plain_password hashed_password.

Definition _hash_token (env : Env) (token : string) : result string :=
  Bcrypt.hashpw bcrypt_hashpass token (Bcrypt.gensalt (salt_token env)).

(** [expires_delta] is a [timedelta] in seconds or [None]; a zero
    [timedelta] is falsy. *)
Definition _create_access_token (env : Env) (data : Claims.t)
  (expires_delta : option Z) : Jwt.token :=
  let expire :=
    match expires_delta with
    | Some d => if bool_decide (d = 0) then
                  utcnow env + access_token_expire_minutes self * 60
                else utcnow env + d
    | None => utcnow env + access_token_expire_minutes self * 60
    end in
  let to_encode :=
    Claims.mk (Claims.sub data) (Claims.email data) (Claims.role data)
      (Claims.name data) (Claims.permissions data)
      (Some expire) (Some (utcnow env)) (Some "access")
      (Some (Uuid.str (uuid_access env))) in
  Jwt.encode hmac_sha256 to_encode (secret_key self).

Definition _create_refresh_token (env : Env) (user_id : string)
  : Jwt.token * string :=
  let refresh_token_id := Uuid.str (uuid_refresh env) in
  let expires_at := utcnow env + refresh_token_expire_days self * 86400 in
  let token_data :=
    Claims.mk (Some user_id) None None None None
      (Some expires_at) (Some (utcnow env)) (Some "refresh")
      (Some refresh_token_id) in
  (Jwt.encode hmac_sha256 token_data (secret_key self), refresh_token_id).

(** [db.add] and [db.commit] flush whatever the session holds; [db] is the
    store with the session's pending changes applied, and the result is the
    committed store. *)
Definition _save_refresh_token (env : Env) (db : DB) (user_id token_id : string)
  (device_info : option string) (expires_at : option Z) : result DB :=
  let expires_at :=
    match expires_at with
    | Some e => e
    | None => utcnow env + refresh_token_expire_days self * 86400
    end in
  token_hash ← _hash_token env token_id;
  insert_refresh_token token_id
    (RefreshToken.mk user_id token_hash (default "{}" device_info)
       expires_at (utcnow env) None false)
    db.

(** The row [_save_refresh_token] adds when no [expires_at] is given. *)
Definition saved_row (env : Env) (user_id token_id : string)
  (device_info : option string) : RefreshToken.t :=
  RefreshToken.mk user_id
    (Bcrypt.gensalt (salt_token env)
     +:+ Bcrypt.digest bcrypt_hashpass (Bcrypt.gensalt (salt_token env))
                       token_id)
    (default "{}" device_info)
    (utcnow env + refresh_token_expire_days self * 86400)
    (utcnow env) None false.

Definition decode_token (now : Z) (token : Jwt.token) : result Claims.t :=
  match Jwt.decode hmac_sha256 token (secret_key self) now with
  | Ok payload => Ok payload
  | Raise ExpiredSignatureError => Raise TokenExpired
  | Raise e => Raise (InvalidToken e)
  end.

Definition get_current_user (now : Z) (token : Jwt.token) (db : DB)
  : result UserDict :=
  except_Exception GetUserFailed (
    payload ← decode_token now token;
    if negb (bool_decide (Claims.type payload = Some "access")) then
      Raise WrongTokenType
    else
      let user_id := Claims.sub payload in
      if negb (truthy user_id) then Raise BadToken
      else
        let token_jti := Claims.jti payload in
        if truthy token_jti && _is_token_revoked (default "" token_jti) db then
          Raise TokenRevoked
        else
          match user_by_id (default "" user_id) db with
          | None => Raise UserNotFound
          | Some user =>
              if negb (User.is_active user) then Raise UserInactive
              else Ok (_user_to_dict user)
          end).

Definition validate_token (now : Z) (token : Jwt.token) (db : DB) : bool :=
  is_Ok (get_current_user now token db).

Definition logout_all_devices (now : Z) (user_id : string) (db : DB)
  : DB * result string :=
  (with_refresh_tokens (revoke_all_for now user_id (DB.refresh_tokens db)) db,
   Ok "Выполнен выход со всех устройств").

Definition logout (now : Z) (token : Jwt.token) (db : DB)
  : DB * result string :=
  match get_current_user now token db with
  | Ok user =>
      let '(db', r) := logout_all_devices now (ud_id user) db in
      (db', except_Exception LogoutFailed r)
  | Raise e => (db, Raise (LogoutFailed e))
  end.

Definition login_with_email_password (env : Env) (email password : string)
  (db : DB) (device_info : option string) : DB * result TokenResponse :=
  let '(db', r) :=
    match user_by_email email db with
    | None => (db, Raise EmailNotFound)
    | Some user =>
        if negb (User.is_active user) then
          match teacher_request_by_email email db with
          | Some teacher_request =>
              if bool_decide (TeacherRequest.status teacher_request = "pending")
              then (db, Raise AccountPending)
              else if bool_decide (TeacherRequest.status teacher_request = "rejected")
              then (db, Raise AccountRejected)
              else (db, Raise AccountDeactivated)
          | None => (db, Raise AccountDeactivated)
          end
        else
          match _verify_password password (User.password_hash user) with
          | Raise e => (db, Raise e)
          | Ok false => (db, Raise WrongPassword)
          | Ok true =>
              (* user.last_login = utcnow(); db.commit() *)
              let db1 := update_user (utcnow env) (User.id user)
                           (User.set_last_login (utcnow env)) db in
              let user := User.set_updated_at (utcnow env)
                            (User.set_last_login (utcnow env) user) in
              let token_data := token_data_of user in
              let access_token := _create_access_token env token_data None in
              let '(refresh_token, refresh_token_id) :=
                _create_refresh_token env (User.id user) in
              match _save_refresh_token env db1 (User.id user)
                      refresh_token_id device_info None with
              | Raise e => (db1, Raise e)
              | Ok db2 =>
                  let user_data :=
                    mkUserDict (User.id user) (User.email user)
                      (User.full_name user) (User.phone user) (User.role user)
                      (User.max_students user)
                      (User.current_students_count user)
                      (User.is_active user) (User.created_at user) None
                      (User.last_login user) (_get_user_permissions user) in
                  (db2, Ok (mkTokenResponse access_token refresh_token "bearer"
                              (access_token_expire_minutes self * 60) user_data
                              "Вход выполнен успешно"))
              end
          end
    end in
  (db', except_ValueError LoginFailed r).

Definition register (env : Env) (user_data : RegisterData) (db : DB)
  (device_info : option string) : DB * result TokenResponse :=
  let email := Str.lower (Str.strip (default "" (rd_email user_data))) in
  let password := default "" (rd_password user_data) in
  let full_name := Str.strip (default "" (rd_full_name user_data)) in
  let role := default "teacher" (rd_role user_data) in
  let '(db', r) :=
    if bool_decide (email = "") || negb (Str.contains "@" email) then
      (db, Raise BadEmailFormat)
    else if bool_decide (password = "") || (Str.len password <? 6) then
      (db, Raise PasswordTooShort)
    else if bool_decide (full_name = "") || (Str.len full_name <? 2) then
      (db, Raise NameTooShort)
    else
      match user_by_email email db with
      | Some _ => (db, Raise EmailTaken)
      | None =>
          match _hash_password env password with
          | Raise e => (db, Raise e)
          | Ok password_hash =>
              let user :=
                User.mk (Uuid.str (uuid_user env)) email full_name
                  (default "" (rd_phone user_data)) role
                  (default 20 (rd_max_students user_data)) 0 password_hash
                  (if bool_decide (role = "teacher") then false else true)
                  (utcnow env) (utcnow env) None in
              match insert_user user db with
              | Raise e => (db, Raise e)
              | Ok db1 =>
                  let '(db2, login) :=
                    login_with_email_password env email password db1
                      device_info in
                  match login with
                  | Raise e => (db2, Raise e)
                  | Ok login_result =>
                      (db2,
                       Ok (set_message
                             (if bool_decide (role = "teacher")
                              then "Регистрация успешна. Ожидайте активации администратором."
                              else "Регистрация успешна. Аккаунт активирован.")
                             login_result))
                  end
              end
          end
      end in
  (db', except_ValueError RegisterFailed r).

(** [refresh_tokens], what it reads: the token is decoded and the
    [RefreshToken] row and the [User] row are queried. *)
Definition refresh_tokens_read (now : Z) (refresh_token : Jwt.token) (db : DB)
  : result (string * RefreshToken.t * User.t) :=
  payload ← decode_token now refresh_token;
  if negb (bool_decide (Claims.type payload = Some "refresh")) then
    Raise WrongTokenType
  else
    let user_id := Claims.sub payload in
    let token_jti := Claims.jti payload in
    if negb (truthy user_id) || negb (truthy token_jti) then Raise BadToken
    else
      match DB.refresh_tokens db !! default "" token_jti with
      | None => Raise RefreshTokenNotFound
      | Some stored_token =>
          if bool_decide (RefreshToken.user_id stored_token = default "" user_id)
             && negb (RefreshToken.is_revoked stored_token)
             && (now <? RefreshToken.expires_at stored_token)
          then
            match user_by_id (default "" user_id) db with
            | None => Raise UserNotFoundOrInactive
            | Some user =>
                if negb (User.is_active user) then Raise UserNotFoundOrInactive
                else Ok (default "" token_jti, stored_token, user)
            end
          else Raise RefreshTokenNotFound
      end.

(** [refresh_tokens], what it writes: the new pair is minted, the loaded
    row, of primary key [stored_id], is marked revoked (the UPDATE the
    session flushes for [stored_token], by primary key), the new row is
    added, and both are committed together. *)
Definition refresh_tokens_write (env : Env) (stored_id : string)
  (user : User.t) (db : DB) (device_info : option string)
  : DB * result TokenResponse :=
  let token_data := token_data_of user in
  let new_access_token := _create_access_token env token_data None in
  let '(new_refresh_token, new_refresh_token_id) :=
    _create_refresh_token env (User.id user) in
  let pending :=
    with_refresh_tokens
      (alter (RefreshToken.revoke (utcnow env)) stored_id
             (DB.refresh_tokens db)) db in
  match _save_refresh_token env pending (User.id user) new_refresh_token_id
          device_info None with
  | Raise e => (db, Raise e)
  | Ok db' =>
      (db', Ok (mkTokenResponse new_access_token new_refresh_token "bearer"
                  (access_token_expire_minutes self * 60) (_user_to_dict user)
                  "Токены успешно обновлены"))
  end.

(** The rest of [refresh_tokens] once the reads are done, on the store as
    it is when the writes reach it. *)
Definition refresh_tokens_finish (env : Env)
  (read : result (string * RefreshToken.t * User.t)) (db : DB)
  (device_info : option string) : DB * result TokenResponse :=
  match read with
  | Raise e => (db, Raise (RefreshFailed e))
  | Ok (stored_id, stored_token, user) =>
      let '(db', r) := refresh_tokens_write env stored_id user db device_info in
      (db', except_Exception RefreshFailed r)
  end.

(** One call of [refresh_tokens] running alone: the writes meet the store
    the reads saw. *)
Definition refresh_tokens (env : Env) (refresh_token : Jwt.token) (db : DB)
  (device_info : option string) : DB * result TokenResponse :=
  refresh_tokens_finish env
    (refresh_tokens_read (utcnow env) refresh_token db) db device_info.

(** Two calls of [refresh_tokens] on two sessions, scheduled so that both
    have read before either writes; call A commits first.  The answer is
    the final store and the two results. *)
Definition refresh_tokens_overlapped (envA envB : Env)
  (tokenA tokenB : Jwt.token) (db : DB) (deviceA deviceB : option string)
  : DB * result TokenResponse * result TokenResponse :=
  let readA := refresh_tokens_read (utcnow envA) tokenA db in
  let readB := refresh_tokens_read (utcnow envB) tokenB db in
  let '(db1, rA) := refresh_tokens_finish envA readA db deviceA in
  let '(db2, rB) := refresh_tokens_finish envB readB db1 deviceB in
  (db2, rA, rB).

Definition change_password (env : Env) (token : Jwt.token)
  (new_password : string) (db : DB) : DB * result string :=
  let '(db', r) :=
    match get_current_user (utcnow env) token db with
    | Raise e => (db, Raise e)
    | Ok current_user =>
        let user_id := ud_id current_user in
        if bool_decide (user_id = "") then (db, Raise CannotIdentifyUser)
        else
          match user_by_id user_id db with
          | None => (db, Raise UserNotFound)
          | Some user =>
              if Str.len new_password <? 6 then (db, Raise NewPasswordTooShort)
              else
                match _hash_password env new_password with
                | Raise e => (db, Raise e)
                | Ok password_hash =>
                    let pending :=
                      update_user (utcnow env) user_id
                        (User.set_password_hash password_hash) db in
                    let '(db1, _) :=
                      logout_all_devices (utcnow env) user_id pending in
                    (db1, Ok "Пароль успешно изменен. Выполнен выход со всех устройств.")
                end
          end
    end in
  (db', except_ValueError ChangePasswordFailed r).

Definition reset_password_request (env : Env) (email : string) (db : DB)
  : result Jwt.token :=
  except_Exception ResetRequestFailed (
    match user_by_email email db with
    | None => Raise EmailNotFound
    | Some user =>
        let reset_token_data :=
          Claims.mk (Some (User.id user)) None None None None
            (Some (utcnow env + password_reset_token_expire_minutes self * 60))
            (Some (utcnow env)) (Some "password_reset") None in
        Ok (Jwt.encode hmac_sha256 reset_token_data (secret_key self))
    end).

Definition reset_password_with_token (env : Env) (reset_token : Jwt.token)
  (new_password : string) (db : DB) : DB * result string :=
  let '(db', r) :=
    match Jwt.decode hmac_sha256 reset_token (secret_key self) (utcnow env) with
    | Raise ExpiredSignatureError => (db, Raise ResetTokenExpired)
    | Raise _ => (db, Raise ResetTokenInvalid)
    | Ok payload =>
        if negb (bool_decide (Claims.type payload = Some "password_reset")) then
          (db, Raise WrongTokenType)
        else
          let user_id := Claims.sub payload in
          if negb (truthy user_id) then (db, Raise BadToken)
          else
            match user_by_id (default "" user_id) db with
            | None => (db, Raise UserNotFound)
            | Some user =>
                if Str.len new_password <? 6 then (db, Raise NewPasswordTooShort)
                else
                  match _hash_password env new_password with
                  | Raise e => (db, Raise e)
                  | Ok password_hash =>
                      let pending :=
                        update_user (utcnow env) (default "" user_id)
                          (User.set_password_hash password_hash) db in
                      let '(db1, _) :=
                        logout_all_devices (utcnow env) (default "" user_id)
                          pending in
                      (db1, Ok "Пароль успешно сброшен. Выполнен выход со всех устройств.")
                  end
            end
    end in
  (db', except_ValueError ResetPasswordFailed r).

(** *** The session engine as a transition system *)

(** One call of a public operation of the session engine. *)
Inductive Op : Type :=
| OpLogin (email password : string) (device_info : option string)
| OpRegister (user_data : RegisterData) (device_info : option string)
| OpRefresh (refresh_token : Jwt.token) (device_info : option string)
| OpLogout (token : Jwt.token)
| OpLogoutAll (user_id : string)
| OpChangePassword (token : Jwt.token) (new_password : string)
| OpResetRequest (email : string)
| OpResetPassword (reset_token : Jwt.token) (new_password : string).

(** The store after one call, whatever the call answers. *)
Definition step (env : Env) (op : Op) (db : DB) : DB :=
  match op with
  | OpLogin email password device_info =>
      (login_with_email_password env email password db device_info).1
  | OpRegister user_data device_info =>
      (register env user_data db device_info).1
  | OpRefresh refresh_token device_info =>
      (refresh_tokens env refresh_token db device_info).1
  | OpLogout token => (logout (utcnow env) token db).1
  | OpLogoutAll user_id => (logout_all_devices (utcnow env) user_id db).1
  | OpChangePassword token new_password =>
      (change_password env token new_password db).1
  | OpResetRequest email => db
  | OpResetPassword reset_token new_password =>
      (reset_password_with_token env reset_token new_password db).1
  end.

(** The store after a sequence of calls, each with its own environment. *)
Fixpoint run (calls : list (Env * Op)) (db : DB) : DB :=
  match calls with
  | [] => db
  | (env, op) :: calls' => run calls' (step env op db)
  end.

(** *** The approval workflow of teachers *)

Definition register_teacher_request (env : Env) (request_uuid : N)
  (user_data : TeacherRequestData) (st : Store.t) : Store.t * outcome string :=
  let email := Str.lower (Str.strip (default "" (trd_email user_data))) in
  let full_name := Str.strip (default "" (trd_full_name user_data)) in
  let r : outcome (Store.t * string) :=
    if bool_decide (email = "") || negb (Str.contains "@" email) then
      Raised (Svc BadEmailFormat)
    else if bool_decide (full_name = "") || (Str.len full_name <? 2) then
      Raised (Svc NameTooShort)
    else
      match user_by_email email (session_view st) with
      | Some _ => Raised (Svc EmailTaken)
      | None =>
          let blocked :=
            match request_by_email email st with
            | Some existing_request =>
                let status := TeacherRequestRow.status existing_request in
                if bool_decide (status = "pending") then Some RequestPending
                else if bool_decide (status = "approved") then Some RequestApproved
                else if bool_decide (status = "rejected") then Some RequestRejected
                else None
            | None => None
            end in
          match blocked with
          | Some e => Raised e
          | None =>
              let request_id := Uuid.str request_uuid in
              let request :=
                TeacherRequestRow.mk
                  (TeacherRequest.mk request_id full_name email "pending")
                  (default "" (trd_phone user_data))
                  (default 20 (trd_max_students user_data))
                  (utcnow env)
                  (default "" (trd_message user_data))
                  None None None None None None in
              match insert_request request st with
              | Raised e => Raised e
              | Returned st' => Returned (st', request_id)
              end
          end
      end in
  match r with
  | Returned (st', request_id) => (st', Returned request_id)
  | Raised e => (st, Raised (if is_request_ValueError e then e else RequestFailed e))
  end.

Definition approve_teacher_request (env : Env) (draws : nat -> N)
  (request_id admin_id : string) (st : Store.t) : Store.t * outcome Approval :=
  let r : outcome (Store.t * Approval) :=
    match pending_request request_id st with
    | None => Raised RequestNotPending
    | Some request =>
        let temp_password := _generate_temporary_password draws 10 in
        match _hash_password env temp_password with
        | Raise e => Raised (Svc e)
        | Ok password_hash =>
            let user :=
              User.mk (Uuid.str (uuid_user env))
                (TeacherRequestRow.email request)
                (TeacherRequestRow.full_name request)
                (TeacherRequestRow.phone request) "teacher"
                (TeacherRequestRow.max_students request) 0 password_hash true
                (utcnow env) (utcnow env) None in
            (* db.add(user); the request is updated; db.commit() *)
            match insert_user user (session_view st) with
            | Raise e => Raised (Svc e)
            | Ok db1 =>
                (* approved_by references users.id *)
                match user_by_id admin_id db1 with
                | None => Raised (Svc IntegrityError)
                | Some _ =>
                    Returned
                      (update_request request_id
                         (TeacherRequestRow.approve (utcnow env) admin_id
                            (User.id user))
                         (Store.mk (DB.users db1) (Store.teacher_requests st)
                                   (Store.refresh_tokens st)),
                       mkApproval (User.id user) temp_password
                                  (TeacherRequestRow.email request))
                end
            end
        end
    end in
  match r with
  | Returned (st', a) => (st', Returned a)
  | Raised e => (st, Raised (ApproveFailed e))
  end.

Definition reject_teacher_request (now : Z) (request_id admin_id reason : string)
  (st : Store.t) : Store.t * outcome string :=
  let r : outcome (Store.t * string) :=
    match pending_request request_id st with
    | None => Raised RequestNotPending
    | Some request =>
        (* rejected_by references users.id *)
        match user_by_id admin_id (session_view st) with
        | None => Raised (Svc IntegrityError)
        | Some _ =>
            Returned
              (update_request request_id
                 (TeacherRequestRow.reject now admin_id reason) st,
               TeacherRequestRow.email request)
        end
    end in
  match r with
  | Returned (st', email) => (st', Returned email)
  | Raised e => (st, Raised (RejectFailed e))
  end.

Definition check_registration_status (email : string) (st : Store.t)
  : registration_status :=
  match user_by_email email (session_view st) with
  | Some user =>
      Registered (User.is_active user) (User.role user) (User.id user)
  | None =>
      match request_by_email email st with
      | Some teacher_request =>
          Requested (TeacherRequestRow.status teacher_request)
                    (TeacherRequestRow.id teacher_request)
      | None => NotFound
      end
  end.

(** *** The gates in front of the workflow *)

(** routers/admin.py, [get_admin_user]. *)
Definition get_admin_user (now : Z) (token : Jwt.token) (db : DB)
  : http UserDict :=
  match get_current_user now token db with
  | Ok user =>
      if negb (bool_decide (ud_role user = "admin")) then HttpError 403
      else Http200 user
  | Raise e => HttpError (if is_ValueError e then 401 else 500)
  end.

(** depedenecies.py, [get_current_user], [get_admin_user] and
    [get_teacher_user], each with the dependency it rests on. *)
Definition dep_get_current_user (now : Z) (token : Jwt.token) (db : DB)
  : http UserDict :=
  match get_current_user now token db with
  | Ok user => Http200 user
  | Raise e => HttpError (if is_ValueError e then 401 else 500)
  end.

Definition dep_get_admin_user (now : Z) (token : Jwt.token) (db : DB)
  : http UserDict :=
  match dep_get_current_user now token db with
  | Http200 current_user =>
      if negb (bool_decide (ud_role current_user = "admin")) then HttpError 403
      else Http200 current_user
  | HttpError s => HttpError s
  end.

Definition dep_get_teacher_user (now : Z) (token : Jwt.token) (db : DB)
  : http UserDict :=
  match dep_get_current_user now token db with
  | Http200 current_user =>
      if negb (bool_decide (ud_role current_user = "admin")
               || bool_decide (ud_role current_user = "teacher"))
      then HttpError 403
      else Http200 current_user
  | HttpError s => HttpError s
  end.

(** routers/admin.py, POST /approve-teacher/{request_id}. *)
Definition admin_approve_teacher (env : Env) (draws : nat -> N)
  (request_id : string) (token : Jwt.token) (st : Store.t)
  : Store.t * http Approval :=
  match get_admin_user (utcnow env) token (session_view st) with
  | HttpError s => (st, HttpError s)
  | Http200 admin_user =>
      match approve_teacher_request env draws request_id (ud_id admin_user) st with
      | (st', Returned result) => (st', Http200 result)
      | (st', Raised e) =>
          (st', HttpError (if is_request_ValueError e then 400 else 500))
      end
  end.

(** routers/auth.py, POST /admin/approve-teacher/{request_id}: the
    [HTTPException] of the role test is raised inside the [try] and caught by
    its [except Exception]. *)
Definition auth_approve_teacher (env : Env) (draws : nat -> N)
  (request_id : string) (token : Jwt.token) (st : Store.t)
  : Store.t * http Approval :=
  match get_current_user (utcnow env) token (session_view st) with
  | Raise e => (st, HttpError (if is_ValueError e then 400 else 500))
  | Ok admin_user =>
      if negb (bool_decide (ud_role admin_user = "admin")) then
        (st, HttpError 500)
      else
        match approve_teacher_request env draws request_id (ud_id admin_user) st with
        | (st', Returned result) => (st', Http200 result)
        | (st', Raised e) =>
            (st', HttpError (if is_request_ValueError e then 400 else 500))
        end
  end.

(** scripts/create_admin.py, [create_admin_user]: it returns nothing and
    raises nothing; the answer is the store it leaves.  The script gives no
    phone: the NULL of that column is the empty string here. *)
Definition create_admin_user (env : Env) (email password full_name : string)
  (db : DB) : DB :=
  match List.find (fun u => bool_decide (User.role u = "admin")) (DB.users db) with
  | Some existing_admin => db
  | None =>
      match _hash_password env password with
      | Raise _ => db
      | Ok password_hash =>
          let admin_user :=
            User.mk (Uuid.str (uuid_user env)) email full_name "" "admin" 1000 0
              password_hash true (utcnow env) (utcnow env) None in
          match insert_user admin_user db with
          | Ok db' => db'
          | Raise _ => db
          end
      end
  end.

(** The [User] row [approve_teacher_request] builds from a request. *)
Definition approved_user (env : Env) (request : TeacherRequestRow.t)
  (password_hash : string) : User.t :=
  User.mk (Uuid.str (uuid_user env)) (TeacherRequestRow.email request)
    (TeacherRequestRow.full_name request) (TeacherRequestRow.phone request)
    "teacher" (TeacherRequestRow.max_students request) 0 password_hash true
    (utcnow env) (utcnow env) None.

(** ** Properties *)

Arguments Bcrypt.gensalt : simpl never.
Arguments Uuid.str : simpl never.

(** *** The bcrypt format layer *)

Lemma take_app (a b : string) :
  Bcrypt.take (String.length a) (a +:+ b) = Some a.
Proof.
  induction a as [|c a IH]; simpl; [reflexivity|].
  now rewrite IH.
Qed.

Lemma append_nil_r (s : string) : s +:+ "" = s.
Proof.
  induction s as [|c s IH]; [reflexivity|].
  change (String c (s +:+ "") = String c s). now rewrite IH.
Qed.

Lemma length_encode (k : nat) (n : N) :
  String.length (Bcrypt.encode k n) = k.
Proof.
  revert n; induction k as [|k IH]; intros n; simpl; [reflexivity|].
  now rewrite IH.
Qed.

Lemma is_b64_b64char (n : N) :
  (n < 64)%N -> Bcrypt.is_b64 (Bcrypt.b64char n) = true.
Proof.
  intros Hn.
  assert (Hall : forallb (fun i => Bcrypt.is_b64 (Bcrypt.b64char (N.of_nat i)))
                         (seq 0 64) = true) by (vm_compute; reflexivity).
  rewrite forallb_forall in Hall.
  specialize (Hall (N.to_nat n)).
  rewrite N2Nat.id in Hall. apply Hall.
  apply in_seq. lia.
Qed.

Lemma encode_b64 (k : nat) (n : N) :
  forallb Bcrypt.is_b64 (list_ascii_of_string (Bcrypt.encode k n)) = true.
Proof.
  revert n; induction k as [|k IH]; intros n; simpl; [reflexivity|].
  rewrite IH, is_b64_b64char; [reflexivity|].
  apply N.mod_lt. discriminate.
Qed.

Lemma length_append (a b : string) :
  String.length (a +:+ b) = (String.length a + String.length b)%nat.
Proof.
  induction a as [|c a IH]; [reflexivity|].
  change (S (String.length (a +:+ b)) = S (String.length a + String.length b)).
  now rewrite IH.
Qed.

Lemma contains_append (c : ascii) (a b : string) :
  Str.contains c (a +:+ b) = Str.contains c a || Str.contains c b.
Proof.
  induction a as [|c' a IH]; [reflexivity|].
  change (Ascii.eqb c c' || Str.contains c (a +:+ b)
          = Ascii.eqb c c' || Str.contains c a || Str.contains c b).
  now rewrite IH, orb_assoc.
Qed.

Lemma b64_no_dollar (s : string) :
  Bcrypt.salt_chars_ok s = true -> Str.contains "$" s = false.
Proof.
  unfold Bcrypt.salt_chars_ok.
  induction s as [|c s IH]; [reflexivity|].
  cbn [list_ascii_of_string forallb Str.contains].
  intros [Hc Hs]%andb_true_iff. rewrite (IH Hs), orb_false_r.
  destruct (Ascii.eqb_spec "$" c) as [<-|]; [|reflexivity].
  discriminate Hc.
Qed.

Lemma length_encode_salt (e : N) :
  String.length (Bcrypt.encode_salt e) = 22%nat.
Proof.
  unfold Bcrypt.encode_salt. now rewrite length_append, length_encode.
Qed.

Lemma salt_chars_ok_append (a b : string) :
  Bcrypt.salt_chars_ok (a +:+ b)
  = Bcrypt.salt_chars_ok a && Bcrypt.salt_chars_ok b.
Proof.
  unfold Bcrypt.salt_chars_ok.
  induction a as [|c a IH]; [reflexivity|].
  change (Bcrypt.is_b64 c
          && forallb Bcrypt.is_b64 (list_ascii_of_string (a +:+ b))
          = Bcrypt.is_b64 c && forallb Bcrypt.is_b64 (list_ascii_of_string a)
            && forallb Bcrypt.is_b64 (list_ascii_of_string b)).
  now rewrite IH, andb_assoc.
Qed.

Lemma encode_salt_chars_ok (e : N) :
  Bcrypt.salt_chars_ok (Bcrypt.encode_salt e) = true.
Proof.
  unfold Bcrypt.encode_salt. rewrite salt_chars_ok_append.
  unfold Bcrypt.salt_chars_ok at 1. rewrite encode_b64.
  unfold Bcrypt.salt_chars_ok. cbn [list_ascii_of_string forallb].
  rewrite is_b64_b64char; [reflexivity|].
  assert ((e / 64 ^ 21) mod 4 < 4)%N by (apply N.mod_lt; discriminate).
  set (m := ((e / 64 ^ 21) mod 4)%N) in *. clearbody m. lia.
Qed.

Lemma get_append_length (a : string) (c : ascii) (b : string) :
  String.get (String.length a) (a +:+ String c b) = Some c.
Proof. induction a as [|c' a IH]; [reflexivity | exact IH]. Qed.

Lemma encode_salt_canonical (e : N) :
  Bcrypt.salt_canonical (Bcrypt.encode_salt e) = true.
Proof.
  unfold Bcrypt.salt_canonical, Bcrypt.encode_salt.
  pose proof (get_append_length (Bcrypt.encode 21 e)
                (Bcrypt.b64char (16 * ((e / 64 ^ 21) mod 4))%N) "") as H.
  rewrite length_encode in H. rewrite H.
  assert (Hm : ((e / 64 ^ 21) mod 4 < 4)%N) by (apply N.mod_lt; discriminate).
  set (m := ((e / 64 ^ 21) mod 4)%N) in *. clearbody m.
  assert (Hcases : m = 0%N \/ m = 1%N \/ m = 2%N \/ m = 3%N) by lia.
  destruct Hcases as [->|[->|[->| ->]]]; vm_compute; reflexivity.
Qed.

Lemma length_gensalt (e : N) : String.length (Bcrypt.gensalt e) = 29%nat.
Proof.
  unfold Bcrypt.gensalt. now rewrite length_append, length_encode_salt.
Qed.

Lemma split_nosep (s : string) :
  Str.contains "$" s = false -> Bcrypt.split "$" s = [s].
Proof.
  induction s as [|c s IH]; [reflexivity|].
  cbn [Str.contains Bcrypt.split].
  intros [Hc Hs]%orb_false_iff.
  rewrite Ascii.eqb_sym, Hc, (IH Hs). reflexivity.
Qed.

Lemma split_sep (a b : string) :
  Str.contains "$" a = false ->
  Bcrypt.split "$" (a +:+ String "$" b) = a :: Bcrypt.split "$" b.
Proof.
  induction a as [|c a IH]; [reflexivity|].
  cbn [Str.contains]. intros [Hc Ha]%orb_false_iff.
  change (Bcrypt.split "$" (String c (a +:+ String "$" b))
          = String c a :: Bcrypt.split "$" b).
  cbn [Bcrypt.split]. rewrite Ascii.eqb_sym, Hc, (IH Ha). reflexivity.
Qed.

(** The fields of a hash string that starts with a setting of [gensalt]. *)
Lemma fields_gensalt_append (e : N) (d : string) :
  Str.contains "$" d = false ->
  Bcrypt.fields (Bcrypt.gensalt e +:+ d)
  = ["2b"; "12"; Bcrypt.encode_salt e +:+ d].
Proof.
  intros Hd. unfold Bcrypt.fields, Bcrypt.gensalt.
  set (x := Bcrypt.encode_salt e +:+ d).
  change (("$2b$12$" +:+ Bcrypt.encode_salt e) +:+ d)
    with ("" +:+ String "$" ("2b" +:+ String "$" ("12" +:+ String "$" x))).
  rewrite !split_sep by reflexivity.
  rewrite split_nosep.
  - assert (Hx : String.eqb x "" = false).
    { destruct x eqn:Ex; [|reflexivity].
      apply (f_equal String.length) in Ex. subst x.
      rewrite length_append, length_encode_salt in Ex. discriminate. }
    cbn [List.filter String.eqb negb Ascii.eqb]. now rewrite Hx.
  - subst x. rewrite contains_append, Hd, orb_false_r.
    apply b64_no_dollar, encode_salt_chars_ok.
Qed.

Lemma parse_setting_gensalt_app (e : N) (d : string) :
  Str.contains "$" d = false ->
  Bcrypt.parse_setting (Bcrypt.gensalt e +:+ d) = Some (Bcrypt.gensalt e).
Proof.
  intros Hd. unfold Bcrypt.parse_setting, Bcrypt.setting_fields.
  rewrite (fields_gensalt_append e d Hd).
  change (Bcrypt.parse_unsigned "12") with (Some 12%N).
  pose proof (take_app (Bcrypt.encode_salt e) d) as H.
  rewrite length_encode_salt in H.
  cbn [mbind option_bind]. rewrite H. cbn [mbind option_bind].
  rewrite encode_salt_chars_ok, encode_salt_canonical. reflexivity.
Qed.

Lemma parse_setting_gensalt (e : N) :
  Bcrypt.parse_setting (Bcrypt.gensalt e) = Some (Bcrypt.gensalt e).
Proof.
  pose proof (parse_setting_gensalt_app e "" eq_refl) as H.
  now rewrite append_nil_r in H.
Qed.

Lemma digest_no_dollar (setting password : string) :
  Str.contains "$" (Bcrypt.digest bcrypt_hashpass setting password) = false.
Proof. apply b64_no_dollar, encode_b64. Qed.

Lemma hashpw_gensalt (password : string) (e : N) :
  (String.length password <= 72)%nat ->
  Bcrypt.hashpw bcrypt_hashpass password (Bcrypt.gensalt e)
  = Ok (Bcrypt.gensalt e
        +:+ Bcrypt.digest bcrypt_hashpass (Bcrypt.gensalt e) password).
Proof.
  intros Hlen. unfold Bcrypt.hashpw.
  destruct (Nat.ltb_spec 72 (String.length password)); [lia|].
  now rewrite parse_setting_gensalt.
Qed.

Lemma hashpw_too_long (password salt : string) :
  (72 < String.length password)%nat ->
  Bcrypt.hashpw bcrypt_hashpass password salt = Raise PasswordTooLong.
Proof.
  intros Hlen. unfold Bcrypt.hashpw.
  destruct (Nat.ltb_spec 72 (String.length password)); [reflexivity | lia].
Qed.

(** What a successful [hashpw] under a setting of [gensalt] has checked and
    made. *)
Lemma hashpw_gensalt_Ok (password : string) (e : N) (h : string) :
  Bcrypt.hashpw bcrypt_hashpass password (Bcrypt.gensalt e) = Ok h ->
  (String.length password <= 72)%nat /\
  h = Bcrypt.gensalt e
      +:+ Bcrypt.digest bcrypt_hashpass (Bcrypt.gensalt e) password.
Proof.
  intros H.
  destruct (Nat.ltb_spec 72 (String.length password)) as [Hlt|Hle].
  - rewrite (hashpw_too_long _ _ Hlt) in H. discriminate.
  - rewrite (hashpw_gensalt _ _ Hle) in H. split; [exact Hle | congruence].
Qed.

Lemma checkpw_hashpw (password : string) (e : N) :
  (String.length password <= 72)%nat ->
  Bcrypt.checkpw bcrypt_hashpass password
    (Bcrypt.gensalt e
     +:+ Bcrypt.digest bcrypt_hashpass (Bcrypt.gensalt e) password)
  = Ok true.
Proof.
  intros Hlen. unfold Bcrypt.checkpw, Bcrypt.hashpw.
  destruct (Nat.ltb_spec 72 (String.length password)); [lia|].
  rewrite parse_setting_gensalt_app by apply digest_no_dollar.
  set (h := Bcrypt.gensalt e +:+ _).
  change (Ok (bool_decide (h = h)) = Ok true).
  now rewrite bool_decide_eq_true_2.
Qed.

Lemma hash_prefix (e : N) (d : string) :
  Bcrypt.take 29 (Bcrypt.gensalt e +:+ d) = Some (Bcrypt.gensalt e).
Proof.
  pose proof (take_app (Bcrypt.gensalt e) d) as H.
  now rewrite length_gensalt in H.
Qed.

Lemma length_hex (k : nat) (n : N) : String.length (Uuid.hex k n) = k.
Proof.
  revert n; induction k as [|k IH]; intros n; simpl; [reflexivity|].
  now rewrite IH.
Qed.

Lemma length_uuid (n : N) : String.length (Uuid.str n) = 36%nat.
Proof.
  unfold Uuid.str. rewrite !length_append, !length_hex. reflexivity.
Qed.

Lemma len_le_length (s : string) : Str.len s <= Z.of_nat (String.length s).
Proof.
  unfold Str.len. apply inj_le.
  induction s as [|c s IH]; [reflexivity|].
  cbn [Str.len_nat String.length]. destruct (Str.is_continuation c); lia.
Qed.

Lemma varchar_uuid (n : N) : Column.varchar 50 (Uuid.str n) = true.
Proof.
  unfold Column.varchar. apply Z.leb_le.
  pose proof (len_le_length (Uuid.str n)) as H.
  rewrite length_uuid in H. lia.
Qed.

(** A hash of [hashpw] fits the column [password_hash]. *)
Lemma varchar_hashed (e : N) (password : string) :
  Column.varchar 255
    (Bcrypt.gensalt e
     +:+ Bcrypt.digest bcrypt_hashpass (Bcrypt.gensalt e) password) = true.
Proof.
  unfold Column.varchar. apply Z.leb_le.
  set (h := Bcrypt.gensalt e +:+ _).
  pose proof (len_le_length h) as H.
  assert (Hl : String.length h = 60%nat).
  { subst h. unfold Bcrypt.digest.
    now rewrite length_append, length_gensalt, length_encode. }
  rewrite Hl in H. lia.
Qed.

Lemma _hash_token_uuid (env : Env) (n : N) :
  _hash_token env (Uuid.str n)
  = Ok (Bcrypt.gensalt (salt_token env)
        +:+ Bcrypt.digest bcrypt_hashpass (Bcrypt.gensalt (salt_token env))
                          (Uuid.str n)).
Proof.
  unfold _hash_token. apply hashpw_gensalt. rewrite length_uuid. lia.
Qed.

(** C8 (amended). For every secret of at most 72 bytes, a hash made by
    [_hash_password] verifies against that secret, and two calls whose
    [gensalt()] draws differ return two different hash strings: the salt is
    embedded in the hash.  On a longer secret [_hash_password] raises the
    ValueError of [bcrypt.hashpw], whatever the draw. *)
Theorem hash_then_verify (env1 env2 : Env) (s : string) :
  ((String.length s <= 72)%nat ->
   Bcrypt.gensalt (salt_password env1) <> Bcrypt.gensalt (salt_password env2) ->
   exists h1 h2,
     _hash_password env1 s = Ok h1 /\
     _hash_password env2 s = Ok h2 /\
     _verify_password s h1 = Ok true /\
     _verify_password s h2 = Ok true /\
     h1 <> h2) /\
  ((72 < String.length s)%nat ->
   _hash_password env1 s = Raise PasswordTooLong).
Proof.
  split.
  - intros Hlen Hsalt.
    unfold _hash_password, _verify_password.
    rewrite !hashpw_gensalt by exact Hlen.
    do 2 eexists. repeat split; try reflexivity;
      try (apply checkpw_hashpw; exact Hlen).
    intros Heq. apply Hsalt.
    apply (f_equal (Bcrypt.take 29)) in Heq.
    rewrite !hash_prefix in Heq. congruence.
  - intros Hlen. unfold _hash_password. now apply hashpw_too_long.
Qed.

(** C6 (amended). [_verify_password] hands the hash string to
    [bcrypt.checkpw] and catches nothing: on a hash string that bcrypt cannot
    read (it has not three fields between its [$] signs, or its version is
    none of 2a, 2b, 2x and 2y, or its cost is no number from 4 to 31, or its
    third field has fewer than 22 characters or, among the first 22, one
    outside the radix-64 alphabet) it raises a ValueError, which is
    ValueError("Invalid salt") when the secret has at most 72 bytes; it does
    not return false there. *)
Theorem verify_password_malformed (s h : string) :
  Bcrypt.readable h = false ->
  exists e,
    _verify_password s h = Raise e /\
    is_ValueError e = true /\
    ((String.length s <= 72)%nat -> e = InvalidSalt).
Proof.
  intros Hh. unfold _verify_password, Bcrypt.checkpw, Bcrypt.hashpw.
  assert (Hp : Bcrypt.parse_setting h = None).
  { unfold Bcrypt.parse_setting. unfold Bcrypt.readable in Hh.
    destruct (Bcrypt.setting_fields h) as [[[v c] salt]|]; [|reflexivity].
    cbn [mbind option_bind]. now rewrite Hh. }
  rewrite Hp.
  destruct (Nat.ltb_spec 72 (String.length s)) as [Hlt|Hle].
  - exists PasswordTooLong. split; [reflexivity|]. split; [reflexivity|].
    intros ?. lia.
  - exists InvalidSalt. split; [reflexivity|]. split; reflexivity.
Qed.

(** On a hash string whose setting bcrypt reads, [_verify_password] of a
    secret of at most 72 bytes returns a boolean. *)
Lemma verify_password_wellformed (s h setting : string) :
  (String.length s <= 72)%nat ->
  Bcrypt.parse_setting h = Some setting ->
  _verify_password s h
  = Ok (bool_decide (setting +:+ Bcrypt.digest bcrypt_hashpass setting s = h)).
Proof.
  intros Hlen Hh. unfold _verify_password, Bcrypt.checkpw, Bcrypt.hashpw.
  destruct (Nat.ltb_spec 72 (String.length s)); [lia|].
  now rewrite Hh.
Qed.

(** C5 (amended). For a role outside admin, teacher and student,
    [_get_user_permissions] returns the map with every capability false; it
    raises nothing. *)
Theorem permissions_unknown_role (user : User.t) :
  User.role user <> "admin" ->
  User.role user <> "teacher" ->
  User.role user <> "student" ->
  _get_user_permissions user = all_false.
Proof.
  intros Ha Ht Hs. unfold _get_user_permissions.
  now rewrite !bool_decide_eq_false_2.
Qed.

(** *** The token codec *)

Lemma decode_encode (payload : Claims.t) (now : Z) :
  Jwt.decode hmac_sha256 (Jwt.encode hmac_sha256 payload (secret_key self))
             (secret_key self) now
  = Jwt.validate_claims payload now.
Proof.
  unfold Jwt.decode, Jwt.encode. now rewrite bool_decide_eq_true_2.
Qed.

(** The claims of a token with [iat] and [exp] are valid from [iat] on and
    before [exp]. *)
Lemma validate_claims_live (payload : Claims.t) (now e i : Z) :
  Claims.exp payload = Some e -> Claims.iat payload = Some i ->
  i <= now -> now < e ->
  Jwt.validate_claims payload now = Ok payload.
Proof.
  intros He Hi Hle Hlt. unfold Jwt.validate_claims, Jwt.validate_exp.
  rewrite He, Hi.
  destruct (Z.ltb_spec now i); [lia|].
  destruct (Z.leb_spec e now); [lia | reflexivity].
Qed.

Lemma decode_token_encode (payload : Claims.t) (now e i : Z) :
  Claims.exp payload = Some e -> Claims.iat payload = Some i ->
  i <= now -> now < e ->
  decode_token now (Jwt.encode hmac_sha256 payload (secret_key self)) = Ok payload.
Proof.
  intros He Hi Hle Hlt. unfold decode_token.
  now rewrite decode_encode, (validate_claims_live _ _ _ _ He Hi Hle Hlt).
Qed.


(** *** Authentication *)

Lemma user_by_id_id (user_id : string) (db : DB) (user : User.t) :
  user_by_id user_id db = Some user -> User.id user = user_id.
Proof.
  unfold user_by_id. intros H. apply find_some in H as [_ H].
  now apply bool_decide_eq_true_1 in H.
Qed.

Lemma truthy_Some (o : option string) :
  truthy o = true -> exists s, o = Some s /\ s <> "".
Proof.
  destruct o as [s|]; simpl; [|discriminate].
  intros H. exists s. split; [reflexivity|].
  apply negb_true_iff, bool_decide_eq_false_1 in H. exact H.
Qed.

Lemma truthy_true (s : string) : s <> "" -> truthy (Some s) = true.
Proof. intros H. simpl. now rewrite bool_decide_eq_false_2. Qed.

(** What a successful [get_current_user] has checked. *)
Lemma get_current_user_Ok (now : Z) (token : Jwt.token) (db : DB) (u : UserDict) :
  get_current_user now token db = Ok u ->
  exists payload user,
    decode_token now token = Ok payload /\
    Claims.type payload = Some "access" /\
    Claims.sub payload = Some (User.id user) /\
    User.id user <> "" /\
    (forall j, Claims.jti payload = Some j -> j <> "" ->
               _is_token_revoked j db = false) /\
    user_by_id (User.id user) db = Some user /\
    User.is_active user = true /\
    u = _user_to_dict user.
Proof.
  unfold get_current_user. intros H.
  destruct (decode_token now token) as [payload|e] eqn:Hdec; [|discriminate].
  cbn in H.
  destruct (bool_decide (Claims.type payload = Some "access")) eqn:Hty;
    [|discriminate]. cbn in H.
  destruct (truthy (Claims.sub payload)) eqn:Hsub; [|discriminate]. cbn in H.
  destruct (truthy (Claims.jti payload)
            && _is_token_revoked (default "" (Claims.jti payload)) db) eqn:Hrev;
    [discriminate|].
  apply truthy_Some in Hsub as (uid & Hsub & Hne). rewrite Hsub in H. cbn in H.
  destruct (user_by_id uid db) as [user|] eqn:Hu; [|discriminate].
  destruct (User.is_active user) eqn:Hact; [|discriminate]. cbn in H.
  pose proof (user_by_id_id _ _ _ Hu) as Hid.
  exists payload, user. rewrite Hid.
  repeat split; try assumption.
  - now apply bool_decide_eq_true_1 in Hty.
  - intros j Hj Hjne. rewrite Hj in Hrev. change (default "" (Some j)) with j in Hrev.
    rewrite (truthy_true _ Hjne) in Hrev. exact Hrev.
  - congruence.
Qed.

(** What [get_current_user] answers for a decodable access token whose
    subject has a row. *)
Lemma get_current_user_found (now : Z) (token : Jwt.token) (db : DB)
  (payload : Claims.t) (user_id : string) (user : User.t) :
  decode_token now token = Ok payload ->
  Claims.type payload = Some "access" ->
  Claims.sub payload = Some user_id -> user_id <> "" ->
  (forall j, Claims.jti payload = Some j -> _is_token_revoked j db = false) ->
  user_by_id user_id db = Some user ->
  get_current_user now token db
  = if User.is_active user then Ok (_user_to_dict user)
    else Raise (GetUserFailed UserInactive).
Proof.
  intros Hdec Hty Hsub Hne Hrev Hu. unfold get_current_user.
  rewrite Hdec. cbn. rewrite Hty, bool_decide_eq_true_2 by reflexivity. cbn.
  rewrite Hsub, (truthy_true _ Hne). cbn.
  assert (truthy (Claims.jti payload)
          && _is_token_revoked (default "" (Claims.jti payload)) db = false) as ->.
  { destruct (Claims.jti payload) as [j|] eqn:Hj; [|reflexivity].
    change (default "" (Some j)) with j.
    rewrite (Hrev j eq_refl). apply andb_false_r. }
  rewrite Hu. now destruct (User.is_active user).
Qed.

(** C4. [get_current_user] answers only for a token the codec accepts,
    whose type is "access" and whose subject's row is active in the store at
    the time of the call; and a decodable access token whose subject's row
    is inactive at the time of the call is refused with "Пользователь
    неактивен". *)
Theorem authenticate_requires_active (now : Z) (token : Jwt.token) (db : DB) :
  (forall u, get_current_user now token db = Ok u ->
     exists payload user,
       decode_token now token = Ok payload /\
       Claims.type payload = Some "access" /\
       Claims.sub payload = Some (User.id user) /\
       user_by_id (User.id user) db = Some user /\
       User.is_active user = true /\
       u = _user_to_dict user) /\
  (forall payload user_id user,
     decode_token now token = Ok payload ->
     Claims.type payload = Some "access" ->
     Claims.sub payload = Some user_id -> user_id <> "" ->
     (forall j, Claims.jti payload = Some j -> _is_token_revoked j db = false) ->
     user_by_id user_id db = Some user ->
     User.is_active user = false ->
     get_current_user now token db = Raise (GetUserFailed UserInactive)).
Proof.
  split.
  - intros u H. apply get_current_user_Ok in H
      as (payload & user & ? & ? & ? & ? & ? & ? & ? & ?).
    exists payload, user. repeat split; assumption.
  - intros payload user_id user Hdec Hty Hsub Hne Hrev Hu Hact.
    rewrite (get_current_user_found _ _ _ _ _ _ Hdec Hty Hsub Hne Hrev Hu).
    now rewrite Hact.
Qed.

(** *** Refresh-token rotation *)

Lemma uuid_str_nonempty (n : N) : Uuid.str n <> "".
Proof. unfold Uuid.str. cbn [Uuid.hex String.append]. discriminate. Qed.

Lemma _save_refresh_token_eq (env : Env) (db : DB) (user_id : string) (n : N)
  (device_info : option string) :
  _save_refresh_token env db user_id (Uuid.str n) device_info None
  = insert_refresh_token (Uuid.str n)
      (saved_row env user_id (Uuid.str n) device_info) db.
Proof.
  unfold _save_refresh_token. rewrite _hash_token_uuid. reflexivity.
Qed.

(** A token that decodes carries the claims it decodes to, under the
    service's signature. *)
Lemma decode_token_Ok (now : Z) (tok : Jwt.token) (p : Claims.t) :
  decode_token now tok = Ok p ->
  tok = Jwt.encode hmac_sha256 p (secret_key self).
Proof.
  unfold decode_token, Jwt.decode, Jwt.encode.
  destruct tok as [q sig|raw]; [|discriminate].
  destruct (bool_decide (sig = hmac_sha256 (secret_key self) q)) eqn:Hsig;
    [|discriminate].
  apply bool_decide_eq_true_1 in Hsig. subst sig.
  unfold Jwt.validate_claims, Jwt.validate_exp.
  destruct (Claims.iat q) as [i|]; [destruct (now <? i)|];
    (destruct (Claims.exp q) as [e|]; [destruct (e <=? now)|]);
    intros H; try discriminate; congruence.
Qed.

Lemma decode_token_same (now now' : Z) (tok : Jwt.token) (p p' : Claims.t) :
  decode_token now tok = Ok p -> decode_token now' tok = Ok p' -> p' = p.
Proof.
  intros H H'. apply decode_token_Ok in H, H'. rewrite H in H'.
  unfold Jwt.encode in H'. congruence.
Qed.

(** What a successful read of [refresh_tokens] has checked. *)
Lemma refresh_tokens_read_Ok (now : Z) (tok : Jwt.token) (db : DB)
  (id : string) (st : RefreshToken.t) (user : User.t) :
  refresh_tokens_read now tok db = Ok (id, st, user) ->
  exists payload,
    decode_token now tok = Ok payload /\
    Claims.type payload = Some "refresh" /\
    Claims.sub payload = Some (User.id user) /\ User.id user <> "" /\
    Claims.jti payload = Some id /\ id <> "" /\
    DB.refresh_tokens db !! id = Some st /\
    RefreshToken.user_id st = User.id user /\
    RefreshToken.is_revoked st = false /\
    now < RefreshToken.expires_at st /\
    user_by_id (User.id user) db = Some user /\
    User.is_active user = true.
Proof.
  unfold refresh_tokens_read. intros H.
  destruct (decode_token now tok) as [payload|e] eqn:Hdec; [|discriminate].
  cbn in H.
  destruct (bool_decide (Claims.type payload = Some "refresh")) eqn:Hty;
    [|discriminate]. cbn in H.
  destruct (truthy (Claims.sub payload)) eqn:Hsub; [|discriminate].
  destruct (truthy (Claims.jti payload)) eqn:Hjti; [|discriminate]. cbn in H.
  apply truthy_Some in Hsub as (uid & Hsub & Hune).
  apply truthy_Some in Hjti as (j & Hjti & Hjne).
  rewrite Hsub, Hjti in H.
  change (default "" (Some j)) with j in H.
  change (default "" (Some uid)) with uid in H.
  destruct (DB.refresh_tokens db !! j) as [stored|] eqn:Hst; [|discriminate].
  destruct (bool_decide (RefreshToken.user_id stored = uid)) eqn:Huid;
    [|discriminate].
  destruct (RefreshToken.is_revoked stored) eqn:Hrev; [discriminate|].
  destruct (now <? RefreshToken.expires_at stored) eqn:Hexp; [|discriminate].
  cbn in H.
  destruct (user_by_id uid db) as [u|] eqn:Hu; [|discriminate].
  destruct (User.is_active u) eqn:Hact; [|discriminate]. cbn in H.
  injection H as <- <- <-.
  pose proof (user_by_id_id _ _ _ Hu) as Hid. rewrite Hid.
  apply bool_decide_eq_true_1 in Hty, Huid. apply Z.ltb_lt in Hexp.
  exists payload. repeat split; assumption.
Qed.

(** A read that finds the row of the token revoked is refused. *)
Lemma refresh_tokens_read_revoked (now : Z) (tok : Jwt.token) (db : DB)
  (payload : Claims.t) (uid id : string) (r : RefreshToken.t) :
  decode_token now tok = Ok payload ->
  Claims.type payload = Some "refresh" ->
  Claims.sub payload = Some uid -> uid <> "" ->
  Claims.jti payload = Some id -> id <> "" ->
  DB.refresh_tokens db !! id = Some r ->
  RefreshToken.is_revoked r = true ->
  refresh_tokens_read now tok db = Raise RefreshTokenNotFound.
Proof.
  intros Hdec Hty Hsub Hune Hjti Hjne Hr Hrev. unfold refresh_tokens_read.
  rewrite Hdec. cbn. rewrite Hty, bool_decide_eq_true_2 by reflexivity. cbn.
  rewrite Hsub, Hjti, (truthy_true _ Hune), (truthy_true _ Hjne). cbn.
  change (default "" (Some id)) with id. rewrite Hr, Hrev.
  now rewrite andb_false_r.
Qed.

(** The write of [refresh_tokens] when the new identifier is free. *)
Lemma refresh_tokens_write_Ok (env : Env) (stored_id : string) (user : User.t)
  (db : DB) (device_info : option string) :
  DB.refresh_tokens db !! Uuid.str (uuid_refresh env) = None ->
  refresh_tokens_write env stored_id user db device_info
  = (with_refresh_tokens
       (<[Uuid.str (uuid_refresh env) :=
            saved_row env (User.id user) (Uuid.str (uuid_refresh env)) device_info]>
          (alter (RefreshToken.revoke (utcnow env)) stored_id
                 (DB.refresh_tokens db))) db,
     Ok (mkTokenResponse
           (_create_access_token env (token_data_of user) None)
           (_create_refresh_token env (User.id user)).1 "bearer"
           (access_token_expire_minutes self * 60) (_user_to_dict user)
           "Токены успешно обновлены")).
Proof.
  intros Hfree. unfold refresh_tokens_write.
  cbn [_create_refresh_token fst].
  rewrite _save_refresh_token_eq. unfold insert_refresh_token.
  cbn [DB.refresh_tokens with_refresh_tokens].
  assert (alter (RefreshToken.revoke (utcnow env)) stored_id
            (DB.refresh_tokens db) !! Uuid.str (uuid_refresh env) = None) as ->
    by now apply lookup_alter_None.
  reflexivity.
Qed.

(** The write of [refresh_tokens] when the new identifier is taken. *)
Lemma refresh_tokens_write_taken (env : Env) (stored_id : string) (user : User.t)
  (db : DB) (device_info : option string) (r : RefreshToken.t) :
  DB.refresh_tokens db !! Uuid.str (uuid_refresh env) = Some r ->
  refresh_tokens_write env stored_id user db device_info
  = (db, Raise IntegrityError).
Proof.
  intros Htaken. unfold refresh_tokens_write.
  cbn [_create_refresh_token fst].
  rewrite _save_refresh_token_eq. unfold insert_refresh_token.
  cbn [DB.refresh_tokens with_refresh_tokens].
  destruct (alter (RefreshToken.revoke (utcnow env)) stored_id
              (DB.refresh_tokens db) !! Uuid.str (uuid_refresh env)) eqn:Hl;
    [reflexivity|].
  apply lookup_alter_None in Hl. congruence.
Qed.

(** The converse of [refresh_tokens_read_Ok]. *)
Lemma refresh_tokens_read_found (now : Z) (tok : Jwt.token) (db : DB)
  (payload : Claims.t) (uid id : string) (st : RefreshToken.t) (user : User.t) :
  decode_token now tok = Ok payload ->
  Claims.type payload = Some "refresh" ->
  Claims.sub payload = Some uid -> uid <> "" ->
  Claims.jti payload = Some id -> id <> "" ->
  DB.refresh_tokens db !! id = Some st ->
  RefreshToken.user_id st = uid ->
  RefreshToken.is_revoked st = false ->
  now < RefreshToken.expires_at st ->
  user_by_id uid db = Some user ->
  User.is_active user = true ->
  refresh_tokens_read now tok db = Ok (id, st, user).
Proof.
  intros Hdec Hty Hsub Hune Hjti Hjne Hst Huid Hrev Hexp Hu Hact.
  unfold refresh_tokens_read.
  rewrite Hdec. cbn. rewrite Hty, bool_decide_eq_true_2 by reflexivity. cbn.
  rewrite Hsub, Hjti, (truthy_true _ Hune), (truthy_true _ Hjne). cbn.
  change (default "" (Some id)) with id.
  change (default "" (Some uid)) with uid.
  rewrite Hst, Hrev, Hu, Hact, (bool_decide_eq_true_2 _ Huid).
  apply Z.ltb_lt in Hexp. now rewrite Hexp.
Qed.

(** What a successful [refresh_tokens] has read and written. *)
Lemma refresh_tokens_Ok (env : Env) (tok : Jwt.token) (db db' : DB)
  (device_info : option string) (resp : TokenResponse) :
  refresh_tokens env tok db device_info = (db', Ok resp) ->
  exists id st user,
    refresh_tokens_read (utcnow env) tok db = Ok (id, st, user) /\
    DB.refresh_tokens db !! Uuid.str (uuid_refresh env) = None /\
    db' = with_refresh_tokens
            (<[Uuid.str (uuid_refresh env) :=
                 saved_row env (User.id user) (Uuid.str (uuid_refresh env))
                           device_info]>
               (alter (RefreshToken.revoke (utcnow env)) id
                      (DB.refresh_tokens db))) db /\
    refresh_token resp = (_create_refresh_token env (User.id user)).1.
Proof.
  unfold refresh_tokens, refresh_tokens_finish. intros H.
  destruct (refresh_tokens_read (utcnow env) tok db)
    as [[[id st] user]|e] eqn:Hread; [|discriminate].
  exists id, st, user.
  destruct (DB.refresh_tokens db !! Uuid.str (uuid_refresh env)) as [r|] eqn:Hnew.
  - rewrite (refresh_tokens_write_taken _ _ _ _ _ _ Hnew) in H. discriminate.
  - rewrite (refresh_tokens_write_Ok _ _ _ _ _ Hnew) in H.
    cbn in H. injection H as <- <-. repeat split.
Qed.

(** After a successful [refresh_tokens] the row of the token it was given
    is revoked in the committed store. *)
Lemma refresh_tokens_revokes (env : Env) (tok : Jwt.token) (db db' : DB)
  (device_info : option string) (resp : TokenResponse)
  (id : string) (st : RefreshToken.t) (user : User.t) :
  refresh_tokens env tok db device_info = (db', Ok resp) ->
  refresh_tokens_read (utcnow env) tok db = Ok (id, st, user) ->
  DB.refresh_tokens db' !! id = Some (RefreshToken.revoke (utcnow env) st).
Proof.
  intros H Hread.
  apply refresh_tokens_Ok in H as (id' & st' & user' & Hread' & Hnew & -> & _).
  rewrite Hread in Hread'. injection Hread' as <- <- <-.
  apply refresh_tokens_read_Ok in Hread as (p & _ & _ & _ & _ & _ & _ & Hst & _).
  cbn [DB.refresh_tokens with_refresh_tokens].
  rewrite lookup_insert_ne by congruence.
  now rewrite lookup_alter_eq, Hst.
Qed.

(** A read of a token whose row has been revoked by a committed
    [refresh_tokens] fails, at any time. *)
Lemma refresh_tokens_read_after (env : Env) (tok : Jwt.token) (db db' : DB)
  (device_info : option string) (resp : TokenResponse) (now : Z) :
  refresh_tokens env tok db device_info = (db', Ok resp) ->
  exists e, refresh_tokens_read now tok db' = Raise e /\
            (is_Ok (decode_token now tok) = true -> e = RefreshTokenNotFound).
Proof.
  intros H.
  pose proof H as (id & st & user & Hread & _)%refresh_tokens_Ok.
  pose proof (refresh_tokens_revokes _ _ _ _ _ _ _ _ _ H Hread) as Hrow.
  apply refresh_tokens_read_Ok in Hread
    as (p & Hdec & Hty & Hsub & Hune & Hjti & Hjne & _).
  destruct (decode_token now tok) as [p'|e] eqn:Hdec'.
  - pose proof (decode_token_same _ _ _ _ _ Hdec Hdec') as ->.
    exists RefreshTokenNotFound. split; [|reflexivity].
    now apply (refresh_tokens_read_revoked now tok db' p (User.id user) id
                 (RefreshToken.revoke (utcnow env) st)).
  - exists e. split; [|discriminate].
    unfold refresh_tokens_read. now rewrite Hdec'.
Qed.

(** The token a successful [refresh_tokens] returns reads back, in the
    store it committed, from the time it was issued and as long as it has
    not expired. *)
Lemma refresh_tokens_read_new (env : Env) (tok : Jwt.token) (db db' : DB)
  (device_info : option string) (resp : TokenResponse) (now : Z) :
  refresh_tokens env tok db device_info = (db', Ok resp) ->
  utcnow env <= now < utcnow env + refresh_token_expire_days self * 86400 ->
  exists st user,
    refresh_tokens_read now (refresh_token resp) db'
    = Ok (Uuid.str (uuid_refresh env), st, user) /\
    RefreshToken.is_revoked st = false.
Proof.
  intros H Hlive.
  apply refresh_tokens_Ok in H as (id & st & user & Hread & Hnew & -> & ->).
  apply refresh_tokens_read_Ok in Hread
    as (p & _ & _ & _ & Hune & _ & _ & _ & _ & _ & _ & Hu & Hact).
  exists (saved_row env (User.id user) (Uuid.str (uuid_refresh env)) device_info),
         user.
  split; [|reflexivity].
  cbn [_create_refresh_token fst].
  eapply refresh_tokens_read_found with (uid := User.id user).
  - apply decode_token_encode with
      (e := utcnow env + refresh_token_expire_days self * 86400)
      (i := utcnow env);
      [reflexivity | reflexivity | lia | lia].
  - reflexivity.
  - reflexivity.
  - exact Hune.
  - reflexivity.
  - apply uuid_str_nonempty.
  - cbn [DB.refresh_tokens with_refresh_tokens]. apply lookup_insert_eq.
  - reflexivity.
  - reflexivity.
  - exact (proj2 Hlive).
  - exact Hu.
  - exact Hact.
Qed.

(** C1. After a successful [refresh_tokens] on [r0], which returned [r1]:
    every further call with [r0] on the store it left fails and leaves the
    store as it is; the failure is "Refresh токен не найден или истек"
    (RevokedOrUnknown) as long as the codec still accepts [r0] (it has not
    expired); and a call with [r1], not before the time [r1] was issued,
    succeeds, as long as [r1] has not expired and the identifier drawn for
    the next token is new. *)
Theorem refresh_not_idempotent (env1 env2 env3 : Env) (r0 : Jwt.token)
  (db0 db1 : DB) (dev1 dev2 dev3 : option string) (resp : TokenResponse) :
  refresh_tokens env1 r0 db0 dev1 = (db1, Ok resp) ->
  is_Ok (decode_token (utcnow env2) r0) = true ->
  utcnow env1 <= utcnow env3
    < utcnow env1 + refresh_token_expire_days self * 86400 ->
  DB.refresh_tokens db1 !! Uuid.str (uuid_refresh env3) = None ->
  (forall env dev, exists e,
      refresh_tokens env r0 db1 dev = (db1, Raise (RefreshFailed e))) /\
  refresh_tokens env2 r0 db1 dev2
    = (db1, Raise (RefreshFailed RefreshTokenNotFound)) /\
  exists db2 resp',
    refresh_tokens env3 (refresh_token resp) db1 dev3 = (db2, Ok resp').
Proof.
  intros H Hdec2 Hlive3 Hfresh3. repeat split.
  - intros env dev.
    destruct (refresh_tokens_read_after _ _ _ _ _ _ (utcnow env) H)
      as (e & He & _).
    exists e. unfold refresh_tokens, refresh_tokens_finish. now rewrite He.
  - destruct (refresh_tokens_read_after _ _ _ _ _ _ (utcnow env2) H)
      as (e & He & Hkind).
    rewrite (Hkind Hdec2) in He.
    unfold refresh_tokens, refresh_tokens_finish. now rewrite He.
  - destruct (refresh_tokens_read_new _ _ _ _ _ _ (utcnow env3) H Hlive3)
      as (st & user & Hread & _).
    unfold refresh_tokens, refresh_tokens_finish. rewrite Hread.
    rewrite (refresh_tokens_write_Ok _ _ _ _ _ Hfresh3). cbn. eauto.
Qed.

(** C2 (amended). The test [is_revoked == False] is part of the query that
    reads the row; the UPDATE that revokes it and the INSERT of the new row
    are unconditional.  So, when one call on [r0] has committed: a second
    call that runs after that commit fails with "Refresh токен не найден или
    истек" (RevokedOrUnknown); a second call whose read came before that
    commit still writes and succeeds, and both new rows stand unrevoked. *)
Theorem refresh_check_at_read_time (envA envB : Env) (r0 : Jwt.token)
  (db0 db1 : DB) (devA devB : option string) (respA : TokenResponse)
  (readB : string * RefreshToken.t * User.t) :
  refresh_tokens envA r0 db0 devA = (db1, Ok respA) ->
  refresh_tokens_read (utcnow envB) r0 db0 = Ok readB ->
  DB.refresh_tokens db1 !! Uuid.str (uuid_refresh envB) = None ->
  refresh_tokens envB r0 db1 devB
    = (db1, Raise (RefreshFailed RefreshTokenNotFound)) /\
  exists db2 respB rowA rowB,
    refresh_tokens_overlapped envA envB r0 r0 db0 devA devB
      = (db2, Ok respA, Ok respB) /\
    DB.refresh_tokens db2 !! Uuid.str (uuid_refresh envA) = Some rowA /\
    RefreshToken.is_revoked rowA = false /\
    DB.refresh_tokens db2 !! Uuid.str (uuid_refresh envB) = Some rowB /\
    RefreshToken.is_revoked rowB = false.
Proof.
  intros HA HreadB HfreshB. split.
  - destruct (refresh_tokens_read_after _ _ _ _ _ _ (utcnow envB) HA)
      as (e & He & Hkind).
    destruct readB as [[idB stB] userB].
    apply refresh_tokens_read_Ok in HreadB as (p & Hdec & _).
    rewrite Hdec in Hkind. rewrite (Hkind eq_refl) in He.
    unfold refresh_tokens, refresh_tokens_finish. now rewrite He.
  - destruct readB as [[idB stB] userB].
    unfold refresh_tokens_overlapped. rewrite HreadB.
    unfold refresh_tokens in HA. rewrite HA.
    pose proof HA as HA'. fold (refresh_tokens envA r0 db0 devA) in HA'.
    apply refresh_tokens_Ok in HA'
      as (idA & stA & userA & HreadA & HnewA & Hdb1 & _).
    cbn [refresh_tokens_finish].
    rewrite (refresh_tokens_write_Ok _ _ _ _ _ HfreshB). cbn.
    do 4 eexists. split; [reflexivity|].
    assert (Hne : Uuid.str (uuid_refresh envB) <> Uuid.str (uuid_refresh envA)).
    { intros Heq. rewrite Heq, Hdb1 in HfreshB.
      cbn [DB.refresh_tokens with_refresh_tokens] in HfreshB.
      now rewrite lookup_insert_eq in HfreshB. }
    assert (HneA : idB <> Uuid.str (uuid_refresh envA)).
    { apply refresh_tokens_read_Ok in HreadB
        as (p & _ & _ & _ & _ & _ & _ & HstB & _). congruence. }
    cbn [DB.refresh_tokens with_refresh_tokens].
    rewrite lookup_insert_ne by exact Hne.
    rewrite lookup_alter_ne by exact HneA.
    rewrite Hdb1. cbn [DB.refresh_tokens with_refresh_tokens].
    rewrite !lookup_insert_eq. repeat split.
Qed.

(** *** Logout *)

Lemma revoke_all_for_lookup (now : Z) (uid id : string)
  (rts : gmap string RefreshToken.t) :
  revoke_all_for now uid rts !! id
  = (fun r => if bool_decide (RefreshToken.user_id r = uid)
                 && negb (RefreshToken.is_revoked r)
              then RefreshToken.revoke now r else r) <$> rts !! id.
Proof. unfold revoke_all_for. apply lookup_fmap. Qed.

Lemma logout_Ok (now : Z) (token : Jwt.token) (db db' : DB) (msg : string) :
  logout now token db = (db', Ok msg) ->
  exists u,
    get_current_user now token db = Ok u /\
    db' = with_refresh_tokens
            (revoke_all_for now (ud_id u) (DB.refresh_tokens db)) db.
Proof.
  unfold logout, logout_all_devices. intros H.
  destruct (get_current_user now token db) as [u|e]; [|discriminate].
  cbn in H. injection H as <- _. eauto.
Qed.

(** C7. A successful [logout] revokes, at the time of the call, every row of
    the token's subject that was not revoked, and changes nothing else: the
    other rows, the rows already revoked, the accounts and the requests stay
    as they were, and no row is added or removed.  Afterwards no refresh
    token of that subject is accepted, while [get_current_user] with the
    same access token still answers as before the logout, as long as the
    codec accepts that token (its jti being no refresh-token identifier). *)
Theorem logout_blocks_refresh_only (now now' : Z) (token : Jwt.token)
  (db db' : DB) (msg : string) (payload : Claims.t) :
  logout now token db = (db', Ok msg) ->
  decode_token now' token = Ok payload ->
  (forall j, Claims.jti payload = Some j -> DB.refresh_tokens db !! j = None) ->
  exists subject u,
    Claims.sub payload = Some subject /\
    get_current_user now token db = Ok u /\
    ud_id u = subject /\
    (forall id r, DB.refresh_tokens db !! id = Some r ->
                  RefreshToken.user_id r = subject ->
                  RefreshToken.is_revoked r = false ->
                  DB.refresh_tokens db' !! id
                  = Some (RefreshToken.revoke now r)) /\
    (forall id r, DB.refresh_tokens db !! id = Some r ->
                  RefreshToken.user_id r <> subject
                  \/ RefreshToken.is_revoked r = true ->
                  DB.refresh_tokens db' !! id = Some r) /\
    (forall id, DB.refresh_tokens db !! id = None ->
                DB.refresh_tokens db' !! id = None) /\
    DB.users db' = DB.users db /\
    DB.teacher_requests db' = DB.teacher_requests db /\
    (forall t tok p, decode_token t tok = Ok p ->
                     Claims.sub p = Some subject ->
                     is_Ok (refresh_tokens_read t tok db') = false) /\
    get_current_user now' token db' = Ok u.
Proof.
  intros H Hdec' Hjti.
  apply logout_Ok in H as (u & Hu & ->).
  pose proof Hu as (p & user & Hdec & Hty & Hsub & Hne & _ & Huser & Hact & Hud)
    %get_current_user_Ok.
  pose proof (decode_token_same _ _ _ _ _ Hdec Hdec') as ->.
  assert (Hid : ud_id u = User.id user) by (now subst u).
  exists (User.id user), u. rewrite Hid.
  cbn [DB.refresh_tokens DB.users DB.teacher_requests with_refresh_tokens].
  split; [exact Hsub|]. split; [exact Hu|]. split; [reflexivity|].
  split; [|split; [|split; [|split; [reflexivity|split; [reflexivity|split]]]]].
  - intros id r Hr Huid Hnr. rewrite revoke_all_for_lookup, Hr. cbn.
    now rewrite (bool_decide_eq_true_2 _ Huid), Hnr.
  - intros id r Hr Hcase. rewrite revoke_all_for_lookup, Hr. cbn.
    destruct Hcase as [Hother|Hrev].
    + now rewrite (bool_decide_eq_false_2 _ Hother).
    + now rewrite Hrev, andb_false_r.
  - intros id Hr. now rewrite revoke_all_for_lookup, Hr.
  - intros t tok q Hdecq Hsubq.
    destruct (refresh_tokens_read t tok _) as [[[id st] user']|] eqn:Hread;
      [|reflexivity].
    apply refresh_tokens_read_Ok in Hread
      as (q' & Hdecq' & _ & Hs & _ & _ & _ & Hst & Huid & Hnr & _).
    rewrite Hdecq in Hdecq'. injection Hdecq' as <-.
    assert (Hsame : User.id user' = User.id user) by congruence.
    cbn [DB.refresh_tokens with_refresh_tokens] in Hst.
    rewrite revoke_all_for_lookup in Hst.
    destruct (DB.refresh_tokens db !! id) as [r0|]; [|discriminate].
    cbn in Hst. injection Hst as <-.
    destruct (bool_decide (RefreshToken.user_id r0 = User.id user)) eqn:Hb;
      destruct (RefreshToken.is_revoked r0) eqn:Hr0; cbn in Hnr, Huid;
      try rewrite Hr0 in Hnr; try discriminate.
    apply bool_decide_eq_false_1 in Hb. congruence.
  - rewrite (get_current_user_found now' token _ p (User.id user) user);
      try assumption.
    + rewrite Hact. now subst u.
    + intros j Hj. unfold _is_token_revoked.
      cbn [DB.refresh_tokens with_refresh_tokens].
      now rewrite revoke_all_for_lookup, (Hjti j Hj).
Qed.

(** *** Revocation is permanent *)

(** Case analysis on the innermost scrutinee of the goal. *)
Ltac break_inner :=
  match goal with
  | |- context [match ?x with _ => _ end] =>
      lazymatch x with
      | context [match _ with _ => _ end] => fail
      | _ => destruct x eqn:?
      end
  end.

Lemma revoked_in_same_tokens (id : string) (db db' : DB) :
  DB.refresh_tokens db' = DB.refresh_tokens db ->
  revoked_in id db -> revoked_in id db'.
Proof. unfold revoked_in. now intros ->. Qed.

Lemma revoked_in_update_user (id : string) (now : Z) (uid : string)
  (f : User.t -> User.t) (db : DB) :
  revoked_in id db -> revoked_in id (update_user now uid f db).
Proof. now apply revoked_in_same_tokens. Qed.

Lemma revoked_in_insert_user (id : string) (u : User.t) (db db' : DB) :
  insert_user u db = Ok db' -> revoked_in id db -> revoked_in id db'.
Proof.
  unfold insert_user. repeat break_inner; intros [= <-].
  now apply revoked_in_same_tokens.
Qed.

Lemma revoked_in_insert (id k : string) (r : RefreshToken.t) (db db' : DB) :
  insert_refresh_token k r db = Ok db' -> revoked_in id db -> revoked_in id db'.
Proof.
  unfold insert_refresh_token.
  destruct (DB.refresh_tokens db !! k) eqn:Hk; intros [= <-].
  intros (r0 & Hr0 & Hrev). exists r0. split; [|exact Hrev].
  cbn [DB.refresh_tokens with_refresh_tokens].
  rewrite lookup_insert_ne; [exact Hr0 | congruence].
Qed.

Lemma revoked_in_save (id : string) (env : Env) (db db' : DB)
  (uid k : string) (dev : option string) (e : option Z) :
  _save_refresh_token env db uid k dev e = Ok db' ->
  revoked_in id db -> revoked_in id db'.
Proof.
  unfold _save_refresh_token.
  destruct (_hash_token env k) as [h|]; [|discriminate]. cbn.
  apply revoked_in_insert.
Qed.

Lemma revoked_in_alter (id k : string) (now : Z) (db : DB) :
  revoked_in id db ->
  revoked_in id
    (with_refresh_tokens
       (alter (RefreshToken.revoke now) k (DB.refresh_tokens db)) db).
Proof.
  intros (r & Hr & Hrev). unfold revoked_in.
  cbn [DB.refresh_tokens with_refresh_tokens]. rewrite lookup_alter.
  destruct (decide (k = id)) as [->|]; rewrite Hr; cbn; eauto.
Qed.

Lemma revoked_in_revoke_all (id : string) (now : Z) (uid : string) (db : DB) :
  revoked_in id db ->
  revoked_in id
    (with_refresh_tokens (revoke_all_for now uid (DB.refresh_tokens db)) db).
Proof.
  intros (r & Hr & Hrev). unfold revoked_in.
  cbn [DB.refresh_tokens with_refresh_tokens].
  rewrite revoke_all_for_lookup, Hr. cbn. rewrite Hrev, andb_false_r. eauto.
Qed.

Lemma revoked_in_login (id : string) (env : Env) (email password : string)
  (db : DB) (dev : option string) :
  revoked_in id db ->
  revoked_in id (login_with_email_password env email password db dev).1.
Proof.
  intros H. unfold login_with_email_password.
  cbn [_create_refresh_token].
  repeat break_inner; cbn [fst]; try exact H;
    eauto using revoked_in_update_user, revoked_in_save.
Qed.

Lemma revoked_in_register (id : string) (env : Env) (user_data : RegisterData)
  (db : DB) (dev : option string) :
  revoked_in id db -> revoked_in id (register env user_data db dev).1.
Proof.
  intros H. unfold register.
  repeat break_inner; cbn [fst]; try exact H.
  all: match goal with
       | Hl : login_with_email_password ?e ?m ?p ?d ?v = (?d2, _) |- _ =>
           replace d2 with (login_with_email_password e m p d v).1
             by now rewrite Hl
       end.
  all: apply revoked_in_login; eauto using revoked_in_insert_user.
Qed.

Lemma revoked_in_refresh (id : string) (env : Env) (tok : Jwt.token)
  (db : DB) (dev : option string) :
  revoked_in id db -> revoked_in id (refresh_tokens env tok db dev).1.
Proof.
  intros H. unfold refresh_tokens, refresh_tokens_finish, refresh_tokens_write.
  cbn [_create_refresh_token].
  repeat break_inner; cbn [fst]; try exact H.
  eauto using revoked_in_save, revoked_in_alter.
Qed.

Lemma revoked_in_logout_all (id : string) (now : Z) (uid : string) (db : DB) :
  revoked_in id db -> revoked_in id (logout_all_devices now uid db).1.
Proof. apply revoked_in_revoke_all. Qed.

Lemma revoked_in_logout (id : string) (now : Z) (tok : Jwt.token) (db : DB) :
  revoked_in id db -> revoked_in id (logout now tok db).1.
Proof.
  intros H. unfold logout, logout_all_devices.
  break_inner; cbn [fst]; [|exact H]. now apply revoked_in_revoke_all.
Qed.

Lemma revoked_in_change_password (id : string) (env : Env) (tok : Jwt.token)
  (new_password : string) (db : DB) :
  revoked_in id db ->
  revoked_in id (change_password env tok new_password db).1.
Proof.
  intros H. unfold change_password, logout_all_devices.
  repeat break_inner; cbn [fst]; try exact H.
  now apply revoked_in_revoke_all, revoked_in_update_user.
Qed.

Lemma revoked_in_reset (id : string) (env : Env) (tok : Jwt.token)
  (new_password : string) (db : DB) :
  revoked_in id db ->
  revoked_in id (reset_password_with_token env tok new_password db).1.
Proof.
  intros H. unfold reset_password_with_token, logout_all_devices.
  repeat break_inner; cbn [fst]; try exact H.
  now apply revoked_in_revoke_all, revoked_in_update_user.
Qed.

Lemma revoked_in_step (id : string) (env : Env) (op : Op) (db : DB) :
  revoked_in id db -> revoked_in id (step env op db).
Proof.
  destruct op; cbn [step];
    auto using revoked_in_login, revoked_in_register, revoked_in_refresh,
               revoked_in_logout, revoked_in_logout_all,
               revoked_in_change_password, revoked_in_reset.
Qed.

(** C3. Through any sequence of calls of the session engine (login,
    register, refresh, logout, logout from all devices, password change,
    password reset), a row of [refresh_tokens] that is revoked is still
    there and still revoked. *)
Theorem revocation_is_permanent (calls : list (Env * Op)) (db : DB)
  (id : string) (r : RefreshToken.t) :
  DB.refresh_tokens db !! id = Some r ->
  RefreshToken.is_revoked r = true ->
  exists r',
    DB.refresh_tokens (run calls db) !! id = Some r' /\
    RefreshToken.is_revoked r' = true.
Proof.
  intros Hr Hrev.
  assert (H : revoked_in id db) by (exists r; auto).
  clear Hr Hrev r. revert db H.
  induction calls as [|[env op] calls IH]; intros db H; cbn [run].
  - exact H.
  - apply IH. now apply revoked_in_step.
Qed.

(** *** Registration *)

Lemma find_app_last {A} (p : A -> bool) (l : list A) (x : A) :
  List.find p l = None -> p x = true -> List.find p (l ++ [x]) = Some x.
Proof.
  induction l as [|y l IH]; cbn; intros Hl Hx.
  - now rewrite Hx.
  - destruct (p y); [discriminate | now apply IH].
Qed.

Lemma len_nonempty (s : string) (n : Z) : 0 < n -> n <= Str.len s -> s <> "".
Proof. intros Hn Hs ->. unfold Str.len in Hs. cbn in Hs. lia. Qed.

Lemma varchar_le (n : Z) (s : string) :
  Column.varchar n s = true <-> Str.len s <= n.
Proof. unfold Column.varchar. apply Z.leb_le. Qed.

(** The row of a new account fits its columns when the values taken from
    outside do: the identifier is a uuid and the hash a bcrypt hash. *)
Lemma storable_new_user (n e : N) (email full_name phone role password : string)
  (max_students : Z) (active : bool) (created updated : Z)
  (last : option Z) :
  user_columns_ok email full_name phone role max_students = true ->
  User.storable
    (User.mk (Uuid.str n) email full_name phone role max_students 0
       (Bcrypt.gensalt e
        +:+ Bcrypt.digest bcrypt_hashpass (Bcrypt.gensalt e) password)
       active created updated last) = true.
Proof.
  unfold user_columns_ok, User.storable.
  cbn [User.id User.email User.full_name User.phone User.role
       User.max_students User.current_students_count User.password_hash].
  intros ((((-> & ->)%andb_true_iff & ->)%andb_true_iff
            & ->)%andb_true_iff & ->)%andb_true_iff.
  now rewrite varchar_uuid, varchar_hashed.
Qed.


(** *** More on the token codec *)

Lemma decode_token_forged (now : Z) (p : Claims.t) (sig : string) :
  sig <> hmac_sha256 (secret_key self) p ->
  decode_token now (Jwt.Jws p sig) = Raise (InvalidToken InvalidSignatureError).
Proof.
  intros H. unfold decode_token, Jwt.decode.
  now rewrite (bool_decide_eq_false_2 _ H).
Qed.

Lemma jwt_decode_forged (now : Z) (p : Claims.t) (sig : string) :
  sig <> hmac_sha256 (secret_key self) p ->
  Jwt.decode hmac_sha256 (Jwt.Jws p sig) (secret_key self) now
  = Raise InvalidSignatureError.
Proof.
  intros H. unfold Jwt.decode. now rewrite (bool_decide_eq_false_2 _ H).
Qed.

(** A token whose signature is not the service's is refused by every
    operation that takes a token, whatever its claims and whatever the time,
    and the store is left as it is. *)
Theorem forged_token_refused (p : Claims.t) (sig : string) (env : Env)
  (db : DB) (dev : option string) (new_password : string) :
  sig <> hmac_sha256 (secret_key self) p ->
  get_current_user (utcnow env) (Jwt.Jws p sig) db
    = Raise (GetUserFailed (InvalidToken InvalidSignatureError)) /\
  validate_token (utcnow env) (Jwt.Jws p sig) db = false /\
  refresh_tokens env (Jwt.Jws p sig) db dev
    = (db, Raise (RefreshFailed (InvalidToken InvalidSignatureError))) /\
  logout (utcnow env) (Jwt.Jws p sig) db
    = (db, Raise (LogoutFailed (GetUserFailed (InvalidToken InvalidSignatureError)))) /\
  change_password env (Jwt.Jws p sig) new_password db
    = (db, Raise (GetUserFailed (InvalidToken InvalidSignatureError))) /\
  reset_password_with_token env (Jwt.Jws p sig) new_password db
    = (db, Raise ResetTokenInvalid).
Proof.
  intros H.
  assert (Hg : get_current_user (utcnow env) (Jwt.Jws p sig) db
               = Raise (GetUserFailed (InvalidToken InvalidSignatureError))).
  { unfold get_current_user. now rewrite (decode_token_forged _ _ _ H). }
  split; [exact Hg|]. split; [unfold validate_token; now rewrite Hg|].
  split; [|split; [|split]].
  - unfold refresh_tokens, refresh_tokens_finish, refresh_tokens_read.
    now rewrite (decode_token_forged _ _ _ H).
  - unfold logout. now rewrite Hg.
  - unfold change_password. now rewrite Hg.
  - unfold reset_password_with_token. now rewrite (jwt_decode_forged _ _ _ H).
Qed.

(** The codec accepts a token on one interval of time.  Between two times
    at which a token decodes it decodes, to the same claims; a token refused
    as expired is refused as expired at every later time; and a token
    refused as not yet valid is refused so at every earlier time. *)
Theorem token_expiry_is_final (t1 t2 t3 : Z) (tok : Jwt.token) :
  t1 <= t2 <= t3 ->
  (forall p, decode_token t1 tok = Ok p ->
             is_Ok (decode_token t3 tok) = true ->
             decode_token t2 tok = Ok p) /\
  (decode_token t1 tok = Raise TokenExpired ->
   decode_token t2 tok = Raise TokenExpired) /\
  (decode_token t2 tok = Raise (InvalidToken ImmatureSignatureError) ->
   decode_token t1 tok = Raise (InvalidToken ImmatureSignatureError)).
Proof.
  intros [H12 H23]. unfold decode_token, Jwt.decode.
  destruct tok as [q sig|raw];
    [|split; [|split]; intros; discriminate].
  destruct (bool_decide (sig = hmac_sha256 (secret_key self) q));
    [|split; [|split]; intros; discriminate].
  unfold Jwt.validate_claims, Jwt.validate_exp.
  destruct (Claims.iat q) as [i|], (Claims.exp q) as [e|];
    repeat match goal with
           | |- context [Z.ltb ?a ?b] => destruct (Z.ltb_spec a b)
           | |- context [Z.leb ?a ?b] => destruct (Z.leb_spec a b)
           end;
    (split; [|split]); intros; try discriminate; try lia;
    try assumption; try reflexivity.
Qed.

(** The three kinds of token are not interchangeable: at no time and on no
    store is an access token taken for a refresh or a reset token, a refresh
    token for an access or a reset token, or a reset token for an access or a
    refresh token. *)
Theorem token_types_not_interchangeable (env env' : Env) (data : Claims.t)
  (ttl : option Z) (user_id email new_password : string) (now : Z)
  (db db0 : DB) :
  (is_Ok (refresh_tokens_read now (_create_access_token env data ttl) db) = false /\
   is_Ok (reset_password_with_token env'
            (_create_access_token env data ttl) new_password db).2 = false) /\
  (is_Ok (get_current_user now (_create_refresh_token env user_id).1 db) = false /\
   is_Ok (reset_password_with_token env'
            (_create_refresh_token env user_id).1 new_password db).2 = false) /\
  (forall t, reset_password_request env email db0 = Ok t ->
     is_Ok (get_current_user now t db) = false /\
     is_Ok (refresh_tokens_read now t db) = false).
Proof.
  assert (Hread : forall q,
            Claims.type q <> Some "refresh" ->
            is_Ok (refresh_tokens_read now
                     (Jwt.encode hmac_sha256 q (secret_key self)) db) = false).
  { intros q Hq. unfold refresh_tokens_read.
    destruct (decode_token now _) as [q'|] eqn:Hd; [|reflexivity].
    apply decode_token_Ok in Hd. unfold Jwt.encode in Hd.
    injection Hd as Hd _. subst q'. cbn.
    now rewrite (bool_decide_eq_false_2 _ Hq). }
  assert (Hget : forall q,
            Claims.type q <> Some "access" ->
            is_Ok (get_current_user now
                     (Jwt.encode hmac_sha256 q (secret_key self)) db) = false).
  { intros q Hq. unfold get_current_user.
    destruct (decode_token now _) as [q'|] eqn:Hd; [|reflexivity].
    apply decode_token_Ok in Hd. unfold Jwt.encode in Hd.
    injection Hd as Hd _. subst q'. cbn.
    now rewrite (bool_decide_eq_false_2 _ Hq). }
  assert (Hreset : forall q,
            Claims.type q <> Some "password_reset" ->
            is_Ok (reset_password_with_token env'
                     (Jwt.encode hmac_sha256 q (secret_key self))
                     new_password db).2 = false).
  { intros q Hq. unfold reset_password_with_token.
    rewrite decode_encode. unfold Jwt.validate_claims, Jwt.validate_exp.
    destruct (Claims.iat q) as [i|]; [destruct (utcnow env' <? i)|];
      (destruct (Claims.exp q) as [e|]; [destruct (e <=? utcnow env')|]);
      cbn; try reflexivity;
      now rewrite (bool_decide_eq_false_2 _ Hq). }
  split; [|split].
  - unfold _create_access_token. split; [apply Hread | apply Hreset]; discriminate.
  - cbn [_create_refresh_token fst].
    split; [apply Hget | apply Hreset]; discriminate.
  - intros t Ht. unfold reset_password_request in Ht.
    destruct (user_by_email email db0) as [u|]; [|discriminate].
    cbn in Ht. injection Ht as <-.
    split; [apply Hget | apply Hread]; discriminate.
Qed.

(** *** Login *)

(** Case analysis on the innermost scrutinee of a hypothesis. *)
Ltac break_inner_in H :=
  match type of H with
  | context [match ?x with _ => _ end] =>
      lazymatch x with
      | context [match _ with _ => _ end] => fail
      | _ => destruct x eqn:?
      end
  end.

Lemma find_map_same {A} (p : A -> bool) (g : A -> A) (l : list A) :
  (forall x, p (g x) = p x) ->
  List.find p (map g l) = g <$> List.find p l.
Proof.
  intros Hp. induction l as [|x l IH]; [reflexivity|].
  cbn [map List.find]. rewrite Hp. destruct (p x); [reflexivity | exact IH].
Qed.

Lemma find_unique {A} (f : A -> string) (l : list A) (u : A) :
  NoDup (map f l) -> In u l ->
  List.find (fun x => bool_decide (f x = f u)) l = Some u.
Proof.
  induction l as [|x l IH]; intros Hnd Hin; [destruct Hin|].
  cbn [map] in Hnd. apply NoDup_cons in Hnd as [Hx Hnd].
  cbn [List.find]. destruct Hin as [->|Hin].
  - now rewrite bool_decide_eq_true_2.
  - rewrite bool_decide_eq_false_2; [now apply IH|].
    intros Heq. apply Hx. rewrite Heq.
    apply list_elem_of_In, in_map, Hin.
Qed.

Lemma user_by_email_In (email : string) (db : DB) (u : User.t) :
  user_by_email email db = Some u -> In u (DB.users db) /\ User.email u = email.
Proof.
  unfold user_by_email. intros H. apply find_some in H as [Hin H].
  split; [exact Hin | now apply bool_decide_eq_true_1 in H].
Qed.

Lemma user_by_id_In (user_id : string) (db : DB) (u : User.t) :
  user_by_id user_id db = Some u -> In u (DB.users db) /\ User.id u = user_id.
Proof.
  unfold user_by_id. intros H. apply find_some in H as [Hin H].
  split; [exact Hin | now apply bool_decide_eq_true_1 in H].
Qed.

Lemma users_wf_by_id (db : DB) (u : User.t) :
  users_wf db -> In u (DB.users db) ->
  user_by_id (User.id u) db = Some u /\ User.id u <> "".
Proof.
  intros (Hid & _ & Hne) Hin. split.
  - unfold user_by_id. now apply (find_unique User.id).
  - rewrite Forall_forall in Hne. apply Hne. now apply list_elem_of_In.
Qed.

Lemma users_wf_by_email (db : DB) (u : User.t) :
  users_wf db -> In u (DB.users db) ->
  user_by_email (User.email u) db = Some u.
Proof.
  intros (_ & Hem & _) Hin. unfold user_by_email.
  now apply (find_unique User.email).
Qed.

(** Lookups after the UPDATE of one user's row. *)
Lemma user_by_id_update (now : Z) (uid uid' : string) (f : User.t -> User.t)
  (db : DB) :
  (forall u, User.id (f u) = User.id u) ->
  user_by_id uid' (update_user now uid f db)
  = (fun u => if bool_decide (User.id u = uid) then touched now f u else u)
      <$> user_by_id uid' db.
Proof.
  intros Hf. unfold user_by_id, update_user. cbn [DB.users with_users].
  apply find_map_same. intros u.
  destruct (bool_decide (User.id u = uid)); [|reflexivity].
  unfold touched. cbn. now rewrite Hf.
Qed.

Lemma user_by_email_update (now : Z) (uid email : string) (f : User.t -> User.t)
  (db : DB) :
  (forall u, User.email (f u) = User.email u) ->
  user_by_email email (update_user now uid f db)
  = (fun u => if bool_decide (User.id u = uid) then touched now f u else u)
      <$> user_by_email email db.
Proof.
  intros Hf. unfold user_by_email, update_user. cbn [DB.users with_users].
  apply find_map_same. intros u.
  destruct (bool_decide (User.id u = uid)); [|reflexivity].
  unfold touched. cbn. now rewrite Hf.
Qed.

Lemma _verify_password_Raise (password hash : string) (e : exn) :
  _verify_password password hash = Raise e ->
  e = InvalidSalt \/ e = PasswordTooLong.
Proof.
  unfold _verify_password, Bcrypt.checkpw, Bcrypt.hashpw.
  destruct (72 <? String.length password)%nat; [intros [= <-]; now right|].
  destruct (Bcrypt.parse_setting hash); cbn; [discriminate|].
  intros [= <-]. now left.
Qed.

Lemma _save_refresh_token_Raise (env : Env) (db : DB) (uid : string) (n : N)
  (dev : option string) (e : exn) :
  _save_refresh_token env db uid (Uuid.str n) dev None = Raise e ->
  e = IntegrityError.
Proof.
  rewrite _save_refresh_token_eq. unfold insert_refresh_token.
  destruct (DB.refresh_tokens db !! Uuid.str n); congruence.
Qed.

(** What a successful login has checked and written. *)
Lemma login_Ok (env : Env) (email password : string) (db db' : DB)
  (dev : option string) (resp : TokenResponse) :
  login_with_email_password env email password db dev = (db', Ok resp) ->
  exists u,
    user_by_email email db = Some u /\
    User.is_active u = true /\
    _verify_password password (User.password_hash u) = Ok true /\
    DB.refresh_tokens db !! Uuid.str (uuid_refresh env) = None /\
    db' = with_refresh_tokens
            (<[Uuid.str (uuid_refresh env) :=
                 saved_row env (User.id u) (Uuid.str (uuid_refresh env)) dev]>
               (DB.refresh_tokens db))
            (update_user (utcnow env) (User.id u)
               (User.set_last_login (utcnow env)) db) /\
    access_token resp = _create_access_token env (token_data_of u) None /\
    refresh_token resp = (_create_refresh_token env (User.id u)).1 /\
    user resp
    = mkUserDict (User.id u) (User.email u) (User.full_name u) (User.phone u)
        (User.role u) (User.max_students u) (User.current_students_count u)
        true (User.created_at u) None (Some (utcnow env))
        (_get_user_permissions u).
Proof.
  unfold login_with_email_password. intros H.
  destruct (user_by_email email db) as [u|] eqn:Hu; [|discriminate].
  destruct (User.is_active u) eqn:Hact; cbn [negb] in H.
  2:{ repeat break_inner_in H; discriminate. }
  destruct (_verify_password password (User.password_hash u)) as [[|]|] eqn:Hv;
    try discriminate.
  cbn [_create_refresh_token] in H.
  rewrite _save_refresh_token_eq in H. unfold insert_refresh_token in H.
  cbn [DB.refresh_tokens update_user with_users] in H.
  destruct (DB.refresh_tokens db !! Uuid.str (uuid_refresh env)) eqn:Hnew;
    [discriminate|].
  cbn in H. injection H as <- <-.
  exists u. rewrite Hact. repeat split; try assumption; reflexivity.
Qed.

(** A successful login has found an active account whose stored hash
    verifies the password; it adds exactly one refresh row, new, unrevoked,
    owned by that account and expiring after the configured number of days;
    it leaves every other refresh row and every teacher request as they
    were, and changes the [users] table only by the login time of that
    account. *)
Theorem login_effects (env : Env) (email password : string) (db db' : DB)
  (dev : option string) (resp : TokenResponse) :
  login_with_email_password env email password db dev = (db', Ok resp) ->
  exists u,
    user_by_email email db = Some u /\
    User.is_active u = true /\
    _verify_password password (User.password_hash u) = Ok true /\
    DB.refresh_tokens db !! Uuid.str (uuid_refresh env) = None /\
    (exists row,
        DB.refresh_tokens db' !! Uuid.str (uuid_refresh env) = Some row /\
        RefreshToken.user_id row = User.id u /\
        RefreshToken.is_revoked row = false /\
        RefreshToken.expires_at row
        = utcnow env + refresh_token_expire_days self * 86400) /\
    (forall id, id <> Uuid.str (uuid_refresh env) ->
                DB.refresh_tokens db' !! id = DB.refresh_tokens db !! id) /\
    DB.users db'
    = map (fun x => if bool_decide (User.id x = User.id u)
                    then touched (utcnow env) (User.set_last_login (utcnow env)) x
                    else x) (DB.users db) /\
    DB.teacher_requests db' = DB.teacher_requests db /\
    ud_role (user resp) = User.role u /\
    ud_permissions (user resp) = _get_user_permissions u.
Proof.
  intros H.
  apply login_Ok in H as (u & Hu & Hact & Hv & Hnew & -> & _ & _ & Hresp).
  exists u. rewrite Hresp.
  cbn [DB.refresh_tokens DB.users DB.teacher_requests with_refresh_tokens
       update_user with_users ud_role ud_permissions].
  split; [exact Hu|]. split; [exact Hact|]. split; [exact Hv|].
  split; [exact Hnew|]. split; [|split; [|repeat split]].
  - eexists. split; [apply lookup_insert_eq|]. repeat split.
  - intros id Hid. apply lookup_insert_ne. congruence.
Qed.

(** The access token a login returns authenticates on the store the login
    left, from the time of the login until the access lifetime has run out:
    [get_current_user] answers with the account as the login updated it. *)
Theorem login_then_authenticate (env : Env) (email password : string)
  (db db' : DB) (dev : option string) (resp : TokenResponse) (now' : Z) :
  users_wf db ->
  login_with_email_password env email password db dev = (db', Ok resp) ->
  utcnow env <= now' < utcnow env + access_token_expire_minutes self * 60 ->
  _is_token_revoked (Uuid.str (uuid_access env)) db = false ->
  exists u,
    user_by_email email db = Some u /\
    get_current_user now' (access_token resp) db'
    = Ok (_user_to_dict
            (touched (utcnow env) (User.set_last_login (utcnow env)) u)).
Proof.
  intros Hwf H Hlive Hrev.
  apply login_Ok in H as (u & Hu & Hact & _ & Hnew & -> & -> & _).
  exists u. split; [exact Hu|].
  destruct (user_by_email_In _ _ _ Hu) as [Hin _].
  destruct (users_wf_by_id _ _ Hwf Hin) as [Hid Hne].
  unfold _create_access_token.
  erewrite get_current_user_found with (user_id := User.id u)
    (user := touched (utcnow env) (User.set_last_login (utcnow env)) u).
  - cbn. rewrite Hact. reflexivity.
  - apply decode_token_encode with
      (e := utcnow env + access_token_expire_minutes self * 60)
      (i := utcnow env);
      [reflexivity | reflexivity | lia | lia].
  - reflexivity.
  - reflexivity.
  - exact Hne.
  - intros j [= <-]. unfold _is_token_revoked in *.
    cbn [DB.refresh_tokens with_refresh_tokens update_user with_users].
    rewrite lookup_insert. case_decide; [reflexivity | exact Hrev].
  - change (user_by_id (User.id u)
              (update_user (utcnow env) (User.id u)
                 (User.set_last_login (utcnow env)) db)
            = Some (touched (utcnow env) (User.set_last_login (utcnow env)) u)).
    rewrite user_by_id_update by reflexivity. rewrite Hid. cbn.
    now rewrite bool_decide_eq_true_2.
Qed.

(** The refresh token a login returns is accepted by [refresh_tokens] on the
    store the login left, at a time not before the login, as long as it has
    not expired and the identifier drawn for the next token is new. *)
Theorem login_then_refresh (env env2 : Env) (email password : string)
  (db db' : DB) (dev dev2 : option string) (resp : TokenResponse) :
  users_wf db ->
  login_with_email_password env email password db dev = (db', Ok resp) ->
  utcnow env <= utcnow env2
    < utcnow env + refresh_token_expire_days self * 86400 ->
  DB.refresh_tokens db' !! Uuid.str (uuid_refresh env2) = None ->
  exists db'' resp',
    refresh_tokens env2 (refresh_token resp) db' dev2 = (db'', Ok resp') /\
    ud_id (user resp') = ud_id (user resp).
Proof.
  intros Hwf H Hlive Hfresh.
  pose proof H as (u & Hu & Hact & _ & Hnew & Hdb & _ & Hrt & Hresp)%login_Ok.
  destruct (user_by_email_In _ _ _ Hu) as [Hin _].
  destruct (users_wf_by_id _ _ Hwf Hin) as [Hid Hne].
  assert (Hread :
    refresh_tokens_read (utcnow env2) (refresh_token resp) db'
    = Ok (Uuid.str (uuid_refresh env),
          saved_row env (User.id u) (Uuid.str (uuid_refresh env)) dev,
          touched (utcnow env) (User.set_last_login (utcnow env)) u)).
  { rewrite Hrt. cbn [_create_refresh_token fst].
    eapply refresh_tokens_read_found with (uid := User.id u).
    - apply decode_token_encode with
        (e := utcnow env + refresh_token_expire_days self * 86400)
        (i := utcnow env);
        [reflexivity | reflexivity | lia | lia].
    - reflexivity.
    - reflexivity.
    - exact Hne.
    - reflexivity.
    - apply uuid_str_nonempty.
    - rewrite Hdb. cbn [DB.refresh_tokens with_refresh_tokens].
      apply lookup_insert_eq.
    - reflexivity.
    - reflexivity.
    - exact (proj2 Hlive).
    - rewrite Hdb.
      change (user_by_id (User.id u)
                (update_user (utcnow env) (User.id u)
                   (User.set_last_login (utcnow env)) db)
              = Some (touched (utcnow env) (User.set_last_login (utcnow env)) u)).
      rewrite user_by_id_update by reflexivity. rewrite Hid. cbn.
      now rewrite bool_decide_eq_true_2.
    - exact Hact. }
  unfold refresh_tokens, refresh_tokens_finish. rewrite Hread.
  rewrite (refresh_tokens_write_Ok _ _ _ _ _ Hfresh). cbn.
  do 2 eexists. split; [reflexivity|]. rewrite Hresp. reflexivity.
Qed.

(** A login that fails adds no refresh row.  It leaves the whole store as it
    was, except when it fails on the insertion of the refresh row (the
    identifier is taken): then the login time it had already committed
    stays. *)
Theorem failed_login_writes (env : Env) (email password : string)
  (db db' : DB) (dev : option string) (e : exn) :
  login_with_email_password env email password db dev = (db', Raise e) ->
  DB.refresh_tokens db' = DB.refresh_tokens db /\
  (e <> LoginFailed IntegrityError -> db' = db) /\
  (e = LoginFailed IntegrityError ->
   exists u, user_by_email email db = Some u /\
             db' = update_user (utcnow env) (User.id u)
                     (User.set_last_login (utcnow env)) db).
Proof.
  unfold login_with_email_password. intros H.
  destruct (user_by_email email db) as [u|] eqn:Hu.
  2:{ cbn in H. injection H as <- <-. repeat split; congruence. }
  destruct (User.is_active u); cbn [negb] in H.
  2:{ repeat break_inner_in H; cbn in H; injection H as <- <-;
      repeat split; congruence. }
  destruct (_verify_password password (User.password_hash u)) as [[|]|e0] eqn:Hv.
  - cbn [_create_refresh_token] in H.
    destruct (_save_refresh_token _ _ _ _ _ _) as [db2|e1] eqn:Hs;
      [discriminate|].
    apply _save_refresh_token_Raise in Hs. subst e1.
    cbn in H. injection H as <- <-.
    split; [reflexivity|]. split; [congruence|]. eauto.
  - cbn in H. injection H as <- <-. repeat split; congruence.
  - apply _verify_password_Raise in Hv. destruct Hv; subst e0;
      cbn in H; injection H as <- <-; repeat split; congruence.
Qed.

(** *** Calls that fail, and rows that are revoked *)

Lemma failed_login_rows (env : Env) (email password : string) (db db' : DB)
  (dev : option string) (e : exn) :
  login_with_email_password env email password db dev = (db', Raise e) ->
  DB.refresh_tokens db' = DB.refresh_tokens db.
Proof.
  unfold login_with_email_password. intros H.
  cbn [_create_refresh_token] in H.
  repeat break_inner_in H; cbn in H; try discriminate;
    injection H as <- _; reflexivity.
Qed.

Lemma failed_refresh_same (env : Env) (tok : Jwt.token) (db db' : DB)
  (dev : option string) (e : exn) :
  refresh_tokens env tok db dev = (db', Raise e) -> db' = db.
Proof.
  unfold refresh_tokens, refresh_tokens_finish.
  destruct (refresh_tokens_read (utcnow env) tok db) as [[[id st] u]|e0];
    [|congruence].
  destruct (DB.refresh_tokens db !! Uuid.str (uuid_refresh env)) as [r|] eqn:Hn.
  - rewrite (refresh_tokens_write_taken _ _ _ _ _ _ Hn). cbn. congruence.
  - rewrite (refresh_tokens_write_Ok _ _ _ _ _ Hn). cbn. discriminate.
Qed.

(** Unlike login and registration, [refresh_tokens], [logout],
    [change_password] and [reset_password_with_token] write nothing when they
    raise: the store is the one they were given. *)
Theorem failed_calls_do_not_write (env : Env) (tok : Jwt.token) (db db' : DB)
  (e : exn) :
  (forall dev, refresh_tokens env tok db dev = (db', Raise e) -> db' = db) /\
  (logout (utcnow env) tok db = (db', Raise e) -> db' = db) /\
  (forall new_password,
      change_password env tok new_password db = (db', Raise e) -> db' = db) /\
  (forall new_password,
      reset_password_with_token env tok new_password db = (db', Raise e) ->
      db' = db).
Proof.
  split; [|split; [|split]].
  - intros dev. apply failed_refresh_same.
  - unfold logout, logout_all_devices.
    destruct (get_current_user (utcnow env) tok db); cbn; [discriminate|congruence].
  - intros new_password. unfold change_password, logout_all_devices. intros H.
    repeat break_inner_in H; cbn in H; try discriminate; congruence.
  - intros new_password. unfold reset_password_with_token, logout_all_devices.
    intros H.
    repeat break_inner_in H; cbn in H; try discriminate; congruence.
Qed.

Lemma kept_insert (id k : string) (r row : RefreshToken.t) (db db' : DB) :
  insert_refresh_token k row db = Ok db' ->
  DB.refresh_tokens db !! id = Some r ->
  DB.refresh_tokens db' !! id = Some r.
Proof.
  unfold insert_refresh_token.
  destruct (DB.refresh_tokens db !! k) eqn:Hk; intros [= <-] Hr.
  cbn [DB.refresh_tokens with_refresh_tokens].
  rewrite lookup_insert_ne; [exact Hr | congruence].
Qed.

Lemma kept_save (id : string) (r : RefreshToken.t) (env : Env) (db db' : DB)
  (uid k : string) (dev : option string) :
  _save_refresh_token env db uid k dev None = Ok db' ->
  DB.refresh_tokens db !! id = Some r ->
  DB.refresh_tokens db' !! id = Some r.
Proof.
  unfold _save_refresh_token.
  destruct (_hash_token env k) as [h|]; [|discriminate]. cbn.
  apply kept_insert.
Qed.

Lemma kept_revoke_all (id : string) (r : RefreshToken.t) (now : Z)
  (uid : string) (rts : gmap string RefreshToken.t) :
  rts !! id = Some r -> RefreshToken.is_revoked r = true ->
  revoke_all_for now uid rts !! id = Some r.
Proof.
  intros Hr Hrev. rewrite revoke_all_for_lookup, Hr. cbn.
  now rewrite Hrev, andb_false_r.
Qed.

Lemma kept_login (id : string) (r : RefreshToken.t) (env : Env)
  (email password : string) (db : DB) (dev : option string) :
  DB.refresh_tokens db !! id = Some r ->
  DB.refresh_tokens (login_with_email_password env email password db dev).1 !! id
  = Some r.
Proof.
  intros Hr.
  destruct (login_with_email_password env email password db dev)
    as [db' [resp|e]] eqn:H; cbn [fst].
  - apply login_Ok in H as (u & _ & _ & _ & Hnew & -> & _).
    cbn [DB.refresh_tokens with_refresh_tokens update_user with_users].
    rewrite lookup_insert_ne; [exact Hr | congruence].
  - apply failed_login_rows in H. now rewrite H.
Qed.

Lemma kept_register (id : string) (r : RefreshToken.t) (env : Env)
  (user_data : RegisterData) (db : DB) (dev : option string) :
  DB.refresh_tokens db !! id = Some r ->
  DB.refresh_tokens (register env user_data db dev).1 !! id = Some r.
Proof.
  intros Hr. unfold register.
  repeat break_inner; cbn [fst]; try exact Hr.
  all: match goal with
       | Hl : login_with_email_password ?e ?m ?p ?d ?v = (?d2, _) |- _ =>
           replace d2 with (login_with_email_password e m p d v).1
             by now rewrite Hl
       end.
  all: apply kept_login.
  all: match goal with
       | Hi : insert_user _ _ = Ok _ |- _ =>
           unfold insert_user in Hi; repeat break_inner_in Hi;
           try discriminate; injection Hi as <-
       end.
  all: exact Hr.
Qed.

Lemma kept_refresh (id : string) (r : RefreshToken.t) (env : Env)
  (tok : Jwt.token) (db : DB) (dev : option string) :
  DB.refresh_tokens db !! id = Some r -> RefreshToken.is_revoked r = true ->
  DB.refresh_tokens (refresh_tokens env tok db dev).1 !! id = Some r.
Proof.
  intros Hr Hrev.
  destruct (refresh_tokens env tok db dev) as [db' [resp|e]] eqn:H; cbn [fst].
  - apply refresh_tokens_Ok in H as (sid & st & u & Hread & Hnew & -> & _).
    apply refresh_tokens_read_Ok in Hread
      as (p & _ & _ & _ & _ & _ & _ & Hst & _ & Hnr & _).
    cbn [DB.refresh_tokens with_refresh_tokens].
    rewrite lookup_insert_ne by congruence.
    rewrite lookup_alter_ne; [exact Hr | congruence].
  - apply failed_refresh_same in H. now subst.
Qed.

Lemma kept_step (id : string) (r : RefreshToken.t) (env : Env) (op : Op)
  (db : DB) :
  DB.refresh_tokens db !! id = Some r -> RefreshToken.is_revoked r = true ->
  DB.refresh_tokens (step env op db) !! id = Some r.
Proof.
  intros Hr Hrev. destruct op; cbn [step].
  - now apply kept_login.
  - now apply kept_register.
  - now apply kept_refresh.
  - unfold logout, logout_all_devices.
    destruct (get_current_user _ _ _); cbn; [|exact Hr].
    now apply kept_revoke_all.
  - cbn. now apply kept_revoke_all.
  - unfold change_password, logout_all_devices.
    repeat break_inner; cbn [fst]; try exact Hr.
    cbn. now apply kept_revoke_all.
  - exact Hr.
  - unfold reset_password_with_token, logout_all_devices.
    repeat break_inner; cbn [fst]; try exact Hr.
    cbn. now apply kept_revoke_all.
Qed.

(** A revoked refresh row is frozen: through any sequence of calls of the
    session engine it stays exactly as it is, its revocation time
    included. *)
Theorem revoked_row_is_frozen (calls : list (Env * Op)) (db : DB)
  (id : string) (r : RefreshToken.t) :
  DB.refresh_tokens db !! id = Some r ->
  RefreshToken.is_revoked r = true ->
  DB.refresh_tokens (run calls db) !! id = Some r.
Proof.
  revert db. induction calls as [|[env op] calls IH]; intros db Hr Hrev;
    cbn [run]; [exact Hr|].
  apply IH; [|exact Hrev]. now apply kept_step.
Qed.

(** A successful [refresh_tokens] is a rotation: the row of the token it was
    given becomes revoked, one new unrevoked row is added for the same
    account, and nothing else in the store changes. *)
Theorem refresh_is_a_rotation (env : Env) (tok : Jwt.token) (db db' : DB)
  (dev : option string) (resp : TokenResponse) :
  refresh_tokens env tok db dev = (db', Ok resp) ->
  exists old_id old u,
    refresh_tokens_read (utcnow env) tok db = Ok (old_id, old, u) /\
    DB.refresh_tokens db' !! old_id
      = Some (RefreshToken.revoke (utcnow env) old) /\
    DB.refresh_tokens db !! Uuid.str (uuid_refresh env) = None /\
    (exists row,
        DB.refresh_tokens db' !! Uuid.str (uuid_refresh env) = Some row /\
        RefreshToken.user_id row = RefreshToken.user_id old /\
        RefreshToken.is_revoked row = false) /\
    (forall id, id <> old_id -> id <> Uuid.str (uuid_refresh env) ->
                DB.refresh_tokens db' !! id = DB.refresh_tokens db !! id) /\
    DB.users db' = DB.users db /\
    DB.teacher_requests db' = DB.teacher_requests db /\
    user resp = _user_to_dict u.
Proof.
  intros H.
  pose proof H as (sid & st & u & Hread & Hnew & Hdb & _)%refresh_tokens_Ok.
  pose proof (refresh_tokens_revokes _ _ _ _ _ _ _ _ _ H Hread) as Hold.
  exists sid, st, u.
  split; [exact Hread|]. split; [exact Hold|]. split; [exact Hnew|].
  pose proof Hread as (p & _ & _ & _ & _ & _ & _ & _ & Huid & _)%refresh_tokens_read_Ok.
  unfold refresh_tokens, refresh_tokens_finish in H. rewrite Hread in H.
  rewrite (refresh_tokens_write_Ok _ _ _ _ _ Hnew) in H. cbn in H.
  injection H as _ <-. rewrite Hdb.
  cbn [DB.refresh_tokens DB.users DB.teacher_requests with_refresh_tokens user].
  split; [|split; [|repeat split]].
  - eexists. split; [apply lookup_insert_eq|]. split; [|reflexivity].
    cbn. congruence.
  - intros id H1 H2. rewrite lookup_insert_ne by congruence.
    now rewrite lookup_alter_ne by congruence.
Qed.

(** [logout_all_devices] is idempotent: a second call for the same account,
    at whatever time, changes nothing; in particular it does not move the
    revocation time the first call wrote. *)
Theorem logout_all_devices_idempotent (now now' : Z) (user_id : string)
  (db : DB) :
  (logout_all_devices now' user_id (logout_all_devices now user_id db).1).1
  = (logout_all_devices now user_id db).1.
Proof.
  unfold logout_all_devices. cbn [fst].
  unfold with_refresh_tokens. cbn [DB.users DB.teacher_requests DB.refresh_tokens].
  f_equal. apply map_eq. intros id.
  rewrite !revoke_all_for_lookup.
  destruct (DB.refresh_tokens db !! id) as [r|]; [|reflexivity]. cbn. f_equal.
  destruct (bool_decide (RefreshToken.user_id r = user_id)) eqn:Hu;
    destruct (RefreshToken.is_revoked r) eqn:Hr; cbn; rewrite ?Hu, ?Hr; cbn;
    rewrite ?andb_false_r; reflexivity.
Qed.

(** *** Passwords and registration *)

(** The converse of [login_Ok]. *)
Lemma login_succeeds (env : Env) (email password : string) (db : DB)
  (dev : option string) (u : User.t) :
  user_by_email email db = Some u ->
  User.is_active u = true ->
  _verify_password password (User.password_hash u) = Ok true ->
  DB.refresh_tokens db !! Uuid.str (uuid_refresh env) = None ->
  login_with_email_password env email password db dev
  = (with_refresh_tokens
       (<[Uuid.str (uuid_refresh env) :=
            saved_row env (User.id u) (Uuid.str (uuid_refresh env)) dev]>
          (DB.refresh_tokens db))
       (update_user (utcnow env) (User.id u)
          (User.set_last_login (utcnow env)) db),
     Ok (mkTokenResponse
           (_create_access_token env (token_data_of u) None)
           (_create_refresh_token env (User.id u)).1 "bearer"
           (access_token_expire_minutes self * 60)
           (mkUserDict (User.id u) (User.email u) (User.full_name u)
              (User.phone u) (User.role u) (User.max_students u)
              (User.current_students_count u) true (User.created_at u) None
              (Some (utcnow env)) (_get_user_permissions u))
           "Вход выполнен успешно")).
Proof.
  intros Hu Hact Hv Hnew. unfold login_with_email_password.
  rewrite Hu, Hact, Hv. cbn [negb _create_refresh_token].
  rewrite _save_refresh_token_eq. unfold insert_refresh_token.
  cbn [DB.refresh_tokens update_user with_users]. rewrite Hnew.
  cbn. rewrite Hact. reflexivity.
Qed.

Lemma verify_hashed (env : Env) (password : string) :
  (String.length password <= 72)%nat ->
  exists h, _hash_password env password = Ok h /\
            _verify_password password h = Ok true.
Proof.
  intros Hlen.
  unfold _hash_password, _verify_password. rewrite hashpw_gensalt by exact Hlen.
  eexists. split; [reflexivity | now apply checkpw_hashpw].
Qed.

(** A hash [_hash_password] has made verifies its password. *)
Lemma hashed_verifies (env : Env) (password h : string) :
  _hash_password env password = Ok h ->
  _verify_password password h = Ok true.
Proof.
  unfold _hash_password. intros [Hlen ->]%hashpw_gensalt_Ok.
  now apply checkpw_hashpw.
Qed.

(** What a successful [change_password] has done. *)
Lemma change_password_Ok (env : Env) (tok : Jwt.token) (new_password : string)
  (db db' : DB) (msg : string) :
  change_password env tok new_password db = (db', Ok msg) ->
  exists u h,
    get_current_user (utcnow env) tok db = Ok u /\
    6 <= Str.len new_password /\
    _hash_password env new_password = Ok h /\
    db' = with_refresh_tokens
            (revoke_all_for (utcnow env) (ud_id u) (DB.refresh_tokens db))
            (update_user (utcnow env) (ud_id u) (User.set_password_hash h) db).
Proof.
  unfold change_password, logout_all_devices. intros H.
  destruct (get_current_user (utcnow env) tok db) as [u|] eqn:Hu; [|discriminate].
  destruct (bool_decide (ud_id u = "")); [discriminate|].
  destruct (user_by_id (ud_id u) db); [|discriminate].
  destruct (Z.ltb_spec (Str.len new_password) 6); [discriminate|].
  destruct (_hash_password env new_password) as [h|] eqn:Hh; [|discriminate].
  cbn in H. injection H as <- _.
  exists u, h. split; [reflexivity|]. split; [lia|]. split; reflexivity.
Qed.

(** A successful [change_password] replaces the stored hash of the token's
    subject by one that verifies the new password, revokes every refresh
    row of that subject, and changes nothing else: no other account's row,
    no other user's attributes. *)
Theorem change_password_effects (env : Env) (tok : Jwt.token)
  (new_password : string) (db db' : DB) (msg : string) :
  change_password env tok new_password db = (db', Ok msg) ->
  exists u h,
    get_current_user (utcnow env) tok db = Ok u /\
    _verify_password new_password h = Ok true /\
    DB.users db'
    = map (fun x => if bool_decide (User.id x = ud_id u)
                    then touched (utcnow env) (User.set_password_hash h) x
                    else x) (DB.users db) /\
    (forall id r, DB.refresh_tokens db' !! id = Some r ->
                  RefreshToken.user_id r = ud_id u ->
                  RefreshToken.is_revoked r = true) /\
    (forall id r, DB.refresh_tokens db !! id = Some r ->
                  RefreshToken.user_id r <> ud_id u ->
                  DB.refresh_tokens db' !! id = Some r) /\
    DB.teacher_requests db' = DB.teacher_requests db.
Proof.
  intros H. apply change_password_Ok in H as (u & h & Hu & _ & Hh & ->).
  exists u, h. split; [exact Hu|]. split.
  { exact (hashed_verifies _ _ _ Hh). }
  cbn [DB.users DB.refresh_tokens DB.teacher_requests with_refresh_tokens
       update_user with_users].
  split; [reflexivity|]. split; [|split; [|reflexivity]].
  - intros id r. rewrite revoke_all_for_lookup.
    destruct (DB.refresh_tokens db !! id) as [r0|]; [|discriminate].
    cbn. intros [= <-].
    destruct (bool_decide (RefreshToken.user_id r0 = ud_id u)) eqn:Hb;
      destruct (RefreshToken.is_revoked r0) eqn:Hr; cbn; try rewrite Hr; auto.
    apply bool_decide_eq_false_1 in Hb. intros ?. contradiction.
  - intros id r Hr Hne. rewrite revoke_all_for_lookup, Hr. cbn.
    now rewrite (bool_decide_eq_false_2 _ Hne).
Qed.

(** After a successful [change_password] the account logs in with the new
    password. *)
Theorem change_password_then_login (env env2 : Env) (tok : Jwt.token)
  (new_password : string) (db db' : DB) (msg : string) (dev : option string) :
  users_wf db ->
  change_password env tok new_password db = (db', Ok msg) ->
  DB.refresh_tokens db' !! Uuid.str (uuid_refresh env2) = None ->
  exists u db'' resp,
    get_current_user (utcnow env) tok db = Ok u /\
    login_with_email_password env2 (ud_email u) new_password db' dev
    = (db'', Ok resp) /\
    ud_id (user resp) = ud_id u.
Proof.
  intros Hwf H Hfresh.
  apply change_password_Ok in H as (u & h & Hu & _ & Hh & ->).
  exists u.
  pose proof Hu as (p & x & _ & _ & _ & _ & _ & Hx & Hact & Hux)%get_current_user_Ok.
  subst u.
  destruct (user_by_id_In _ _ _ Hx) as [Hin _].
  pose proof (users_wf_by_email _ _ Hwf Hin) as Hem.
  pose proof (hashed_verifies _ _ _ Hh) as Hv.
  cbn [_user_to_dict ud_id ud_email] in *.
  eexists. eexists. split; [exact Hu|].
  erewrite login_succeeds with
    (u := touched (utcnow env) (User.set_password_hash h) x).
  - split; reflexivity.
  - change (user_by_email (User.email x)
              (update_user (utcnow env) (User.id x)
                 (User.set_password_hash h) db)
            = Some (touched (utcnow env) (User.set_password_hash h) x)).
    rewrite user_by_email_update by reflexivity. rewrite Hem. cbn.
    now rewrite bool_decide_eq_true_2.
  - exact Hact.
  - exact Hv.
  - exact Hfresh.
Qed.

(** The reset round trip: for the email of any account, active or not,
    [reset_password_request] returns a token, and with that token
    [reset_password_with_token] sets any new password of six characters or
    more and 72 bytes or fewer, from the time of the request and within the
    reset lifetime: the stored hash then verifies the new password and every
    refresh row of the account is revoked. *)
Theorem reset_round_trip (env env2 : Env) (email new_password : string)
  (db : DB) (u : User.t) :
  users_wf db ->
  user_by_email email db = Some u ->
  utcnow env <= utcnow env2
    < utcnow env + password_reset_token_expire_minutes self * 60 ->
  6 <= Str.len new_password ->
  (String.length new_password <= 72)%nat ->
  exists t h msg,
    reset_password_request env email db = Ok t /\
    _verify_password new_password h = Ok true /\
    reset_password_with_token env2 t new_password db
    = (with_refresh_tokens
         (revoke_all_for (utcnow env2) (User.id u) (DB.refresh_tokens db))
         (update_user (utcnow env2) (User.id u) (User.set_password_hash h) db),
       Ok msg).
Proof.
  intros Hwf Hu Hlive Hlen Hbytes.
  destruct (user_by_email_In _ _ _ Hu) as [Hin _].
  destruct (users_wf_by_id _ _ Hwf Hin) as [Hid Hne].
  destruct (verify_hashed env2 new_password Hbytes) as (h & Hh & Hv).
  unfold reset_password_request. rewrite Hu. cbn.
  eexists. exists h. eexists. split; [reflexivity|]. split; [exact Hv|].
  unfold reset_password_with_token, logout_all_devices.
  rewrite decode_encode.
  erewrite validate_claims_live with
    (e := utcnow env + password_reset_token_expire_minutes self * 60)
    (i := utcnow env); [|reflexivity|reflexivity|lia|lia].
  cbn [Claims.type Claims.sub].
  rewrite bool_decide_eq_true_2 by reflexivity. cbn [negb].
  rewrite (truthy_true _ Hne). cbn [negb].
  change (default "" (Some (User.id u))) with (User.id u).
  rewrite Hid.
  destruct (Z.ltb_spec (Str.len new_password) 6); [lia|].
  rewrite Hh. reflexivity.
Qed.



(** *** What the session engine keeps of the [users] table *)

Lemma account_touched (now : Z) (f : User.t -> User.t) (uid : string) :
  (forall x, account (f x) = account x) ->
  forall x, account (if bool_decide (User.id x = uid) then touched now f x else x)
            = account x.
Proof.
  intros Hf x. destruct (bool_decide (User.id x = uid)); [|reflexivity].
  rewrite <- (Hf x). reflexivity.
Qed.

(** The [users] table after a login: the same rows, up to columns that are
    not part of [account]. *)
Lemma login_users (env : Env) (email password : string) (db : DB)
  (dev : option string) :
  exists g, (forall x, account (g x) = account x) /\
            DB.users (login_with_email_password env email password db dev).1
            = map g (DB.users db).
Proof.
  destruct (login_with_email_password env email password db dev)
    as [db' [resp|e]] eqn:H; cbn [fst].
  - apply login_Ok in H as (u & _ & _ & _ & _ & -> & _).
    eexists. split; [|reflexivity].
    now apply account_touched.
  - unfold login_with_email_password in H. cbn [_create_refresh_token] in H.
    repeat break_inner_in H; cbn in H; try discriminate; injection H as <- _.
    all: try (exists (fun x => x); split; [reflexivity | now rewrite map_id]).
    eexists. split; [|reflexivity]. now apply account_touched.
Qed.

(** The [users] table after one call: either the same rows up to columns
    outside [account], or those and one more row, whose identifier and email
    were not in the table. *)
Lemma step_users (env : Env) (op : Op) (db : DB) :
  exists g added,
    (forall x, account (g x) = account x) /\
    DB.users (step env op db) = map g (DB.users db ++ added) /\
    (added = [] \/
     exists u, added = [u] /\ User.id u <> "" /\
               user_by_id (User.id u) db = None /\
               user_by_email (User.email u) db = None).
Proof.
  assert (Hsame : forall db', DB.users db' = DB.users db ->
            exists g added,
              (forall x, account (g x) = account x) /\
              DB.users db' = map g (DB.users db ++ added) /\
              (added = [] \/
               exists u, added = [u] /\ User.id u <> "" /\
                         user_by_id (User.id u) db = None /\
                         user_by_email (User.email u) db = None)).
  { intros db' ->. exists (fun x => x), [].
    split; [reflexivity|]. split; [|now left].
    now rewrite app_nil_r, map_id. }
  assert (Hupd : forall now uid f rts,
            (forall x, account (f x) = account x) ->
            exists g added,
              (forall x, account (g x) = account x) /\
              DB.users (with_refresh_tokens rts (update_user now uid f db))
              = map g (DB.users db ++ added) /\
              (added = [] \/
               exists u, added = [u] /\ User.id u <> "" /\
                         user_by_id (User.id u) db = None /\
                         user_by_email (User.email u) db = None)).
  { intros now uid f rts Hf. eexists. exists [].
    split; [apply (account_touched now f uid Hf)|].
    split; [|now left]. now rewrite app_nil_r. }
  destruct op; cbn [step].
  - destruct (login_users env email password db device_info) as (g & Hg & ->).
    exists g, []. split; [exact Hg|]. split; [|now left].
    now rewrite app_nil_r.
  - unfold register.
    repeat break_inner; cbn [fst]; try (apply Hsame; reflexivity).
    all: match goal with
         | Hl : login_with_email_password ?e ?m ?p ?d ?v = (?d2, _) |- _ =>
             replace d2 with (login_with_email_password e m p d v).1
               by now rewrite Hl
         end.
    all: match goal with
         | |- context [login_with_email_password ?e ?m ?p ?d ?v] =>
             destruct (login_users e m p d v) as (g & Hg & ->)
         end.
    all: match goal with
         | Hi : insert_user ?u _ = Ok _ |- _ =>
             unfold insert_user in Hi;
             destruct (negb (User.storable u)); [discriminate|];
             destruct (user_by_id (User.id u) db) eqn:Hbyid; [discriminate|];
             destruct (user_by_email (User.email u) db) eqn:Hbyem; [discriminate|];
             injection Hi as <-;
             exists g, [u]; split; [exact Hg|]; split; [reflexivity|];
             right; exists u; repeat split; try assumption;
             apply uuid_str_nonempty
         end.
  - destruct (refresh_tokens env refresh_token0 db device_info)
      as [db' [resp|e]] eqn:H; cbn [fst].
    + apply refresh_tokens_Ok in H as (? & ? & ? & _ & _ & -> & _).
      now apply Hsame.
    + apply failed_refresh_same in H. subst. now apply Hsame.
  - unfold logout, logout_all_devices.
    destruct (get_current_user _ _ _); cbn; now apply Hsame.
  - now apply Hsame.
  - unfold change_password, logout_all_devices.
    repeat break_inner; cbn [fst]; try (apply Hsame; reflexivity).
    now apply Hupd.
  - now apply Hsame.
  - unfold reset_password_with_token, logout_all_devices.
    repeat break_inner; cbn [fst]; try (apply Hsame; reflexivity).
    now apply Hupd.
Qed.

Lemma NoDup_snoc_fresh {A} (f : A -> string) (l : list A) (u : A) :
  NoDup (map f l) ->
  List.find (fun x => bool_decide (f x = f u)) l = None ->
  NoDup (map f (l ++ [u])).
Proof.
  intros Hnd Hnone. rewrite map_app. cbn [map].
  apply NoDup_app. split; [exact Hnd|]. split; [|apply NoDup_singleton].
  intros y Hy Hy'. apply list_elem_of_singleton in Hy'. subst y.
  apply list_elem_of_In, in_map_iff in Hy as (x & Hx & Hin).
  pose proof (find_none _ _ Hnone x Hin) as Hf. cbn in Hf.
  now apply bool_decide_eq_false_1 in Hf.
Qed.

Lemma users_wf_step (env : Env) (op : Op) (db : DB) :
  users_wf db -> users_wf (step env op db).
Proof.
  intros (Hid & Hem & Hne).
  destruct (step_users env op db) as (g & added & Hg & Hus & Hadd).
  assert (Hacc : map account (DB.users (step env op db))
                 = map account (DB.users db ++ added)).
  { rewrite Hus, map_map. apply map_ext. exact Hg. }
  assert (Hids : map User.id (DB.users (step env op db))
                 = map User.id (DB.users db ++ added)).
  { rewrite Hus, map_map. apply map_ext. intros x.
    pose proof (Hg x) as Hx. unfold account in Hx. congruence. }
  assert (Hems : map User.email (DB.users (step env op db))
                 = map User.email (DB.users db ++ added)).
  { rewrite Hus, map_map. apply map_ext. intros x.
    pose proof (Hg x) as Hx. unfold account in Hx. congruence. }
  unfold users_wf. rewrite Hids, Hems.
  assert (Hne' : Forall (fun u => User.id u <> "") (DB.users db ++ added) ->
                 Forall (fun u => User.id u <> "") (DB.users (step env op db))).
  { rewrite Hus. intros HF. apply Forall_map.
    eapply Forall_impl; [exact HF|]. intros x Hx. cbn.
    pose proof (Hg x) as Hgx. unfold account in Hgx. congruence. }
  destruct Hadd as [->|(u & -> & Hu & Hbyid & Hbyem)].
  - rewrite app_nil_r in *. auto.
  - split; [|split].
    + now apply NoDup_snoc_fresh.
    + now apply NoDup_snoc_fresh.
    + apply Hne'. apply Forall_app. split; [exact Hne|].
      now apply Forall_singleton.
Qed.

(** The constraints of the [users] table hold through any sequence of calls
    of the session engine: identifiers stay unique and non-empty, emails stay
    unique. *)
Theorem users_wf_preserved (calls : list (Env * Op)) (db : DB) :
  users_wf db -> users_wf (run calls db).
Proof.
  revert db. induction calls as [|[env op] calls IH]; intros db H; cbn [run];
    [exact H|].
  apply IH. now apply users_wf_step.
Qed.

(** No call of the session engine removes an account or changes the
    identifier, the email, the role or the active flag of an account: after
    any sequence of calls the accounts are those of the start, in their
    order, followed by the registered ones. *)
Theorem accounts_are_kept (calls : list (Env * Op)) (db : DB) :
  exists added,
    map account (DB.users (run calls db))
    = (map account (DB.users db) ++ added)%list.
Proof.
  revert db. induction calls as [|[env op] calls IH]; intros db; cbn [run].
  - exists []. now rewrite app_nil_r.
  - destruct (IH (step env op db)) as (added' & ->).
    destruct (step_users env op db) as (g & added & Hg & Hus & _).
    exists (map account added ++ added')%list.
    rewrite Hus, map_map, app_assoc, <- map_app. f_equal.
    apply map_ext. exact Hg.
Qed.

(** *** Permissions *)

(** Whatever the role, the permission map has the same eleven capability
    names, in the same order; for an administrator every one of them is
    granted. *)
Theorem permissions_shape (u : User.t) :
  map fst (_get_user_permissions u) = map fst all_false /\
  (User.role u = "admin" ->
   Forall (fun kv => kv.2 = true) (_get_user_permissions u)).
Proof.
  unfold _get_user_permissions. split.
  - repeat case_bool_decide; reflexivity.
  - intros ->. rewrite bool_decide_eq_true_2 by reflexivity.
    repeat constructor.
Qed.

(** Deleting and managing are for administrators only: for every other role
    the capabilities of [admin_only] are refused, while viewing students and
    communications is granted to teachers and students alike. *)
Theorem only_admin_deletes_and_manages (u : User.t) :
  User.role u <> "admin" ->
  Forall (fun k => dict_get k (_get_user_permissions u) = Some false) admin_only /\
  (User.role u = "teacher" \/ User.role u = "student" ->
   dict_get "can_view_students" (_get_user_permissions u) = Some true /\
   dict_get "can_view_communications" (_get_user_permissions u) = Some true).
Proof.
  intros Hna. unfold _get_user_permissions.
  rewrite (bool_decide_eq_false_2 _ Hna). split.
  - repeat case_bool_decide; repeat constructor.
  - intros [-> | ->].
    + rewrite bool_decide_eq_true_2 by reflexivity. split; reflexivity.
    + rewrite bool_decide_eq_false_2 by discriminate.
      rewrite bool_decide_eq_true_2 by reflexivity. split; reflexivity.
Qed.

(** *** The approval workflow *)

Lemma length_string_of_list_ascii (l : list ascii) :
  String.length (string_of_list_ascii l) = length l.
Proof. induction l as [|c l IH]; cbn; [reflexivity | now rewrite IH]. Qed.

Lemma secrets_choice_in_alphabet (draw : N) :
  Str.contains (secrets_choice temporary_alphabet draw) temporary_alphabet = true.
Proof.
  assert (Hall : forallb
            (fun i => Str.contains
                        (secrets_choice temporary_alphabet (N.of_nat i))
                        temporary_alphabet) (seq 0 70) = true)
    by (vm_compute; reflexivity).
  rewrite forallb_forall in Hall.
  assert (Hlt : (draw mod 70 < 70)%N) by (apply N.mod_lt; discriminate).
  specialize (Hall (N.to_nat (draw mod 70))).
  rewrite N2Nat.id in Hall.
  assert (Heq : secrets_choice temporary_alphabet (draw mod 70)
                = secrets_choice temporary_alphabet draw).
  { unfold secrets_choice.
    change (N.of_nat (String.length temporary_alphabet)) with 70%N.
    now rewrite N.Div0.mod_mod. }
  rewrite <- Heq. apply Hall. apply in_seq.
  set (m := (draw mod 70)%N) in *. clearbody m. lia.
Qed.

Lemma secrets_choice_ascii (draw : N) :
  (nat_of_ascii (secrets_choice temporary_alphabet draw) <? 128)%nat = true.
Proof.
  assert (Hall : forallb
            (fun i => (nat_of_ascii
                         (secrets_choice temporary_alphabet (N.of_nat i))
                       <? 128)%nat) (seq 0 70) = true)
    by (vm_compute; reflexivity).
  rewrite forallb_forall in Hall.
  assert (Hlt : (draw mod 70 < 70)%N) by (apply N.mod_lt; discriminate).
  specialize (Hall (N.to_nat (draw mod 70))).
  rewrite N2Nat.id in Hall.
  assert (Heq : secrets_choice temporary_alphabet (draw mod 70)
                = secrets_choice temporary_alphabet draw).
  { unfold secrets_choice.
    change (N.of_nat (String.length temporary_alphabet)) with 70%N.
    now rewrite N.Div0.mod_mod. }
  rewrite <- Heq. apply Hall. apply in_seq.
  set (m := (draw mod 70)%N) in *. clearbody m. lia.
Qed.

Lemma is_ascii_of_list (l : list ascii) :
  Str.is_ascii (string_of_list_ascii l)
  = forallb (fun c => (nat_of_ascii c <? 128)%nat) l.
Proof.
  unfold Str.is_ascii. now rewrite list_ascii_of_string_of_list_ascii.
Qed.

Lemma temporary_password_ascii (draws : nat -> N) (n : nat) :
  Str.is_ascii (_generate_temporary_password draws n) = true.
Proof.
  unfold _generate_temporary_password. rewrite is_ascii_of_list.
  apply forallb_forall. intros c (i & <- & _)%in_map_iff.
  apply secrets_choice_ascii.
Qed.

(** On ASCII strings characters are bytes. *)
Lemma len_ascii (s : string) :
  Str.is_ascii s = true -> Str.len s = Z.of_nat (String.length s).
Proof.
  unfold Str.len, Str.is_ascii. intros H. f_equal.
  induction s as [|c s IH]; [reflexivity|].
  cbn [list_ascii_of_string forallb] in H.
  apply andb_true_iff in H as [Hc Hs].
  cbn [Str.len_nat String.length]. rewrite (IH Hs).
  unfold Str.is_continuation.
  apply Nat.ltb_lt in Hc.
  destruct (Nat.leb_spec 128 (nat_of_ascii c)); [lia | reflexivity].
Qed.

Lemma length_temporary_password (draws : nat -> N) (n : nat) :
  String.length (_generate_temporary_password draws n) = n.
Proof.
  unfold _generate_temporary_password.
  now rewrite length_string_of_list_ascii, length_map, length_seq.
Qed.

(** A temporary password has the length asked for and is made of the
    characters of the alphabet of [_generate_temporary_password] only; with
    the default length of ten it passes the six-character rule of the
    password operations. *)
Theorem temporary_password_shape (draws : nat -> N) (n : nat) :
  String.length (_generate_temporary_password draws n) = n /\
  Forall (fun c => Str.contains c temporary_alphabet = true)
         (list_ascii_of_string (_generate_temporary_password draws n)) /\
  6 <= Str.len (_generate_temporary_password draws 10).
Proof.
  split; [|split].
  - apply length_temporary_password.
  - unfold _generate_temporary_password.
    rewrite list_ascii_of_string_of_list_ascii. apply Forall_map.
    apply Forall_forall. intros i _. apply secrets_choice_in_alphabet.
  - rewrite len_ascii by apply temporary_password_ascii.
    rewrite length_temporary_password. lia.
Qed.

Lemma find_map_none {A} (p : A -> bool) (g : A -> A) (l : list A) :
  (forall x, p (g x) = false) -> List.find p (map g l) = None.
Proof.
  intros Hp. induction l as [|x l IH]; [reflexivity|].
  cbn [map List.find]. now rewrite Hp.
Qed.

(** What a successful approval has read and written. *)
Lemma approve_Returned (env : Env) (draws : nat -> N)
  (request_id admin_id : string) (st st' : Store.t) (a : Approval) :
  approve_teacher_request env draws request_id admin_id st = (st', Returned a) ->
  exists request h,
    pending_request request_id st = Some request /\
    _hash_password env (_generate_temporary_password draws 10) = Ok h /\
    user_by_id (Uuid.str (uuid_user env)) (session_view st) = None /\
    user_by_email (TeacherRequestRow.email request) (session_view st) = None /\
    st' = update_request request_id
            (TeacherRequestRow.approve (utcnow env) admin_id
               (Uuid.str (uuid_user env)))
            (Store.mk (Store.users st ++ [approved_user env request h])
                      (Store.teacher_requests st) (Store.refresh_tokens st)) /\
    a = mkApproval (Uuid.str (uuid_user env))
                   (_generate_temporary_password draws 10)
                   (TeacherRequestRow.email request).
Proof.
  unfold approve_teacher_request. intros H.
  destruct (pending_request request_id st) as [request|]; [|discriminate].
  destruct (_hash_password env _) as [h|] eqn:Hh; [|discriminate].
  unfold insert_user in H.
  destruct (negb (User.storable _)); [discriminate|].
  change (User.id (User.mk (Uuid.str (uuid_user env)) _ _ _ _ _ _ _ _ _ _ _))
    with (Uuid.str (uuid_user env)) in H.
  change (User.email (User.mk _ (TeacherRequestRow.email request) _ _ _ _ _ _ _ _ _ _))
    with (TeacherRequestRow.email request) in H.
  destruct (user_by_id (Uuid.str (uuid_user env)) (session_view st)) eqn:Hid;
    [discriminate|].
  destruct (user_by_email (TeacherRequestRow.email request) (session_view st))
    eqn:Hem; [discriminate|].
  destruct (user_by_id admin_id _); [|discriminate].
  injection H as <- <-.
  exists request, h.
  repeat match goal with |- _ /\ _ => split end;
    first [assumption | reflexivity].
Qed.

Lemma pending_request_In (request_id : string) (st : Store.t)
  (r : TeacherRequestRow.t) :
  pending_request request_id st = Some r ->
  In r (Store.teacher_requests st) /\
  TeacherRequestRow.id r = request_id /\
  TeacherRequestRow.status r = "pending".
Proof.
  unfold pending_request. intros H. apply find_some in H as [Hin H].
  apply andb_true_iff in H as [H1 H2].
  apply bool_decide_eq_true_1 in H1, H2. auto.
Qed.

Lemma request_by_email_update (request_id email : string)
  (f : TeacherRequestRow.t -> TeacherRequestRow.t) (st : Store.t) :
  (forall r, TeacherRequestRow.email (f r) = TeacherRequestRow.email r) ->
  request_by_email email (update_request request_id f st)
  = (fun r => if bool_decide (TeacherRequestRow.id r = request_id)
              then f r else r) <$> request_by_email email st.
Proof.
  intros Hf. unfold request_by_email, update_request.
  cbn [Store.teacher_requests]. apply find_map_same. intros r.
  destruct (bool_decide (TeacherRequestRow.id r = request_id)); [|reflexivity].
  now rewrite Hf.
Qed.

(** A request that has been approved or rejected is no longer pending under
    its identifier. *)
Lemma pending_request_processed (request_id : string) (s : string)
  (f : TeacherRequestRow.t -> TeacherRequestRow.t) (st : Store.t) :
  s <> "pending" ->
  (forall r, TeacherRequestRow.status (f r) = s) ->
  pending_request request_id (update_request request_id f st) = None.
Proof.
  intros Hs Hf. unfold pending_request, update_request.
  cbn [Store.teacher_requests]. apply find_map_none. intros r.
  destruct (bool_decide (TeacherRequestRow.id r = request_id)) eqn:Hid.
  - rewrite Hf, (bool_decide_eq_false_2 _ Hs). apply andb_false_r.
  - now rewrite Hid.
Qed.

(** A successful approval adds one account, an active teacher with the
    email, name, phone and quota of the request; it marks the request
    approved and links it to that account, leaves the other requests and
    every refresh row as they were, and from then on the registration status
    of that email is "registered". *)
Theorem approve_effects (env : Env) (draws : nat -> N)
  (request_id admin_id : string) (st st' : Store.t) (a : Approval) :
  approve_teacher_request env draws request_id admin_id st = (st', Returned a) ->
  exists request (u : User.t),
    pending_request request_id st = Some request /\
    Store.users st' = (Store.users st ++ [u])%list /\
    account u = (ap_user_id a, ap_email a, "teacher", true) /\
    ap_email a = TeacherRequestRow.email request /\
    (User.full_name u, User.phone u, User.max_students u)
    = (TeacherRequestRow.full_name request, TeacherRequestRow.phone request,
       TeacherRequestRow.max_students request) /\
    Store.teacher_requests st'
    = map (fun r => if bool_decide (TeacherRequestRow.id r = request_id)
                    then TeacherRequestRow.approve (utcnow env) admin_id
                           (ap_user_id a) r
                    else r) (Store.teacher_requests st) /\
    Store.refresh_tokens st' = Store.refresh_tokens st /\
    check_registration_status (ap_email a) st'
    = Registered true "teacher" (ap_user_id a).
Proof.
  intros H.
  apply approve_Returned in H as (request & h & Hp & Hh & Hid & Hem & -> & ->).
  exists request, (approved_user env request h).
  cbn [Store.users Store.teacher_requests Store.refresh_tokens update_request
       ap_user_id ap_email].
  split; [exact Hp|]. repeat split.
  unfold check_registration_status, user_by_email, session_view.
  cbn [DB.users Store.users update_request].
  rewrite (find_app_last _ _ (approved_user env request h)); [reflexivity| |].
  - exact Hem.
  - now apply bool_decide_eq_true_2.
Qed.

(** The account an approval creates logs in with the temporary password:
    with the email and the password the approval returns,
    [login_with_email_password] succeeds for a teacher. *)
Theorem approve_then_login (env env2 : Env) (draws : nat -> N)
  (request_id admin_id : string) (st st' : Store.t) (a : Approval)
  (dev : option string) :
  approve_teacher_request env draws request_id admin_id st = (st', Returned a) ->
  Store.refresh_tokens st !! Uuid.str (uuid_refresh env2) = None ->
  exists db resp,
    login_with_email_password env2 (ap_email a) (ap_temp_password a)
      (session_view st') dev = (db, Ok resp) /\
    ud_id (user resp) = ap_user_id a /\
    ud_role (user resp) = "teacher".
Proof.
  intros H Hfresh.
  apply approve_Returned in H as (request & h & Hp & Hh & Hid & Hem & -> & ->).
  cbn [ap_email ap_temp_password ap_user_id].
  pose proof (hashed_verifies _ _ _ Hh) as Hv.
  do 2 eexists.
  erewrite login_succeeds with (u := approved_user env request h).
  - split; [reflexivity|]. split; reflexivity.
  - unfold user_by_email, session_view.
    cbn [DB.users Store.users update_request].
    apply find_app_last; [exact Hem | now apply bool_decide_eq_true_2].
  - reflexivity.
  - exact Hv.
  - exact Hfresh.
Qed.

(** A request is processed at most once: after a successful approval or
    rejection of a request, every further approval or rejection of the same
    identifier is refused with "Заявка не найдена или уже обработана" and
    leaves the store as it is. *)
Theorem request_processed_once (env env' : Env) (draws draws' : nat -> N)
  (now : Z) (request_id admin_id admin_id' reason reason' : string)
  (st st' : Store.t) :
  (exists a, approve_teacher_request env draws request_id admin_id st
             = (st', Returned a)) \/
  (exists m, reject_teacher_request now request_id admin_id reason st
             = (st', Returned m)) ->
  approve_teacher_request env' draws' request_id admin_id' st'
    = (st', Raised (ApproveFailed RequestNotPending)) /\
  reject_teacher_request (utcnow env') request_id admin_id' reason' st'
    = (st', Raised (RejectFailed RequestNotPending)).
Proof.
  intros H.
  assert (Hp : pending_request request_id st' = None).
  { destruct H as [[a H]|[m H]].
    - apply approve_Returned in H as (request & h & _ & _ & _ & _ & -> & _).
      apply pending_request_processed with (s := "approved");
        [discriminate | reflexivity].
    - unfold reject_teacher_request in H.
      destruct (pending_request request_id st); [|discriminate].
      destruct (user_by_id admin_id (session_view st)); [|discriminate].
      injection H as <- _.
      apply pending_request_processed with (s := "rejected");
        [discriminate | reflexivity]. }
  unfold approve_teacher_request, reject_teacher_request.
  now rewrite Hp.
Qed.

(** What a successful [register_teacher_request] has checked and written. *)
Lemma register_teacher_request_Returned (env : Env) (request_uuid : N)
  (user_data : TeacherRequestData) (st st' : Store.t) (request_id : string) :
  register_teacher_request env request_uuid user_data st
    = (st', Returned request_id) ->
  exists row,
    request_id = Uuid.str request_uuid /\
    TeacherRequestRow.core row
    = TeacherRequest.mk (Uuid.str request_uuid)
        (Str.strip (default "" (trd_full_name user_data)))
        (Str.lower (Str.strip (default "" (trd_email user_data)))) "pending" /\
    user_by_email (Str.lower (Str.strip (default "" (trd_email user_data))))
                  (session_view st) = None /\
    (forall r,
        request_by_email
          (Str.lower (Str.strip (default "" (trd_email user_data)))) st = Some r ->
        TeacherRequestRow.status r <> "pending" /\
        TeacherRequestRow.status r <> "approved" /\
        TeacherRequestRow.status r <> "rejected") /\
    st' = Store.mk (Store.users st) (Store.teacher_requests st ++ [row])
                   (Store.refresh_tokens st).
Proof.
  unfold register_teacher_request. intros H.
  set (email := Str.lower (Str.strip (default "" (trd_email user_data)))) in *.
  destruct (bool_decide (email = "") || negb (Str.contains "@" email));
    [discriminate|].
  destruct (_ || _); [discriminate|].
  destruct (user_by_email email (session_view st)) eqn:Hu; [discriminate|].
  unfold insert_request in H.
  destruct (request_by_email email st) as [r0|] eqn:Hr.
  - destruct (bool_decide (TeacherRequestRow.status r0 = "pending")) eqn:H1;
      [discriminate|].
    destruct (bool_decide (TeacherRequestRow.status r0 = "approved")) eqn:H2;
      [discriminate|].
    destruct (bool_decide (TeacherRequestRow.status r0 = "rejected")) eqn:H3;
      [discriminate|].
    destruct (negb (TeacherRequestRow.storable _)); [discriminate|].
    destruct (List.find _ (Store.teacher_requests st)); [discriminate|].
    match type of H with context [cons ?row nil] => exists row end.
    injection H as <- <-.
    split; [reflexivity|]. split; [reflexivity|]. split; [reflexivity|].
    split; [|reflexivity].
    intros r [= <-]. apply bool_decide_eq_false_1 in H1, H2, H3. auto.
  - destruct (negb (TeacherRequestRow.storable _)); [discriminate|].
    destruct (List.find _ (Store.teacher_requests st)); [discriminate|].
    match type of H with context [cons ?row nil] => exists row end.
    injection H as <- <-.
    split; [reflexivity|]. split; [reflexivity|]. split; [reflexivity|].
    split; [|reflexivity]. discriminate.
Qed.

Lemma register_teacher_request_Raised (env : Env) (request_uuid : N)
  (user_data : TeacherRequestData) (st st' : Store.t) (e : request_exn) :
  register_teacher_request env request_uuid user_data st = (st', Raised e) ->
  st' = st.
Proof.
  unfold register_teacher_request.
  match goal with
  | |- (match ?r with _ => _ end) = _ -> _ => destruct r as [[? ?]|?]
  end; congruence.
Qed.

Lemma request_by_email_In (st : Store.t) (r : TeacherRequestRow.t) :
  In r (Store.teacher_requests st) ->
  NoDup (map TeacherRequestRow.email (Store.teacher_requests st)) ->
  request_by_email (TeacherRequestRow.email r) st = Some r.
Proof.
  intros Hin Hnd. unfold request_by_email.
  now apply (find_unique TeacherRequestRow.email).
Qed.

Lemma requests_wf_update (request_id : string)
  (f : TeacherRequestRow.t -> TeacherRequestRow.t) (st : Store.t) :
  (forall r, TeacherRequestRow.email (f r) = TeacherRequestRow.email r) ->
  (forall r, TeacherRequestRow.status (f r) = "approved"
             \/ TeacherRequestRow.status (f r) = "rejected") ->
  requests_wf st -> requests_wf (update_request request_id f st).
Proof.
  intros Hem Hst [Hs Hnd]. unfold requests_wf, update_request.
  cbn [Store.teacher_requests]. split.
  - apply Forall_map. eapply Forall_impl; [exact Hs|]. intros r Hr. cbn.
    destruct (bool_decide (TeacherRequestRow.id r = request_id)); [|exact Hr].
    destruct (Hst r); auto.
  - rewrite map_map.
    erewrite map_ext; [exact Hnd|]. intros r. cbn.
    destruct (bool_decide (TeacherRequestRow.id r = request_id));
      [apply Hem | reflexivity].
Qed.

(** The workflow keeps its own constraints: through a request, an approval
    or a rejection, whether it succeeds or fails, every status is one of
    pending, approved and rejected, and no two requests have the same
    email. *)
Theorem requests_wf_preserved (env : Env) (request_uuid : N)
  (user_data : TeacherRequestData) (draws : nat -> N)
  (request_id admin_id reason : string) (st : Store.t) :
  requests_wf st ->
  requests_wf (register_teacher_request env request_uuid user_data st).1 /\
  requests_wf (approve_teacher_request env draws request_id admin_id st).1 /\
  requests_wf (reject_teacher_request (utcnow env) request_id admin_id reason st).1.
Proof.
  intros Hwf. split; [|split].
  - destruct (register_teacher_request env request_uuid user_data st)
      as [st' [rid|e]] eqn:H; cbn [fst].
    + apply register_teacher_request_Returned in H
        as (row & _ & Hcore & _ & Hblocked & ->).
      destruct Hwf as [Hs Hnd]. unfold requests_wf.
      cbn [Store.teacher_requests]. split.
      * apply Forall_app. split; [exact Hs|]. apply Forall_singleton.
        left. unfold TeacherRequestRow.status. now rewrite Hcore.
      * apply NoDup_snoc_fresh; [exact Hnd|].
        assert (Hem : TeacherRequestRow.email row
                      = Str.lower (Str.strip (default "" (trd_email user_data))))
          by (unfold TeacherRequestRow.email; now rewrite Hcore).
        rewrite Hem.
        destruct (List.find _ (Store.teacher_requests st)) as [r|] eqn:Hr;
          [|reflexivity].
        exfalso. destruct (Hblocked r Hr) as (H1 & H2 & H3).
        apply find_some in Hr as [Hin _].
        rewrite Forall_forall in Hs.
        destruct (Hs r (proj2 (list_elem_of_In _ _) Hin)) as [?|[?|?]];
          contradiction.
    + apply register_teacher_request_Raised in H. now subst.
  - destruct (approve_teacher_request env draws request_id admin_id st)
      as [st' [a|e]] eqn:H; cbn [fst].
    + apply approve_Returned in H as (request & h & _ & _ & _ & _ & -> & _).
      apply requests_wf_update; [reflexivity | now left |].
      exact Hwf.
    + unfold approve_teacher_request in H.
      repeat break_inner_in H; try discriminate; injection H as <- _;
        exact Hwf.
  - unfold reject_teacher_request.
    repeat break_inner; cbn [fst]; try exact Hwf.
    apply requests_wf_update; [reflexivity | now right | exact Hwf].
Qed.

(** A request with an ASCII email, whose values hold no NUL character, adds
    one pending row for the normalised (stripped, lower-cased) email and
    touches neither the accounts nor the refresh rows; from then on the
    registration status of that email is "requested, pending", and a login
    with it still answers that no such account exists. *)
Theorem register_teacher_request_effects (env env2 : Env) (request_uuid : N)
  (user_data : TeacherRequestData) (st st' : Store.t) (request_id : string)
  (password : string) (dev : option string) :
  requests_wf st ->
  Str.is_ascii (default "" (trd_email user_data)) = true ->
  forallb Str.no_nul
    [ default "" (trd_email user_data);
      default "" (trd_full_name user_data);
      default "" (trd_phone user_data);
      default "" (trd_message user_data) ] = true ->
  register_teacher_request env request_uuid user_data st
    = (st', Returned request_id) ->
  exists row,
    Store.teacher_requests st' = (Store.teacher_requests st ++ [row])%list /\
    TeacherRequestRow.id row = request_id /\
    TeacherRequestRow.status row = "pending" /\
    TeacherRequestRow.email row
    = Str.lower (Str.strip (default "" (trd_email user_data))) /\
    Store.users st' = Store.users st /\
    Store.refresh_tokens st' = Store.refresh_tokens st /\
    check_registration_status (TeacherRequestRow.email row) st'
    = Requested "pending" request_id /\
    login_with_email_password env2 (TeacherRequestRow.email row) password
      (session_view st') dev
    = (session_view st', Raise EmailNotFound).
Proof.
  intros [Hs Hnd] _ _ H.
  apply register_teacher_request_Returned in H
    as (row & -> & Hcore & Hu & Hblocked & ->).
  set (email := Str.lower (Str.strip (default "" (trd_email user_data)))) in *.
  assert (Hem : TeacherRequestRow.email row = email)
    by (unfold TeacherRequestRow.email; now rewrite Hcore).
  assert (Hnone : request_by_email email st = None).
  { destruct (request_by_email email st) as [r|] eqn:Hr; [|reflexivity].
    exfalso. destruct (Hblocked r eq_refl) as (H1 & H2 & H3).
    apply find_some in Hr as [Hin _]. rewrite Forall_forall in Hs.
    destruct (Hs r (proj2 (list_elem_of_In _ _) Hin)) as [?|[?|?]];
      contradiction. }
  exists row. cbn [Store.teacher_requests Store.users Store.refresh_tokens].
  split; [reflexivity|].
  split; [unfold TeacherRequestRow.id; now rewrite Hcore|].
  split; [unfold TeacherRequestRow.status; now rewrite Hcore|].
  split; [exact Hem|]. split; [reflexivity|]. split; [reflexivity|].
  rewrite Hem. split.
  - unfold check_registration_status.
    change (user_by_email email (session_view (Store.mk (Store.users st)
              (Store.teacher_requests st ++ [row]) (Store.refresh_tokens st))))
      with (user_by_email email (session_view st)).
    rewrite Hu. unfold request_by_email. cbn [Store.teacher_requests].
    rewrite (find_app_last _ _ row).
    + unfold TeacherRequestRow.status, TeacherRequestRow.id.
      now rewrite Hcore.
    + exact Hnone.
    + now apply bool_decide_eq_true_2.
  - unfold login_with_email_password.
    change (user_by_email email (session_view (Store.mk (Store.users st)
              (Store.teacher_requests st ++ [row]) (Store.refresh_tokens st))))
      with (user_by_email email (session_view st)).
    now rewrite Hu.
Qed.

(** Once rejected, always refused: after the rejection of a request, a new
    request that passes the validation, with an ASCII email without NUL
    character that normalises to the email of the rejected request, is
    refused with "Заявка была отклонена. Обратитесь к администратору." and
    changes nothing. *)
Theorem rejected_cannot_reapply (env : Env) (now : Z) (request_uuid : N)
  (user_data : TeacherRequestData) (request_id admin_id reason email : string)
  (st st' : Store.t) :
  requests_wf st ->
  reject_teacher_request now request_id admin_id reason st
    = (st', Returned email) ->
  Str.is_ascii (default "" (trd_email user_data)) = true ->
  Str.no_nul (default "" (trd_email user_data)) = true ->
  Str.lower (Str.strip (default "" (trd_email user_data))) = email ->
  email <> "" ->
  Str.contains "@" email = true ->
  2 <= Str.len (Str.strip (default "" (trd_full_name user_data))) ->
  user_by_email email (session_view st') = None ->
  register_teacher_request env request_uuid user_data st'
  = (st', Raised RequestRejected).
Proof.
  intros [Hs Hnd] H _ _ Hdata Hne Hat Hname Hu.
  unfold reject_teacher_request in H.
  destruct (pending_request request_id st) as [request|] eqn:Hp; [|discriminate].
  destruct (user_by_id admin_id (session_view st)); [|discriminate].
  injection H as <- <-.
  apply pending_request_In in Hp as (Hin & Hid & _).
  assert (Hr : request_by_email (TeacherRequestRow.email request)
                 (update_request request_id
                    (TeacherRequestRow.reject now admin_id reason) st)
               = Some (TeacherRequestRow.reject now admin_id reason request)).
  { rewrite request_by_email_update by reflexivity.
    rewrite (request_by_email_In _ _ Hin Hnd). cbn.
    now rewrite (bool_decide_eq_true_2 _ Hid). }
  unfold register_teacher_request. rewrite Hdata.
  rewrite (bool_decide_eq_false_2 _ Hne), Hat.
  rewrite (bool_decide_eq_false_2 _
             (len_nonempty _ 2 ltac:(lia) Hname)).
  destruct (Z.ltb_spec
              (Str.len (Str.strip (default "" (trd_full_name user_data)))) 2);
    [lia|].
  cbn [orb negb]. rewrite Hu, Hr.
  change (TeacherRequestRow.status
            (TeacherRequestRow.reject now admin_id reason request))
    with "rejected".
  rewrite (bool_decide_eq_false_2 ("rejected" = "pending")) by discriminate.
  rewrite (bool_decide_eq_false_2 ("rejected" = "approved")) by discriminate.
  rewrite (bool_decide_eq_true_2 ("rejected" = "rejected")) by reflexivity.
  reflexivity.
Qed.

(** *** The gates and the administrator script *)

Lemma get_current_user_Raise (now : Z) (tok : Jwt.token) (db : DB) (e : exn) :
  get_current_user now tok db = Raise e -> is_ValueError e = true.
Proof.
  unfold get_current_user, except_Exception.
  match goal with |- match ?r with _ => _ end = _ -> _ => destruct r end;
    [discriminate | now intros [= <-]].
Qed.

(** The two approval endpoints let the approval run only for a token that
    authenticates an active account whose stored role is admin, and then
    answer alike; otherwise the store is untouched, and they differ in the
    status: for an authenticated account that is no administrator, 403 from
    the admin router but 500 from the auth router; for a token that does not
    authenticate, 401 and 400. *)
Theorem approve_endpoints_gate (env : Env) (draws : nat -> N)
  (request_id : string) (token : Jwt.token) (st : Store.t) :
  (forall u, get_current_user (utcnow env) token (session_view st) = Ok u ->
     if bool_decide (ud_role u = "admin") then
       admin_approve_teacher env draws request_id token st
       = auth_approve_teacher env draws request_id token st /\
       exists x, user_by_id (ud_id u) (session_view st) = Some x /\
                 User.is_active x = true /\ User.role x = "admin"
     else
       admin_approve_teacher env draws request_id token st = (st, HttpError 403) /\
       auth_approve_teacher env draws request_id token st = (st, HttpError 500)) /\
  (forall e, get_current_user (utcnow env) token (session_view st) = Raise e ->
     admin_approve_teacher env draws request_id token st = (st, HttpError 401) /\
     auth_approve_teacher env draws request_id token st = (st, HttpError 400)).
Proof.
  unfold admin_approve_teacher, auth_approve_teacher, get_admin_user. split.
  - intros u Hu. rewrite Hu.
    destruct (bool_decide (ud_role u = "admin")) eqn:Hrole; cbn [negb].
    + split; [reflexivity|].
      apply bool_decide_eq_true_1 in Hrole.
      apply get_current_user_Ok in Hu
        as (p & x & _ & _ & _ & _ & _ & Hx & Hact & ->).
      exists x. auto.
    + split; reflexivity.
  - intros e He. rewrite He.
    now rewrite (get_current_user_Raise _ _ _ _ He).
Qed.

(** The role gates of the dependencies rest on the row of the store at the
    time of the call: a token passes [get_teacher_user] only for an active
    account whose stored role is admin or teacher, and it then passes
    [get_admin_user] exactly when that stored role is admin. *)
Theorem dependency_gates (now : Z) (token : Jwt.token) (db : DB) (u : UserDict) :
  dep_get_teacher_user now token db = Http200 u ->
  exists x,
    user_by_id (ud_id u) db = Some x /\
    User.is_active x = true /\
    u = _user_to_dict x /\
    (User.role x = "admin" \/ User.role x = "teacher") /\
    dep_get_current_user now token db = Http200 u /\
    dep_get_admin_user now token db
    = if bool_decide (User.role x = "admin") then Http200 u else HttpError 403.
Proof.
  unfold dep_get_teacher_user, dep_get_admin_user, dep_get_current_user.
  destruct (get_current_user now token db) as [v|e] eqn:Hv; [|discriminate].
  destruct (bool_decide (ud_role v = "admin")) eqn:Ha;
    destruct (bool_decide (ud_role v = "teacher")) eqn:Ht; cbn;
    intros [= <-]; rewrite ?Ha;
    apply get_current_user_Ok in Hv
      as (p & x & _ & _ & _ & _ & _ & Hx & Hact & ->);
    exists x; cbn in Ha, Ht |- *; rewrite Ha;
    try apply bool_decide_eq_true_1 in Ha;
    try apply bool_decide_eq_true_1 in Ht;
    repeat split; auto.
Qed.

Lemma find_none_role (db : DB) :
  List.find (fun u => bool_decide (User.role u = "admin")) (DB.users db) = None ->
  forall u, In u (DB.users db) -> User.role u <> "admin".
Proof.
  intros H u Hin. apply (find_none _ _ H) in Hin.
  now apply bool_decide_eq_false_1 in Hin.
Qed.

(** [create_admin_user] on a store without administrator, with an email and
    an identifier that are free, a password of at most 72 bytes, and an
    email and a name that fit their columns and hold no NUL character,
    creates an account that logs in at once with the email and the password
    given (neither is validated), with the role admin and every permission
    granted; and a second run of the script then changes nothing. *)
Theorem create_admin_then_login (env env' env2 : Env)
  (email password full_name email' password' full_name' : string)
  (db : DB) (dev : option string) :
  List.find (fun u => bool_decide (User.role u = "admin")) (DB.users db) = None ->
  user_by_email email db = None ->
  user_by_id (Uuid.str (uuid_user env)) db = None ->
  DB.refresh_tokens db !! Uuid.str (uuid_refresh env2) = None ->
  (String.length password <= 72)%nat ->
  Column.varchar 100 email = true ->
  Column.varchar 200 full_name = true ->
  forallb Str.no_nul [email; full_name] = true ->
  (exists db' resp,
     login_with_email_password env2 email password
       (create_admin_user env email password full_name db) dev = (db', Ok resp) /\
     ud_role (user resp) = "admin" /\
     Forall (fun kv => kv.2 = true) (ud_permissions (user resp))) /\
  create_admin_user env' email' password' full_name'
    (create_admin_user env email password full_name db)
  = create_admin_user env email password full_name db.
Proof.
  intros Hnone Hem Hid Hfresh Hbytes Hfit1 Hfit2 _.
  set (h := Bcrypt.gensalt (salt_password env)
            +:+ Bcrypt.digest bcrypt_hashpass
                  (Bcrypt.gensalt (salt_password env)) password).
  assert (Hh : _hash_password env password = Ok h)
    by (unfold _hash_password; now apply hashpw_gensalt).
  pose proof (hashed_verifies _ _ _ Hh) as Hv.
  set (admin := User.mk (Uuid.str (uuid_user env)) email full_name "" "admin"
                  1000 0 h true (utcnow env) (utcnow env) None).
  assert (Hst : User.storable admin = true).
  { subst admin h. apply storable_new_user.
    unfold user_columns_ok. now rewrite Hfit1, Hfit2. }
  assert (Hc : create_admin_user env email password full_name db
               = with_users (DB.users db ++ [admin]) db).
  { unfold create_admin_user, insert_user. rewrite Hnone, Hh.
    fold admin. rewrite Hst. cbn [negb].
    change (User.id admin) with (Uuid.str (uuid_user env)).
    change (User.email admin) with email.
    now rewrite Hid, Hem. }
  rewrite Hc. split.
  - do 2 eexists. erewrite login_succeeds with (u := admin).
    + split; [reflexivity|]. split; [reflexivity|].
      cbn. repeat constructor.
    + unfold user_by_email. cbn [DB.users with_users].
      apply find_app_last; [exact Hem | now apply bool_decide_eq_true_2].
    + reflexivity.
    + exact Hv.
    + exact Hfresh.
  - unfold create_admin_user at 1. cbn [DB.users with_users].
    rewrite (find_app_last _ _ admin); [reflexivity | exact Hnone | reflexivity].
Qed.

End Service.

(** ** The properties on the concrete instance *)

(** Alice logs in at time 1000 with the right secret: the two tokens are
    [Demo.access0] and [Demo.refresh0], one refresh row is added, and her
    permissions are those of an instructor. *)
Example login_instructor :
  exists db resp,
    login_with_email_password Demo.hashpass Demo.hmac Demo.service Demo.env1
      "a@u.edu" "correct" Demo.db0 None = (db, Ok resp) /\
    access_token resp = Demo.access0 /\
    refresh_token resp = Demo.refresh0 /\
    dom (DB.refresh_tokens db) = dom (DB.refresh_tokens Demo.db1) /\
    dict_get "can_view_students" (ud_permissions (user resp)) = Some true /\
    dict_get "can_manage_system" (ud_permissions (user resp)) = Some false.
Proof.
  do 2 eexists. split; [vm_compute; reflexivity|].
  repeat split; vm_compute; reflexivity.
Qed.

(** With a wrong secret the login is refused with "Неверный пароль". *)
Example login_wrong_secret :
  login_with_email_password Demo.hashpass Demo.hmac Demo.service Demo.env1
    "a@u.edu" "wrong" Demo.db0 None = (Demo.db0, Raise WrongPassword).
Proof. vm_compute. reflexivity. Qed.

(** C8, as stated, fails: on a secret of 73 bytes [_hash_password] raises. *)
Lemma hash_long_secret_raises :
  String.length Demo.long_secret = 73%nat /\
  _hash_password Demo.hashpass Demo.env1 Demo.long_secret
  = Raise PasswordTooLong.
Proof. split; vm_compute; reflexivity. Qed.

Lemma hash_then_verify_witness :
  (String.length "correct" <= 72)%nat /\
  Bcrypt.gensalt (salt_password Demo.env1) <> Bcrypt.gensalt (salt_password Demo.env2) /\
  exists h1 h2,
    _hash_password Demo.hashpass Demo.env1 "correct" = Ok h1 /\
    _hash_password Demo.hashpass Demo.env2 "correct" = Ok h2 /\
    _verify_password Demo.hashpass "correct" h1 = Ok true /\
    _verify_password Demo.hashpass "correct" h2 = Ok true /\
    h1 <> h2.
Proof.
  assert (H0 : (String.length "correct" <= 72)%nat) by (cbn; lia).
  assert (H : Bcrypt.gensalt (salt_password Demo.env1)
              <> Bcrypt.gensalt (salt_password Demo.env2))
    by (vm_compute; discriminate).
  split; [exact H0|]. split; [exact H|].
  exact (proj1 (hash_then_verify Demo.hashpass Demo.env1 Demo.env2 "correct")
           H0 H).
Defined.

(** C6, as stated, fails: on a string that is no bcrypt hash
    [_verify_password] raises. *)
Lemma verify_password_raises :
  _verify_password Demo.hashpass "correct" "not-a-bcrypt-hash" = Raise InvalidSalt.
Proof. vm_compute. reflexivity. Qed.

Lemma verify_password_malformed_witness :
  Bcrypt.readable "not-a-bcrypt-hash" = false /\
  exists e,
    _verify_password Demo.hashpass "correct" "not-a-bcrypt-hash" = Raise e /\
    is_ValueError e = true /\
    ((String.length "correct" <= 72)%nat -> e = InvalidSalt).
Proof.
  assert (H : Bcrypt.readable "not-a-bcrypt-hash" = false)
    by (vm_compute; reflexivity).
  split; [exact H|].
  exact (verify_password_malformed Demo.hashpass "correct" "not-a-bcrypt-hash" H).
Defined.

(** C5, as stated, fails: for the role "guest" [_get_user_permissions]
    returns the all-false map. *)
Lemma permissions_guest_all_false :
  _get_user_permissions Demo.guest = all_false.
Proof. vm_compute. reflexivity. Qed.

Lemma permissions_unknown_role_witness :
  User.role Demo.guest <> "admin" /\
  User.role Demo.guest <> "teacher" /\
  User.role Demo.guest <> "student" /\
  _get_user_permissions Demo.guest = all_false.
Proof.
  assert (Ha : User.role Demo.guest <> "admin") by (vm_compute; discriminate).
  assert (Ht : User.role Demo.guest <> "teacher") by (vm_compute; discriminate).
  assert (Hs : User.role Demo.guest <> "student") by (vm_compute; discriminate).
  split; [exact Ha|]. split; [exact Ht|]. split; [exact Hs|].
  exact (permissions_unknown_role Demo.guest Ha Ht Hs).
Defined.


Lemma authenticate_requires_active_witness :
  is_Ok (get_current_user Demo.hmac Demo.service 1500 Demo.access0 Demo.db1) = true /\
  get_current_user Demo.hmac Demo.service 1500 Demo.access0 Demo.db1_deactivated
  = Raise (GetUserFailed UserInactive).
Proof.
  split; [vm_compute; reflexivity|].
  eapply (proj2 (authenticate_requires_active Demo.hmac Demo.service 1500
                   Demo.access0 Demo.db1_deactivated))
    with (user_id := "u1") (user := User.set_is_active false Demo.alice).
  - vm_compute. reflexivity.
  - reflexivity.
  - reflexivity.
  - discriminate.
  - intros j Hj. injection Hj as <-. vm_compute. reflexivity.
  - vm_compute. reflexivity.
  - reflexivity.
Defined.

Lemma refresh_not_idempotent_witness :
  exists db2 resp,
    refresh_tokens Demo.hashpass Demo.hmac Demo.service Demo.env2 Demo.refresh0
      Demo.db1 None = (db2, Ok resp) /\
    is_Ok (decode_token Demo.hmac Demo.service (utcnow Demo.env3) Demo.refresh0)
    = true /\
    utcnow Demo.env2 <= utcnow Demo.env3
      < utcnow Demo.env2 + refresh_token_expire_days Demo.service * 86400 /\
    DB.refresh_tokens db2 !! Uuid.str (uuid_refresh Demo.env3) = None /\
    refresh_tokens Demo.hashpass Demo.hmac Demo.service Demo.env3 Demo.refresh0
      db2 None = (db2, Raise (RefreshFailed RefreshTokenNotFound)) /\
    exists db3 resp',
      refresh_tokens Demo.hashpass Demo.hmac Demo.service Demo.env3
        (refresh_token resp) db2 None = (db3, Ok resp').
Proof.
  do 2 eexists.
  match goal with
  | |- ?A /\ ?B /\ ?C /\ ?D /\ _ =>
      assert (H1 : A) by (vm_compute; reflexivity);
      assert (H2 : B) by (vm_compute; reflexivity);
      assert (H3 : C) by (cbn; lia);
      assert (H4 : D) by (vm_compute; reflexivity)
  end.
  split; [exact H1|]. split; [exact H2|]. split; [exact H3|]. split; [exact H4|].
  exact (proj2 (refresh_not_idempotent Demo.hashpass Demo.hmac Demo.service
                  Demo.env2 Demo.env3 Demo.env3 Demo.refresh0 Demo.db1 _
                  None None None _ H1 H2 H3 H4)).
Defined.

(** C2, as stated, fails: two calls with the same refresh token that both
    read before either writes both succeed. *)
Lemma overlapped_refresh_both_succeed :
  is_Ok (refresh_tokens_overlapped Demo.hashpass Demo.hmac Demo.service
           Demo.env2 Demo.env3 Demo.refresh0 Demo.refresh0 Demo.db1
           None None).1.2 = true /\
  is_Ok (refresh_tokens_overlapped Demo.hashpass Demo.hmac Demo.service
           Demo.env2 Demo.env3 Demo.refresh0 Demo.refresh0 Demo.db1
           None None).2 = true.
Proof. split; vm_compute; reflexivity. Qed.

Lemma refresh_check_at_read_time_witness :
  exists db2 respA readB,
    refresh_tokens Demo.hashpass Demo.hmac Demo.service Demo.env2 Demo.refresh0
      Demo.db1 None = (db2, Ok respA) /\
    refresh_tokens_read Demo.hmac Demo.service (utcnow Demo.env3) Demo.refresh0
      Demo.db1 = Ok readB /\
    DB.refresh_tokens db2 !! Uuid.str (uuid_refresh Demo.env3) = None /\
    refresh_tokens Demo.hashpass Demo.hmac Demo.service Demo.env3 Demo.refresh0
      db2 None = (db2, Raise (RefreshFailed RefreshTokenNotFound)) /\
    exists db3 respB rowA rowB,
      refresh_tokens_overlapped Demo.hashpass Demo.hmac Demo.service
        Demo.env2 Demo.env3 Demo.refresh0 Demo.refresh0 Demo.db1 None None
      = (db3, Ok respA, Ok respB) /\
      DB.refresh_tokens db3 !! Uuid.str (uuid_refresh Demo.env2) = Some rowA /\
      RefreshToken.is_revoked rowA = false /\
      DB.refresh_tokens db3 !! Uuid.str (uuid_refresh Demo.env3) = Some rowB /\
      RefreshToken.is_revoked rowB = false.
Proof.
  do 3 eexists.
  match goal with
  | |- ?A /\ ?B /\ ?C /\ _ =>
      assert (H1 : A) by (vm_compute; reflexivity);
      assert (H2 : B) by (vm_compute; reflexivity);
      assert (H3 : C) by (vm_compute; reflexivity)
  end.
  split; [exact H1|]. split; [exact H2|]. split; [exact H3|].
  exact (refresh_check_at_read_time Demo.hashpass Demo.hmac Demo.service
           Demo.env2 Demo.env3 Demo.refresh0 Demo.db1 _ None None _ _ H1 H2 H3).
Defined.

Lemma revocation_is_permanent_witness :
  DB.refresh_tokens Demo.db1_revoked !! Uuid.str 3
  = Some (RefreshToken.revoke 1500 Demo.row0) /\
  RefreshToken.is_revoked (RefreshToken.revoke 1500 Demo.row0) = true /\
  exists r',
    DB.refresh_tokens
      (run Demo.hashpass Demo.hmac Demo.service
         [ (Demo.env2, OpLogin "a@u.edu" "correct" None);
           (Demo.env3, OpRefresh Demo.refresh0 None);
           (Demo.env3, OpLogoutAll "u1") ]
         Demo.db1_revoked) !! Uuid.str 3 = Some r' /\
    RefreshToken.is_revoked r' = true.
Proof.
  assert (H1 : DB.refresh_tokens Demo.db1_revoked !! Uuid.str 3
               = Some (RefreshToken.revoke 1500 Demo.row0))
    by (vm_compute; reflexivity).
  assert (H2 : RefreshToken.is_revoked (RefreshToken.revoke 1500 Demo.row0) = true)
    by reflexivity.
  split; [exact H1|]. split; [exact H2|].
  exact (revocation_is_permanent Demo.hashpass Demo.hmac Demo.service _
           Demo.db1_revoked (Uuid.str 3) _ H1 H2).
Defined.

Lemma logout_blocks_refresh_only_witness :
  exists db' msg payload,
    logout Demo.hmac Demo.service 1500 Demo.access0 Demo.db1 = (db', Ok msg) /\
    decode_token Demo.hmac Demo.service 2000 Demo.access0 = Ok payload /\
    (forall j, Claims.jti payload = Some j ->
               DB.refresh_tokens Demo.db1 !! j = None) /\
    Claims.sub payload = Some "u1" /\
    DB.refresh_tokens db' !! Uuid.str 3
    = Some (RefreshToken.revoke 1500 Demo.row0) /\
    is_Ok (refresh_tokens_read Demo.hmac Demo.service 2000 Demo.refresh0 db')
    = false /\
    is_Ok (get_current_user Demo.hmac Demo.service 2000 Demo.access0 db') = true.
Proof.
  do 3 eexists.
  match goal with
  | |- ?A /\ ?B /\ ?C /\ _ =>
      assert (H1 : A) by (vm_compute; reflexivity);
      assert (H2 : B) by (vm_compute; reflexivity);
      assert (H3 : C)
        by (intros j Hj; injection Hj as <-; vm_compute; reflexivity)
  end.
  split; [exact H1|]. split; [exact H2|]. split; [exact H3|].
  destruct (logout_blocks_refresh_only Demo.hmac Demo.service 1500 2000
              Demo.access0 Demo.db1 _ _ _ H1 H2 H3)
    as (subject & u & Hsub & _ & _ & Hrevoked & _ & _ & _ & _ & Hblocked & Hget).
  assert (Hs : subject = "u1") by (cbn in Hsub; congruence). subst subject.
  split; [reflexivity|]. split; [|split].
  - apply Hrevoked; vm_compute; reflexivity.
  - eapply Hblocked; vm_compute; reflexivity.
  - now rewrite Hget.
Defined.



(** ** Further properties on the concrete instances *)

Lemma demo_db0_wf : users_wf Demo.db0.
Proof.
  unfold users_wf. cbn. split; [|split].
  - apply NoDup_singleton.
  - apply NoDup_singleton.
  - apply Forall_singleton. discriminate.
Qed.

Lemma demo_db1_wf : users_wf Demo.db1.
Proof. exact demo_db0_wf. Qed.

Lemma forged_token_refused_witness :
  "forged" <> Demo.hmac (secret_key Demo.service) (token_data_of Demo.alice) /\
  refresh_tokens Demo.hashpass Demo.hmac Demo.service Demo.env2
    (Jwt.Jws (token_data_of Demo.alice) "forged") Demo.db1 None
  = (Demo.db1, Raise (RefreshFailed (InvalidToken InvalidSignatureError))).
Proof.
  assert (H : "forged" <> Demo.hmac (secret_key Demo.service)
                                     (token_data_of Demo.alice))
    by (vm_compute; discriminate).
  split; [exact H|].
  exact (proj1 (proj2 (proj2
           (forged_token_refused Demo.hashpass Demo.hmac Demo.service
              (token_data_of Demo.alice) "forged" Demo.env2 Demo.db1 None
              "hunter22" H)))).
Defined.

Lemma token_expiry_is_final_witness :
  1000 <= 1500 <= 2000 /\
  (exists p, decode_token Demo.hmac Demo.service 1000 Demo.access0 = Ok p) /\
  is_Ok (decode_token Demo.hmac Demo.service 2000 Demo.access0) = true /\
  is_Ok (decode_token Demo.hmac Demo.service 1500 Demo.access0) = true.
Proof.
  assert (H : 1000 <= 1500 <= 2000) by lia.
  assert (H1 : exists p,
             decode_token Demo.hmac Demo.service 1000 Demo.access0 = Ok p)
    by (eexists; vm_compute; reflexivity).
  assert (H3 : is_Ok (decode_token Demo.hmac Demo.service 2000 Demo.access0)
               = true) by (vm_compute; reflexivity).
  split; [exact H|]. split; [exact H1|]. split; [exact H3|].
  destruct H1 as (p & Hp).
  now rewrite (proj1 (token_expiry_is_final Demo.hmac Demo.service
                        1000 1500 2000 Demo.access0 H) p Hp H3).
Defined.

Lemma token_types_not_interchangeable_witness :
  is_Ok (refresh_tokens_read Demo.hmac Demo.service 1500 Demo.access0 Demo.db1)
  = false.
Proof.
  exact (proj1 (proj1
           (token_types_not_interchangeable Demo.hashpass Demo.hmac Demo.service
              Demo.env1 Demo.env2 (token_data_of Demo.alice) None "u1"
              "a@u.edu" "hunter22" 1500 Demo.db1 Demo.db1))).
Defined.

Lemma login_effects_witness :
  exists db' resp,
    login_with_email_password Demo.hashpass Demo.hmac Demo.service Demo.env1
      "a@u.edu" "correct" Demo.db0 None = (db', Ok resp) /\
    DB.teacher_requests db' = DB.teacher_requests Demo.db0.
Proof.
  do 2 eexists.
  match goal with
  | |- ?A /\ _ => assert (H : A) by (vm_compute; reflexivity)
  end.
  split; [exact H|].
  destruct (login_effects _ _ _ _ _ _ _ _ _ _ H)
    as (u & _ & _ & _ & _ & _ & _ & _ & Hreq & _).
  exact Hreq.
Defined.

Lemma login_then_authenticate_witness :
  exists db' resp,
    users_wf Demo.db0 /\
    login_with_email_password Demo.hashpass Demo.hmac Demo.service Demo.env1
      "a@u.edu" "correct" Demo.db0 None = (db', Ok resp) /\
    utcnow Demo.env1 <= 1500
      < utcnow Demo.env1 + access_token_expire_minutes Demo.service * 60 /\
    _is_token_revoked (Uuid.str (uuid_access Demo.env1)) Demo.db0 = false /\
    is_Ok (get_current_user Demo.hmac Demo.service 1500 (access_token resp) db')
    = true.
Proof.
  do 2 eexists.
  match goal with
  | |- _ /\ ?A /\ ?B /\ ?C /\ _ =>
      assert (H1 : A) by (vm_compute; reflexivity);
      assert (H2 : B) by (cbn; lia);
      assert (H3 : C) by (vm_compute; reflexivity)
  end.
  split; [exact demo_db0_wf|]. split; [exact H1|]. split; [exact H2|].
  split; [exact H3|].
  destruct (login_then_authenticate _ _ _ _ _ _ _ _ _ _ _ demo_db0_wf H1 H2 H3)
    as (u & _ & Hget).
  now rewrite Hget.
Defined.

Lemma login_then_refresh_witness :
  exists db' resp,
    users_wf Demo.db0 /\
    login_with_email_password Demo.hashpass Demo.hmac Demo.service Demo.env1
      "a@u.edu" "correct" Demo.db0 None = (db', Ok resp) /\
    utcnow Demo.env1 <= utcnow Demo.env2
      < utcnow Demo.env1 + refresh_token_expire_days Demo.service * 86400 /\
    DB.refresh_tokens db' !! Uuid.str (uuid_refresh Demo.env2) = None /\
    is_Ok (refresh_tokens Demo.hashpass Demo.hmac Demo.service Demo.env2
             (refresh_token resp) db' None).2 = true.
Proof.
  do 2 eexists.
  match goal with
  | |- _ /\ ?A /\ ?B /\ ?C /\ _ =>
      assert (H1 : A) by (vm_compute; reflexivity);
      assert (H2 : B) by (cbn; lia);
      assert (H3 : C) by (vm_compute; reflexivity)
  end.
  split; [exact demo_db0_wf|]. split; [exact H1|]. split; [exact H2|].
  split; [exact H3|].
  destruct (login_then_refresh _ _ _ _ Demo.env2 _ _ _ _ _ None _
              demo_db0_wf H1 H2 H3) as (db'' & resp' & Hr & _).
  now rewrite Hr.
Defined.

Lemma failed_login_writes_witness :
  login_with_email_password Demo.hashpass Demo.hmac Demo.service Demo.env1
    "a@u.edu" "wrong" Demo.db0 None = (Demo.db0, Raise WrongPassword) /\
  DB.refresh_tokens Demo.db0 = DB.refresh_tokens Demo.db0.
Proof.
  assert (H : login_with_email_password Demo.hashpass Demo.hmac Demo.service
                Demo.env1 "a@u.edu" "wrong" Demo.db0 None
              = (Demo.db0, Raise WrongPassword)) by (vm_compute; reflexivity).
  split; [exact H|].
  exact (proj1 (failed_login_writes _ _ _ _ _ _ _ _ _ _ H)).
Defined.

Lemma failed_calls_do_not_write_witness :
  refresh_tokens Demo.hashpass Demo.hmac Demo.service Demo.env2 Demo.access0
    Demo.db1 None = (Demo.db1, Raise (RefreshFailed WrongTokenType)) /\
  Demo.db1 = Demo.db1.
Proof.
  assert (H : refresh_tokens Demo.hashpass Demo.hmac Demo.service Demo.env2
                Demo.access0 Demo.db1 None
              = (Demo.db1, Raise (RefreshFailed WrongTokenType)))
    by (vm_compute; reflexivity).
  split; [exact H|].
  exact (proj1 (failed_calls_do_not_write Demo.hashpass Demo.hmac Demo.service
                  Demo.env2 Demo.access0 Demo.db1 Demo.db1
                  (RefreshFailed WrongTokenType)) None H).
Defined.

Lemma revoked_row_is_frozen_witness :
  DB.refresh_tokens Demo.db1_revoked !! Uuid.str 3
  = Some (RefreshToken.revoke 1500 Demo.row0) /\
  RefreshToken.is_revoked (RefreshToken.revoke 1500 Demo.row0) = true /\
  DB.refresh_tokens
    (run Demo.hashpass Demo.hmac Demo.service
       [ (Demo.env2, OpLogin "a@u.edu" "correct" None);
         (Demo.env3, OpRefresh Demo.refresh0 None);
         (Demo.env3, OpLogoutAll "u1") ]
       Demo.db1_revoked) !! Uuid.str 3
  = Some (RefreshToken.revoke 1500 Demo.row0).
Proof.
  assert (H1 : DB.refresh_tokens Demo.db1_revoked !! Uuid.str 3
               = Some (RefreshToken.revoke 1500 Demo.row0))
    by (vm_compute; reflexivity).
  assert (H2 : RefreshToken.is_revoked (RefreshToken.revoke 1500 Demo.row0) = true)
    by reflexivity.
  split; [exact H1|]. split; [exact H2|].
  exact (revoked_row_is_frozen Demo.hashpass Demo.hmac Demo.service _
           Demo.db1_revoked (Uuid.str 3) _ H1 H2).
Defined.

Lemma refresh_is_a_rotation_witness :
  exists db' resp,
    refresh_tokens Demo.hashpass Demo.hmac Demo.service Demo.env2 Demo.refresh0
      Demo.db1 None = (db', Ok resp) /\
    DB.users db' = DB.users Demo.db1.
Proof.
  do 2 eexists.
  match goal with
  | |- ?A /\ _ => assert (H : A) by (vm_compute; reflexivity)
  end.
  split; [exact H|].
  destruct (refresh_is_a_rotation _ _ _ _ _ _ _ _ _ H)
    as (? & ? & ? & _ & _ & _ & _ & _ & Hus & _).
  exact Hus.
Defined.

Lemma change_password_effects_witness :
  exists db' msg,
    change_password Demo.hashpass Demo.hmac Demo.service Demo.env2 Demo.access0
      "newsecret" Demo.db1 = (db', Ok msg) /\
    DB.teacher_requests db' = DB.teacher_requests Demo.db1.
Proof.
  do 2 eexists.
  match goal with
  | |- ?A /\ _ => assert (H : A) by (vm_compute; reflexivity)
  end.
  split; [exact H|].
  destruct (change_password_effects _ _ _ _ _ _ _ _ _ H)
    as (u & h & _ & _ & _ & _ & _ & Hreq).
  exact Hreq.
Defined.

Lemma change_password_then_login_witness :
  exists db' msg,
    users_wf Demo.db1 /\
    change_password Demo.hashpass Demo.hmac Demo.service Demo.env2 Demo.access0
      "newsecret" Demo.db1 = (db', Ok msg) /\
    DB.refresh_tokens db' !! Uuid.str (uuid_refresh Demo.env3) = None /\
    exists db'' resp,
      login_with_email_password Demo.hashpass Demo.hmac Demo.service Demo.env3
        "a@u.edu" "newsecret" db' None = (db'', Ok resp).
Proof.
  do 2 eexists.
  match goal with
  | |- _ /\ ?A /\ ?B /\ _ =>
      assert (H1 : A) by (vm_compute; reflexivity);
      assert (H2 : B) by (vm_compute; reflexivity)
  end.
  split; [exact demo_db1_wf|]. split; [exact H1|]. split; [exact H2|].
  destruct (change_password_then_login _ _ _ _ Demo.env3 _ _ _ _ _ None
              demo_db1_wf H1 H2) as (u & db'' & resp & Hu & Hlogin & _).
  assert (Hem : ud_email u = "a@u.edu").
  { assert (Hu' : get_current_user Demo.hmac Demo.service (utcnow Demo.env2)
                    Demo.access0 Demo.db1 = Ok (_user_to_dict Demo.alice))
      by (vm_compute; reflexivity).
    rewrite Hu' in Hu. injection Hu as <-. reflexivity. }
  rewrite Hem in Hlogin.
  exists db'', resp. exact Hlogin.
Defined.

Lemma reset_round_trip_witness :
  users_wf Demo.db1 /\
  user_by_email "a@u.edu" Demo.db1 = Some Demo.alice /\
  utcnow Demo.env1 <= utcnow Demo.env2
    < utcnow Demo.env1 + password_reset_token_expire_minutes Demo.service * 60 /\
  6 <= Str.len "newsecret" /\
  (String.length "newsecret" <= 72)%nat /\
  exists t,
    reset_password_request Demo.hmac Demo.service Demo.env1 "a@u.edu" Demo.db1
    = Ok t /\
    is_Ok (reset_password_with_token Demo.hashpass Demo.hmac Demo.service
             Demo.env2 t "newsecret" Demo.db1).2 = true.
Proof.
  assert (H1 : user_by_email "a@u.edu" Demo.db1 = Some Demo.alice)
    by (vm_compute; reflexivity).
  assert (H2 : utcnow Demo.env1 <= utcnow Demo.env2
               < utcnow Demo.env1
                 + password_reset_token_expire_minutes Demo.service * 60)
    by (cbn; lia).
  assert (H3 : 6 <= Str.len "newsecret") by (vm_compute; discriminate).
  assert (H4 : (String.length "newsecret" <= 72)%nat) by (cbn; lia).
  split; [exact demo_db1_wf|]. split; [exact H1|]. split; [exact H2|].
  split; [exact H3|]. split; [exact H4|].
  destruct (reset_round_trip Demo.hashpass Demo.hmac Demo.service Demo.env1
              Demo.env2 "a@u.edu" "newsecret" Demo.db1 Demo.alice
              demo_db1_wf H1 H2 H3 H4) as (t & h & msg & Ht & _ & Hr).
  exists t. split; [exact Ht|]. now rewrite Hr.
Defined.


Lemma users_wf_preserved_witness :
  users_wf Demo.db0 /\
  users_wf
    (run Demo.hashpass Demo.hmac Demo.service
       [ (Demo.env1, OpLogin "a@u.edu" "correct" None);
         (Demo.env2, OpRegister Demo2.eve_request None);
         (Demo.env3, OpLogoutAll "u1") ]
       Demo.db0).
Proof.
  split; [exact demo_db0_wf|].
  exact (users_wf_preserved Demo.hashpass Demo.hmac Demo.service _ Demo.db0
           demo_db0_wf).
Defined.

Lemma permissions_shape_witness :
  User.role Demo2.root = "admin" /\
  Forall (fun kv => kv.2 = true) (_get_user_permissions Demo2.root).
Proof.
  assert (H : User.role Demo2.root = "admin") by reflexivity.
  split; [exact H|].
  exact (proj2 (permissions_shape Demo2.root) H).
Defined.

Lemma only_admin_deletes_and_manages_witness :
  User.role Demo.alice <> "admin" /\
  Forall (fun k => dict_get k (_get_user_permissions Demo.alice) = Some false)
         admin_only.
Proof.
  assert (H : User.role Demo.alice <> "admin") by discriminate.
  split; [exact H|].
  exact (proj1 (only_admin_deletes_and_manages Demo.alice H)).
Defined.

Lemma demo2_store0_wf : requests_wf Demo2.store0.
Proof.
  unfold requests_wf. cbn. split.
  - apply Forall_singleton. now left.
  - apply NoDup_singleton.
Qed.

Lemma approve_effects_witness :
  exists st' a,
    approve_teacher_request Demo.hashpass Demo.env2 Demo2.draws "r1" "a1"
      Demo2.store0 = (st', Returned a) /\
    check_registration_status (ap_email a) st'
    = Registered true "teacher" (ap_user_id a).
Proof.
  do 2 eexists.
  match goal with
  | |- ?A /\ _ => assert (H : A) by (vm_compute; reflexivity)
  end.
  split; [exact H|].
  destruct (approve_effects _ _ _ _ _ _ _ _ H)
    as (request & u & _ & _ & _ & _ & _ & _ & _ & Hst).
  exact Hst.
Defined.

Lemma approve_then_login_witness :
  exists st' a,
    approve_teacher_request Demo.hashpass Demo.env2 Demo2.draws "r1" "a1"
      Demo2.store0 = (st', Returned a) /\
    Store.refresh_tokens Demo2.store0 !! Uuid.str (uuid_refresh Demo.env3)
    = None /\
    exists db resp,
      login_with_email_password Demo.hashpass Demo.hmac Demo.service Demo.env3
        (ap_email a) (ap_temp_password a) (session_view st') None
      = (db, Ok resp) /\
      ud_role (user resp) = "teacher".
Proof.
  do 2 eexists.
  match goal with
  | |- ?A /\ ?B /\ _ =>
      assert (H1 : A) by (vm_compute; reflexivity);
      assert (H2 : B) by (vm_compute; reflexivity)
  end.
  split; [exact H1|]. split; [exact H2|].
  destruct (approve_then_login Demo.hashpass Demo.hmac Demo.service _ Demo.env3
              _ _ _ _ _ _ None H1 H2) as (db & resp & Hlogin & _ & Hrole).
  exists db, resp. split; [exact Hlogin | exact Hrole].
Defined.

Lemma request_processed_once_witness :
  exists st',
    ((exists a, approve_teacher_request Demo.hashpass Demo.env2 Demo2.draws
                  "r1" "a1" Demo2.store0 = (st', Returned a)) \/
     (exists m, reject_teacher_request 2000 "r1" "a1" "no vacancy" Demo2.store0
                = (st', Returned m))) /\
    approve_teacher_request Demo.hashpass Demo.env3 Demo2.draws "r1" "a1" st'
    = (st', Raised (ApproveFailed RequestNotPending)).
Proof.
  eexists.
  match goal with
  | |- ?A /\ _ =>
      assert (H : A) by (right; eexists; vm_compute; reflexivity)
  end.
  split; [exact H|].
  exact (proj1 (request_processed_once Demo.hashpass Demo.env2 Demo.env3
                  Demo2.draws Demo2.draws 2000 "r1" "a1" "a1" "no vacancy" ""
                  Demo2.store0 _ H)).
Defined.

Lemma requests_wf_preserved_witness :
  requests_wf Demo2.store0 /\
  requests_wf
    (approve_teacher_request Demo.hashpass Demo.env2 Demo2.draws "r1" "a1"
       Demo2.store0).1.
Proof.
  split; [exact demo2_store0_wf|].
  exact (proj1 (proj2 (requests_wf_preserved Demo.hashpass Demo.env2 40
                         Demo2.dave_request Demo2.draws "r1" "a1" ""
                         Demo2.store0 demo2_store0_wf))).
Defined.

Lemma register_teacher_request_effects_witness :
  exists st' request_id,
    requests_wf Demo2.store0 /\
    Str.is_ascii (default "" (trd_email Demo2.dave_request)) = true /\
    register_teacher_request Demo.env2 40 Demo2.dave_request Demo2.store0
    = (st', Returned request_id) /\
    check_registration_status "dave@u.edu" st' = Requested "pending" request_id.
Proof.
  do 2 eexists.
  match goal with
  | |- _ /\ ?A /\ ?B /\ _ =>
      assert (H0 : A) by (vm_compute; reflexivity);
      assert (H : B) by (vm_compute; reflexivity)
  end.
  split; [exact demo2_store0_wf|]. split; [exact H0|]. split; [exact H|].
  destruct (register_teacher_request_effects Demo.hashpass Demo.hmac
              Demo.service Demo.env2 Demo.env3 _ _ _ _ _ "hunter22" None
              demo2_store0_wf H0 eq_refl H)
    as (row & _ & _ & _ & Hem & _ & _ & Hst & _).
  assert (Hd : Str.lower (Str.strip (default "" (trd_email Demo2.dave_request)))
               = "dave@u.edu") by (vm_compute; reflexivity).
  rewrite Hd in Hem. rewrite Hem in Hst. exact Hst.
Defined.

Lemma rejected_cannot_reapply_witness :
  exists st',
    requests_wf Demo2.store0 /\
    reject_teacher_request 2000 "r1" "a1" "no vacancy" Demo2.store0
    = (st', Returned "carol@u.edu") /\
    register_teacher_request Demo.env3 41 Demo2.carol_again st'
    = (st', Raised RequestRejected).
Proof.
  eexists.
  match goal with
  | |- _ /\ ?A /\ _ => assert (H : A) by (vm_compute; reflexivity)
  end.
  split; [exact demo2_store0_wf|]. split; [exact H|].
  apply (rejected_cannot_reapply Demo.env3 2000 41 Demo2.carol_again "r1" "a1"
           "no vacancy" "carol@u.edu" Demo2.store0 _ demo2_store0_wf H).
  - vm_compute; reflexivity.
  - vm_compute; reflexivity.
  - vm_compute; reflexivity.
  - discriminate.
  - vm_compute; reflexivity.
  - vm_compute; discriminate.
  - vm_compute; reflexivity.
Defined.

Lemma approve_endpoints_gate_witness :
  get_current_user Demo.hmac Demo.service (utcnow Demo.env2) Demo.access0
    (session_view Demo2.store0) = Ok (_user_to_dict Demo.alice) /\
  admin_approve_teacher Demo.hashpass Demo.hmac Demo.service Demo.env2
    Demo2.draws "r1" Demo.access0 Demo2.store0
  = (Demo2.store0, HttpError 403) /\
  auth_approve_teacher Demo.hashpass Demo.hmac Demo.service Demo.env2
    Demo2.draws "r1" Demo.access0 Demo2.store0
  = (Demo2.store0, HttpError 500).
Proof.
  assert (H : get_current_user Demo.hmac Demo.service (utcnow Demo.env2)
                Demo.access0 (session_view Demo2.store0)
              = Ok (_user_to_dict Demo.alice)) by (vm_compute; reflexivity).
  split; [exact H|].
  exact (proj1 (approve_endpoints_gate Demo.hashpass Demo.hmac Demo.service
                  Demo.env2 Demo2.draws "r1" Demo.access0 Demo2.store0)
           (_user_to_dict Demo.alice) H).
Defined.

Lemma dependency_gates_witness :
  dep_get_teacher_user Demo.hmac Demo.service 2000 Demo.access0 Demo.db1
  = Http200 (_user_to_dict Demo.alice) /\
  exists x,
    user_by_id "u1" Demo.db1 = Some x /\
    dep_get_admin_user Demo.hmac Demo.service 2000 Demo.access0 Demo.db1
    = if bool_decide (User.role x = "admin")
      then Http200 (_user_to_dict Demo.alice) else HttpError 403.
Proof.
  assert (H : dep_get_teacher_user Demo.hmac Demo.service 2000 Demo.access0
                Demo.db1 = Http200 (_user_to_dict Demo.alice))
    by (vm_compute; reflexivity).
  split; [exact H|].
  destruct (dependency_gates Demo.hmac Demo.service 2000 Demo.access0 Demo.db1
              (_user_to_dict Demo.alice) H)
    as (x & Hx & _ & _ & _ & _ & Hadm).
  exists x. split; [exact Hx | exact Hadm].
Defined.

Lemma create_admin_then_login_witness :
  List.find (fun u => bool_decide (User.role u = "admin")) (DB.users Demo.db1)
  = None /\
  user_by_email "root@u.edu" Demo.db1 = None /\
  user_by_id (Uuid.str (uuid_user Demo.env2)) Demo.db1 = None /\
  DB.refresh_tokens Demo.db1 !! Uuid.str (uuid_refresh Demo.env3) = None /\
  (String.length "admin123" <= 72)%nat /\
  create_admin_user Demo.hashpass Demo.env3 "other@u.edu" "secret99" "Other"
    (create_admin_user Demo.hashpass Demo.env2 "root@u.edu" "admin123" "Root"
       Demo.db1)
  = create_admin_user Demo.hashpass Demo.env2 "root@u.edu" "admin123" "Root"
      Demo.db1.
Proof.
  assert (H1 : List.find (fun u => bool_decide (User.role u = "admin"))
                 (DB.users Demo.db1) = None) by (vm_compute; reflexivity).
  assert (H2 : user_by_email "root@u.edu" Demo.db1 = None)
    by (vm_compute; reflexivity).
  assert (H3 : user_by_id (Uuid.str (uuid_user Demo.env2)) Demo.db1 = None)
    by (vm_compute; reflexivity).
  assert (H4 : DB.refresh_tokens Demo.db1 !! Uuid.str (uuid_refresh Demo.env3)
               = None) by (vm_compute; reflexivity).
  assert (H5 : (String.length "admin123" <= 72)%nat) by (cbn; lia).
  split; [exact H1|]. split; [exact H2|]. split; [exact H3|].
  split; [exact H4|]. split; [exact H5|].
  exact (proj2 (create_admin_then_login Demo.hashpass Demo.hmac Demo.service
                  Demo.env2 Demo.env3 Demo.env3 "root@u.edu" "admin123" "Root"
                  "other@u.edu" "secret99" "Other" Demo.db1 None
                  H1 H2 H3 H4 H5 eq_refl eq_refl eq_refl)).
Defined.
